(** * train_satellites.py: the training orchestration loop

    A shallow embedding of [src/train_satellites.py]: the running-mean
    tracker [AverageMeter], the two passes [train] and [validate], the
    checkpoint writer [save_checkpoint] and the top-level [main] with its
    module-level set-up.

    Conventions.
    - Python floats (losses, learning rates) are idealised as rationals [Q]:
      floats that are numbers, with rounding not modelled.  What [<] and
      [min] do with a loss that is NaN is followed separately, on
      [pyfloat] (see [record_epoch]).
    - Python ints are [Z].
    - Exceptions are values of [exn]; a computation that raises keeps the
      state changes made before the raise.
    - Calls into collaborators (torch, sklearn, the tensorboard logger, the
      file system) are recorded as [event]s, in program order. *)

From Stdlib Require Import ZArith QArith Lqa List Bool Lia.
From stdpp Require Import gmap strings.
Import ListNotations.

Open Scope Z_scope.

(** * The program *)

(** ** Exceptions and results *)

Inductive exn : Type :=
| ValueError (msg : string)
| ZeroDivisionError
| NameError (name : string)
| UnpicklingError
| FileNotFoundError.

Inductive result (A : Type) : Type :=
| Ok (a : A)
| Err (e : exn).
Arguments Ok {A} a.
Arguments Err {A} e.

(** ** Numbers *)

(** [x < y] on Python numbers, as a boolean.  A loss is a rational here:
    a float that is a number; [float_lt] and [float_min] below are the
    same operations on floats that may be NaN. *)
Definition Qltb (x y : Q) : bool :=
  if Qlt_le_dec x y then true else false.

(** Python's two-argument [min(a, b)]: the first argument is kept unless
    the second is strictly smaller. *)
Definition py_min (a b : Q) : Q := if Qltb b a then b else a.

(** [range(a, b)] *)
Definition py_range (a b : Z) : list Z :=
  map (fun k => a + Z.of_nat k) (seq 0 (Z.to_nat (b - a))).

(** ** AverageMeter  (source lines 386-401) *)

Module AverageMeter.

Record t : Type := Build {
  val : Q;
  avg : Q;
  sum : Q;
  count : Z
}.

(** [reset]; [__init__] only calls it. *)
Definition reset : t :=
  {| val := 0; avg := 0; sum := 0; count := 0 |}.

(** [update(val, n)]. The division [self.sum / self.count] raises
    [ZeroDivisionError] when the new count is zero. *)
Definition update (m : t) (v : Q) (n : Z) : result t :=
  let sum' := (sum m + v * inject_Z n)%Q in
  let count' := count m + n in
  if count' =? 0 then Err ZeroDivisionError
  else Ok {| val := v; avg := (sum' / inject_Z count')%Q;
             sum := sum'; count := count' |}.

(** A sequence of updates [(v1, w1), ..., (vn, wn)], in order. *)
Fixpoint updates (m : t) (us : list (Q * Z)) : result t :=
  match us with
  | [] => Ok m
  | (v, w) :: us' =>
      match update m v w with
      | Ok m' => updates m' us'
      | Err e => Err e
      end
  end.

(** [sum(vi * wi)] and [sum(wi)]. *)
Definition weighted_sum (us : list (Q * Z)) : Q :=
  fold_right (fun u acc => (fst u * inject_Z (snd u) + acc)%Q) 0%Q us.

Definition total_weight (us : list (Q * Z)) : Z :=
  fold_right (fun u acc => snd u + acc) 0 us.

End AverageMeter.

(** ** Data *)

(** The command line ([parser.parse_args()], source lines 37-77). *)
Record Args : Type := {
  arch : string;
  workers : Z;
  epochs : Z;
  start_epoch : Z;
  batch_size : Z;
  lr : Q;
  optimizer : string;
  print_freq : Z;
  resume : string;
  lognumber : string;
  preset : string;
  tensorboard : bool;
  augs : bool;
  imsize : Z;
  seed : Z;
  evaluate : bool;
  tensorboard_images : bool
}.

(** The parser's defaults. *)
Definition default_args : Args :=
  {| arch := "linknet34"; workers := 4; epochs := 20; start_epoch := 0;
     batch_size := 256; lr := 1 # 10; optimizer := "adam"; print_freq := 10;
     resume := EmptyString; lognumber := "test_model"; preset := "mul_urban";
     tensorboard := false; augs := false; imsize := 320; seed := 42;
     evaluate := false; tensorboard_images := false |}.

(** [model.state_dict()]: the parameter blob, opaque to this program. *)
Definition state_dict : Type := Z.

(** The dictionary handed to [save_checkpoint] (source lines 229-234). *)
Record checkpoint : Type := {
  ck_epoch : Z;
  ck_arch : string;
  ck_state_dict : state_dict;
  ck_best_val_loss : Q
}.

(** A file is a pickled checkpoint or something else. *)
Inductive file : Type :=
| CheckpointFile (c : checkpoint)
| OtherFile.

(** [get_train_dataset] returns three parallel lists. *)
Record dataset : Type := {
  bit8_imgs : list string;
  bit8_masks : list string;
  cty_no : list Z
}.

(** The four lists [train_test_split] returns. *)
Record split : Type := {
  train_imgs : list string;
  val_imgs : list string;
  train_masks : list string;
  val_masks : list string
}.

(** One item of a [DataLoader]: [input.size(0)] (a loader never yields an
    empty batch) and the value [criterion(model(input), target)] takes on
    it, [loss.data[0]]. *)
Record batch : Type := {
  input_size0 : positive;
  loss_data0 : Q
}.

(** What the program reads from outside itself. *)
Record world : Type := {
  (** the state of numpy's process-wide generator, which sklearn draws on
      when it is given no seed *)
  ambient_rng : Z;
  (** [get_train_dataset(preset, preset_dict)] *)
  get_train_dataset : string -> dataset;
  (** [train_test_split(imgs, masks, test_size, stratify, random_state)],
      run with the ambient generator in the given state *)
  train_test_split :
    Z -> list string -> list string -> Q -> list Z -> option Z -> result split;
  (** freshly initialised model parameters *)
  initial_params : state_dict;
  (** the batches the training and validation loaders yield when they are
      iterated in the given epoch *)
  train_batches : list string -> list string -> Z -> list batch;
  val_batches : list string -> list string -> Z -> list batch
}.

(** The two architectures of lines 115-119. *)
Inductive model_kind : Type := LinkNet34 | UNet11.
Inductive optimizer_kind : Type := Adam | RMSprop.

(** Calls into the collaborators, in program order.  [EvEnterTrain] and
    [EvEnterValidate] mark the calls of [train] and [validate]. *)
Inductive event : Type :=
| EvPrint (what : string)
| EvRmTree (dir : string)
| EvLogger (dir : string)
| EvGetTrainDataset (preset : string)
| EvTrainTestSplit (test_size : Q) (random_state : option Z)
| EvBuildModel (k : model_kind)
| EvTorchLoad (path : string)
| EvLoadStateDict (sd : state_dict)
| EvBuildOptimizer (k : optimizer_kind) (lr : Q)
| EvEnterTrain (epoch : Z)
| EvEnterValidate
| EvModelTrain
| EvModelEval
| EvForward
| EvCriterion
| EvZeroGrad
| EvBackward
| EvOptimizerStep
| EvSchedulerStep (monitored : Q)
| EvScalarSummary (tag : string) (value : Q) (step : Z)
| EvImageSummary (tag : string) (step : Z)
| EvTorchSave (path : string) (c : checkpoint)
| EvCopyFile (src dst : string).

(** ** ReduceLROnPlateau *)

Module ReduceLROnPlateau.

(** Modelled from the spec: the options of torch's scheduler, which is not
    under src/; section 4.4 names a decay factor, a patience, a
    minimum-improvement threshold, a floor and a cooldown. *)
Record config : Type := {
  factor : Q;
  patience : Z;
  threshold : Q;
  min_lr : Q;
  cooldown : Z
}.

(** Modelled from the spec: the scheduler's state of section 3, not under
    src/: best monitored value seen, stale count, cooldown counter. *)
Record t : Type := {
  best : option Q;          (* [None]: nothing seen yet *)
  num_bad_epochs : Z;
  cooldown_counter : Z
}.

(** Modelled from the spec: a fresh scheduler, not under src/. *)
Definition init : t :=
  {| best := None; num_bad_epochs := 0; cooldown_counter := 0 |}.

(** Modelled from the spec: torch's comparison is not under src/.  For a
    minimised monitor, to improve is to be strictly lower than the best
    seen, by more than the threshold (taken relative to the best). *)
Definition is_better (c : config) (v : Q) (b : option Q) : bool :=
  match b with
  | None => true
  | Some b => Qltb v (b * (1 - threshold c))%Q
  end.

(** Modelled from the spec: torch's reduction is not under src/.  The
    step size is multiplied by the decay factor, bounded below by the
    floor. *)
Definition reduced_lr (c : config) (old_lr : Q) : Q :=
  let new_lr := (old_lr * factor c)%Q in
  if Qltb new_lr (min_lr c) then min_lr c else new_lr.

(** Modelled from the spec: torch's [ReduceLROnPlateau.step] is not
    under src/.  Section 4.4: an improvement by more than the threshold
    resets the stale count and updates the best value; otherwise the
    stale count grows; a stale count above the patience multiplies the
    step size by the decay factor, bounded below by the floor, resets
    the stale count and starts the cooldown, during which staleness is
    not counted.  Returns [(step_size_reduced, new_step_size)] and the
    new scheduler state. *)
Definition step (c : config) (s : t) (cur_lr : Q) (v : Q)
  : (bool * Q) * t :=
  let improved := is_better c v (best s) in
  let best1 := if improved then Some v else best s in
  let bad1 := if improved then 0 else num_bad_epochs s + 1 in
  let in_cooldown := 0 <? cooldown_counter s in
  let cd2 := if in_cooldown then cooldown_counter s - 1
             else cooldown_counter s in
  let bad2 := if in_cooldown then 0 else bad1 in
  if patience c <? bad2 then
    let new_lr := reduced_lr c cur_lr in
    ((Qltb new_lr cur_lr, new_lr),
     {| best := best1; num_bad_epochs := 0; cooldown_counter := cooldown c |})
  else
    ((false, cur_lr),
     {| best := best1; num_bad_epochs := bad2; cooldown_counter := cd2 |}).

End ReduceLROnPlateau.

(** The scheduler as [main] configures it (source lines 187-194);
    [cooldown] is left at torch's default. *)
Definition scheduler_config : ReduceLROnPlateau.config :=
  {| ReduceLROnPlateau.factor := 1 # 10;
     ReduceLROnPlateau.patience := 4;
     ReduceLROnPlateau.threshold := 1 # 1000;
     ReduceLROnPlateau.min_lr := 1 # 10000000;
     ReduceLROnPlateau.cooldown := 0 |}.

(** ** Program state *)

(** The module's globals, the file system, and the objects [main] builds
    and hands to [train] and [validate]. *)
Record state : Type := {
  args_start_epoch : Z;              (* [args.start_epoch] *)
  best_val_loss : Q;
  train_minib_counter : Z;
  valid_minib_counter : Z;
  logger : option string;            (* [None]: the name is unbound *)
  fs : gmap string file;
  model_training : bool;             (* [model.training] *)
  model_params : state_dict;
  optimizer_lr : Q;                  (* [param_group['lr']] *)
  scheduler : ReduceLROnPlateau.t
}.

(** The state when the interpreter reaches line 84 (globals of lines
    73-75), on the given file system. *)
Definition initial_state (a : Args) (w : world) (files : gmap string file)
  : state :=
  {| args_start_epoch := start_epoch a;
     best_val_loss := 100;
     train_minib_counter := 0;
     valid_minib_counter := 0;
     logger := None;
     fs := files;
     model_training := true;
     model_params := initial_params w;
     optimizer_lr := lr a;
     scheduler := ReduceLROnPlateau.init |}.

Definition set_args_start_epoch (v : Z) (s : state) : state :=
  {| args_start_epoch := v; best_val_loss := best_val_loss s;
     train_minib_counter := train_minib_counter s;
     valid_minib_counter := valid_minib_counter s; logger := logger s;
     fs := fs s; model_training := model_training s;
     model_params := model_params s; optimizer_lr := optimizer_lr s;
     scheduler := scheduler s |}.

Definition set_best_val_loss (v : Q) (s : state) : state :=
  {| args_start_epoch := args_start_epoch s; best_val_loss := v;
     train_minib_counter := train_minib_counter s;
     valid_minib_counter := valid_minib_counter s; logger := logger s;
     fs := fs s; model_training := model_training s;
     model_params := model_params s; optimizer_lr := optimizer_lr s;
     scheduler := scheduler s |}.

Definition set_train_minib_counter (v : Z) (s : state) : state :=
  {| args_start_epoch := args_start_epoch s; best_val_loss := best_val_loss s;
     train_minib_counter := v;
     valid_minib_counter := valid_minib_counter s; logger := logger s;
     fs := fs s; model_training := model_training s;
     model_params := model_params s; optimizer_lr := optimizer_lr s;
     scheduler := scheduler s |}.

Definition set_valid_minib_counter (v : Z) (s : state) : state :=
  {| args_start_epoch := args_start_epoch s; best_val_loss := best_val_loss s;
     train_minib_counter := train_minib_counter s;
     valid_minib_counter := v; logger := logger s;
     fs := fs s; model_training := model_training s;
     model_params := model_params s; optimizer_lr := optimizer_lr s;
     scheduler := scheduler s |}.

Definition set_logger (v : option string) (s : state) : state :=
  {| args_start_epoch := args_start_epoch s; best_val_loss := best_val_loss s;
     train_minib_counter := train_minib_counter s;
     valid_minib_counter := valid_minib_counter s; logger := v;
     fs := fs s; model_training := model_training s;
     model_params := model_params s; optimizer_lr := optimizer_lr s;
     scheduler := scheduler s |}.

Definition set_fs (v : gmap string file) (s : state) : state :=
  {| args_start_epoch := args_start_epoch s; best_val_loss := best_val_loss s;
     train_minib_counter := train_minib_counter s;
     valid_minib_counter := valid_minib_counter s; logger := logger s;
     fs := v; model_training := model_training s;
     model_params := model_params s; optimizer_lr := optimizer_lr s;
     scheduler := scheduler s |}.

Definition set_model_training (v : bool) (s : state) : state :=
  {| args_start_epoch := args_start_epoch s; best_val_loss := best_val_loss s;
     train_minib_counter := train_minib_counter s;
     valid_minib_counter := valid_minib_counter s; logger := logger s;
     fs := fs s; model_training := v;
     model_params := model_params s; optimizer_lr := optimizer_lr s;
     scheduler := scheduler s |}.

Definition set_model_params (v : state_dict) (s : state) : state :=
  {| args_start_epoch := args_start_epoch s; best_val_loss := best_val_loss s;
     train_minib_counter := train_minib_counter s;
     valid_minib_counter := valid_minib_counter s; logger := logger s;
     fs := fs s; model_training := model_training s;
     model_params := v; optimizer_lr := optimizer_lr s;
     scheduler := scheduler s |}.

Definition set_optimizer_lr (v : Q) (s : state) : state :=
  {| args_start_epoch := args_start_epoch s; best_val_loss := best_val_loss s;
     train_minib_counter := train_minib_counter s;
     valid_minib_counter := valid_minib_counter s; logger := logger s;
     fs := fs s; model_training := model_training s;
     model_params := model_params s; optimizer_lr := v;
     scheduler := scheduler s |}.

Definition set_scheduler (v : ReduceLROnPlateau.t) (s : state) : state :=
  {| args_start_epoch := args_start_epoch s; best_val_loss := best_val_loss s;
     train_minib_counter := train_minib_counter s;
     valid_minib_counter := valid_minib_counter s; logger := logger s;
     fs := fs s; model_training := model_training s;
     model_params := model_params s; optimizer_lr := optimizer_lr s;
     scheduler := v |}.

(** ** A monad for state, exceptions and the event trace *)

Record outcome (A : Type) : Type := Outcome {
  res : result A;
  st : state;
  tr : list event
}.
Arguments Outcome {A} res st tr.
Arguments res {A} o.
Arguments st {A} o.
Arguments tr {A} o.

Definition M (A : Type) : Type := state -> outcome A.

Definition ret {A} (x : A) : M A := fun s => Outcome (Ok x) s [].

Definition bind {A B} (m : M A) (f : A -> M B) : M B :=
  fun s =>
    match m s with
    | Outcome (Ok x) s1 t1 =>
        match f x s1 with
        | Outcome r s2 t2 => Outcome r s2 (t1 ++ t2)
        end
    | Outcome (Err e) s1 t1 => Outcome (Err e) s1 t1
    end.

Definition raise {A} (e : exn) : M A := fun s => Outcome (Err e) s [].
Definition emit (ev : event) : M unit := fun s => Outcome (Ok tt) s [ev].
Definition gets {A} (f : state -> A) : M A := fun s => Outcome (Ok (f s)) s [].
Definition modify (f : state -> state) : M unit :=
  fun s => Outcome (Ok tt) (f s) [].

Definition lift {A} (r : result A) : M A :=
  match r with Ok x => ret x | Err e => raise e end.

Definition when (b : bool) (m : M unit) : M unit :=
  if b then m else ret tt.

Declare Scope prog_scope.
Delimit Scope prog_scope with prog.
Notation "x <- m ;; k" := (bind m (fun x => k))
  (at level 100, m at next level, right associativity) : prog_scope.
Notation "m ;; k" := (bind m (fun _ => k))
  (at level 100, right associativity) : prog_scope.
Open Scope prog_scope.

(** [for x in l: body(x)] *)
Fixpoint for_each {A} (body : A -> M unit) (l : list A) : M unit :=
  match l with
  | [] => ret tt
  | x :: l' => body x ;; for_each body l'
  end.

(** [for i, x in enumerate(l)], threading the loop's local [acc]. *)
Fixpoint for_enumerate {A L} (body : Z -> A -> L -> M L)
    (i : Z) (l : list A) (acc : L) : M L :=
  match l with
  | [] => ret acc
  | x :: l' => acc' <- body i x acc ;; for_enumerate body (i + 1) l' acc'
  end.

(** [i % n] *)
Definition py_mod (i n : Z) : M Z :=
  if n =? 0 then raise ZeroDivisionError else ret (i mod n).

(** Truthiness of a string: non-empty. *)
Definition py_bool_str (s : string) : bool :=
  match s with EmptyString => false | String _ _ => true end.

(** ** The logger and the file system *)

(** [logger.scalar_summary(tag, value, step)]; the global [logger] is bound
    only when [args.tensorboard] holds (line 91). *)
Definition scalar_summary (tag : string) (value : Q) (step : Z) : M unit :=
  l <- gets logger ;;
  match l with
  | Some _ => emit (EvScalarSummary tag value step)
  | None => raise (NameError "logger")
  end.

(** [logger.image_summary(tag, images, step)] *)
Definition image_summary (tag : string) (step : Z) : M unit :=
  l <- gets logger ;;
  match l with
  | Some _ => emit (EvImageSummary tag step)
  | None => raise (NameError "logger")
  end.

(** [torch.save(state, filename)]: the target directory is taken to exist. *)
Definition torch_save (c : checkpoint) (filename : string) : M unit :=
  emit (EvTorchSave filename c) ;;
  modify (fun s => set_fs (<[filename := CheckpointFile c]> (fs s)) s).

(** [shutil.copyfile(src, dst)] *)
Definition copyfile (src dst : string) : M unit :=
  files <- gets fs ;;
  match files !! src with
  | Some f =>
      emit (EvCopyFile src dst) ;;
      modify (fun s => set_fs (<[dst := f]> (fs s)) s)
  | None => raise FileNotFoundError
  end.

(** [torch.load(path)] *)
Definition torch_load (path : string) : M checkpoint :=
  emit (EvTorchLoad path) ;;
  files <- gets fs ;;
  match files !! path with
  | Some (CheckpointFile c) => ret c
  | Some OtherFile => raise UnpicklingError
  | None => raise FileNotFoundError
  end.

(** [shutil.rmtree(dir)] inside [try: ... except: pass]: every file below
    [dir] goes; a missing directory is not an error.  Paths are compared
    as the program spells them. *)
Definition rmtree_quiet (dir : string) : M unit :=
  emit (EvRmTree dir) ;;
  modify (fun s =>
    set_fs (filter (fun kv => String.prefix dir kv.1 = false) (fs s)) s).

(** [save_checkpoint]  (source lines 381-384) *)
Definition save_checkpoint (c : checkpoint) (is_best : bool)
    (filename best_filename : string) : M unit :=
  torch_save c filename ;;
  when is_best (copyfile filename best_filename).

(** [scheduler.step(val_loss)] with [verbose = True] *)
Definition scheduler_step (v : Q) : M unit :=
  emit (EvSchedulerStep v) ;;
  sch <- gets scheduler ;;
  cur <- gets optimizer_lr ;;
  let o := ReduceLROnPlateau.step scheduler_config sch cur v in
  modify (set_scheduler (snd o)) ;;
  modify (set_optimizer_lr (snd (fst o))) ;;
  when (fst (fst o)) (emit (EvPrint "reducing learning rate")).

(** ** The passes and [main] *)

Section Program.

Variable a : Args.
Variable w : world.

(** One iteration of the loop of [train]  (source lines 252-295).  The
    timing meters [batch_time] and [data_time] only feed the printed
    line and are left out. *)
Definition train_batch (epoch : Z) (i : Z) (b : batch)
    (losses : AverageMeter.t) : M AverageMeter.t :=
  emit EvForward ;;
  emit EvCriterion ;;
  losses' <- lift (AverageMeter.update losses (loss_data0 b)
                     (Z.pos (input_size0 b))) ;;
  emit EvZeroGrad ;;
  emit EvBackward ;;
  when (tensorboard a)
    (c <- gets train_minib_counter ;;
     scalar_summary "train_loss" (AverageMeter.val losses') c) ;;
  modify (fun s => set_train_minib_counter (train_minib_counter s + 1) s) ;;
  r <- py_mod i (print_freq a) ;;
  when (r =? 0) (emit (EvPrint "Epoch")) ;;
  ret losses'.

(** [train]  (source lines 240-299) *)
Definition train (train_loader : list batch) (epoch : Z) : M Q :=
  emit (EvEnterTrain epoch) ;;
  emit EvModelTrain ;;
  modify (set_model_training true) ;;
  losses <- for_enumerate (train_batch epoch) 0 train_loader
              AverageMeter.reset ;;
  emit (EvPrint " * Avg Train Loss") ;;
  ret (AverageMeter.avg losses).

(** One of the three image blocks of [validate]. *)
Definition show_images (tag : string) (i : Z) : M unit :=
  when (tensorboard_images a)
    (r <- py_mod i (print_freq a) ;;
     when (r =? 0)
       (c <- gets train_minib_counter ;;
        image_summary tag c)).

(** One iteration of the loop of [validate]  (source lines 312-375) *)
Definition validate_batch (i : Z) (b : batch) (losses : AverageMeter.t)
    : M AverageMeter.t :=
  emit EvForward ;;
  show_images "images" i ;;
  show_images "masks" i ;;
  show_images "preds" i ;;
  emit EvCriterion ;;
  losses' <- lift (AverageMeter.update losses (loss_data0 b)
                     (Z.pos (input_size0 b))) ;;
  when (tensorboard a)
    (c <- gets valid_minib_counter ;;
     scalar_summary "valid_loss" (AverageMeter.val losses') c) ;;
  modify (fun s => set_valid_minib_counter (valid_minib_counter s + 1) s) ;;
  r <- py_mod i (print_freq a) ;;
  when (r =? 0) (emit (EvPrint "Test")) ;;
  ret losses'.

(** [validate]  (source lines 301-379) *)
Definition validate (val_loader : list batch) : M Q :=
  emit EvEnterValidate ;;
  emit EvModelEval ;;
  modify (set_model_training false) ;;
  losses <- for_enumerate validate_batch 0 val_loader AverageMeter.reset ;;
  emit (EvPrint " * Avg Val Loss") ;;
  ret (AverageMeter.avg losses).

Definition tb_log_dir : string := "tb_logs/" +:+ lognumber a +:+ "/".
Definition latest_path : string :=
  "weights/" +:+ lognumber a +:+ "_checkpoint.pth.tar".
Definition best_path : string :=
  "weights/" +:+ lognumber a +:+ "_best.pth.tar".

(** Module-level statements after the globals  (source lines 77-92).
    What the logger writes below its own directory is not part of [fs]. *)
Definition module_setup : M unit :=
  emit (EvPrint "args") ;;
  rmtree_quiet tb_log_dir ;;
  when (tensorboard a)
    (emit (EvLogger ("./tb_logs/" +:+ lognumber a)) ;;
     modify (set_logger (Some ("./tb_logs/" +:+ lognumber a)))).

(** Lines 115-121 *)
Definition select_model : M model_kind :=
  if String.prefix "linknet34" (arch a) then ret LinkNet34
  else if String.prefix "unet11" (arch a) then ret UNet11
  else raise (ValueError "Model not supported").

(** Lines 178-185 *)
Definition select_optimizer : M optimizer_kind :=
  if String.prefix "adam" (optimizer a) then ret Adam
  else if String.prefix "rmsprop" (optimizer a) then ret RMSprop
  else raise (ValueError "Optimizer not supported").

(** Lines 128-138 *)
Definition resume_checkpoint : M unit :=
  when (py_bool_str (resume a))
    (files <- gets fs ;;
     match files !! resume a with
     | Some _ =>
         emit (EvPrint "=> loading checkpoint") ;;
         ck <- torch_load (resume a) ;;
         modify (set_args_start_epoch (ck_epoch ck)) ;;
         modify (set_best_val_loss (ck_best_val_loss ck)) ;;
         emit (EvLoadStateDict (ck_state_dict ck)) ;;
         modify (set_model_params (ck_state_dict ck)) ;;
         emit (EvPrint "=> loaded checkpoint")
     | None => emit (EvPrint "=> no checkpoint found")
     end).

(** The end of an epoch, once both passes have returned: scheduler,
    epoch-level logs, best-so-far bookkeeping and the checkpoint
    (source lines 209-238). *)
Definition epoch_finish (epoch : Z) (train_loss val_loss : Q) : M unit :=
  scheduler_step val_loss ;;
  when (tensorboard a)
    (scalar_summary "train_epoch_loss" train_loss (epoch + 1) ;;
     scalar_summary "valid_epoch_loss" val_loss (epoch + 1)) ;;
  best <- gets best_val_loss ;;
  let is_best := Qltb val_loss best in
  modify (set_best_val_loss (py_min val_loss best)) ;;
  best' <- gets best_val_loss ;;
  params <- gets model_params ;;
  save_checkpoint
    {| ck_epoch := epoch + 1; ck_arch := arch a;
       ck_state_dict := params; ck_best_val_loss := best' |}
    is_best latest_path best_path.

(** The body of the epoch loop  (source lines 200-238) *)
Definition epoch_body (sp : split) (epoch : Z) : M unit :=
  train_loss <- train (train_batches w (train_imgs sp) (train_masks sp)
                         epoch) epoch ;;
  val_loss <- validate (val_batches w (val_imgs sp) (val_masks sp)
                          epoch) ;;
  epoch_finish epoch train_loss val_loss.

(** The call of lines 103-107 on the lists of line 98: a fifth of the
    items for validation, stratified by [cty_no], seeded with
    [args.seed]. *)
Definition split_call : result split :=
  let ds := get_train_dataset w (preset a) in
  train_test_split w (ambient_rng w) (bit8_imgs ds) (bit8_masks ds)
    (1 # 5) (cty_no ds) (Some (seed a)).

(** Lines 98-113: the data set and its partition *)
Definition load_and_split : M split :=
  emit (EvGetTrainDataset (preset a)) ;;
  emit (EvTrainTestSplit (1 # 5) (Some (seed a))) ;;
  sp <- lift split_call ;;
  emit (EvPrint "Train images") ;;
  ret sp.

(** [main] up to the scheduler  (source lines 98-194).  The data sets,
    loaders and the criterion of lines 142-176 are plain constructions. *)
Definition main_init : M split :=
  sp <- load_and_split ;;
  kind <- select_model ;;
  emit (EvBuildModel kind) ;;
  resume_checkpoint ;;
  okind <- select_optimizer ;;
  emit (EvBuildOptimizer okind (lr a)) ;;
  modify (set_optimizer_lr (lr a)) ;;
  modify (set_scheduler ReduceLROnPlateau.init) ;;
  ret sp.

(** The rest of [main]  (source lines 196-238) *)
Definition main_loop (sp : split) : M unit :=
  start <- gets args_start_epoch ;;
  if evaluate a then
    validate (val_batches w (val_imgs sp) (val_masks sp) start) ;;
    ret tt
  else
    for_each (epoch_body sp) (py_range start (epochs a)).

(** [main]  (source lines 94-238) *)
Definition main : M unit :=
  sp <- main_init ;;
  main_loop sp.

(** The script, top to bottom. *)
Definition script : M unit := module_setup ;; main.

End Program.

(** Running the script from a fresh interpreter on a given file system. *)
Definition run (a : Args) (w : world) (files : gmap string file)
  : outcome unit :=
  script a w (initial_state a w files).

(** * Vocabulary of the properties *)

(** ** A program logic for [M]

    [hoare P m Q X E]: from a state satisfying [P], [m] emits only events
    satisfying [E]; if it returns [x], the final state satisfies [Q x]; if
    it raises, the final state satisfies [X]. *)

Definition hoare {A} (P : state -> Prop) (m : M A)
    (Q : A -> state -> Prop) (X : state -> Prop) (E : event -> Prop) : Prop :=
  forall s, P s ->
    Forall E (tr (m s)) /\
    match res (m s) with
    | Ok x => Q x (st (m s))
    | Err _ => X (st (m s))
    end.

(** [preserves I E m]: [I] is kept whether [m] returns or raises. *)
Definition preserves {A} (I : state -> Prop) (E : event -> Prop) (m : M A)
  : Prop :=
  hoare I m (fun _ => I) I E.

(** ** Counting events *)

Fixpoint count_events (p : event -> bool) (t : list event) : nat :=
  match t with
  | [] => 0%nat
  | ev :: t' => ((if p ev then 1 else 0) + count_events p t')%nat
  end.

Definition is_optimizer_step (ev : event) : bool :=
  match ev with EvOptimizerStep => true | _ => false end.

(** The number of parameter updates a trace contains. *)
Definition parameter_updates (t : list event) : nat :=
  count_events is_optimizer_step t.

(** ** The training pass *)

(** Everything [train] can emit. *)
Definition train_event (ev : event) : Prop :=
  match ev with
  | EvEnterTrain _ | EvModelTrain | EvForward | EvCriterion | EvZeroGrad
  | EvBackward | EvPrint _ | EvScalarSummary _ _ _ => True
  | _ => False
  end.

Definition one_batch : list batch :=
  [ {| input_size0 := 4; loss_data0 := 1 # 2 |} ].

(** ** The validation pass *)

(** Events that change the parameters or leave inference mode. *)
Definition inference_event (ev : event) : Prop :=
  match ev with
  | EvOptimizerStep | EvZeroGrad | EvBackward | EvLoadStateDict _
  | EvModelTrain | EvEnterTrain _ => False
  | _ => True
  end.

(** What the body of [validate] keeps once [model.eval()] is done. *)
Definition in_eval_mode (s0 s : state) : Prop :=
  model_training s = false /\
  model_params s = model_params s0 /\
  optimizer_lr s = optimizer_lr s0.

(** The steps [validate] may log at, entered with training counter [c] and
    validation counter [v0]. *)
Definition validate_log_steps (c v0 : Z) (ev : event) : Prop :=
  match ev with
  | EvImageSummary _ step => step = c
  | EvScalarSummary tag _ step => tag = "valid_loss" /\ v0 <= step
  | _ => True
  end.

(** ** The scheduler's floor *)

(** The learning rate after feeding the monitored values [vs], in order. *)
Fixpoint lr_after (c : ReduceLROnPlateau.config) (s : ReduceLROnPlateau.t)
    (cur : Q) (vs : list Q) : Q :=
  match vs with
  | [] => cur
  | v :: vs' =>
      let '((_, new_lr), s') := ReduceLROnPlateau.step c s cur v in
      lr_after c s' new_lr vs'
  end.

(** ** What a pass returns *)

(** The [(value, weight)] pairs a pass feeds to its loss meter. *)
Definition batch_updates (bs : list batch) : list (Q * Z) :=
  map (fun b => (loss_data0 b, Z.pos (input_size0 b))) bs.

(** The mean loss of a pass over the batches [bs]. *)
Definition pass_mean (bs : list batch) : Q :=
  match AverageMeter.updates AverageMeter.reset (batch_updates bs) with
  | Ok m => AverageMeter.avg m
  | Err _ => 0
  end.

(** ** What a pass leaves alone *)

(** Everything but the two batch counters and the model's mode. *)
Definition pass_frame (s0 s : state) : Prop :=
  args_start_epoch s = args_start_epoch s0 /\
  best_val_loss s = best_val_loss s0 /\
  logger s = logger s0 /\
  fs s = fs s0 /\
  model_params s = model_params s0 /\
  optimizer_lr s = optimizer_lr s0 /\
  scheduler s = scheduler s0.

(** Everything [validate] can emit. *)
Definition validate_event (ev : event) : Prop :=
  match ev with
  | EvEnterValidate | EvModelEval | EvForward | EvCriterion | EvPrint _
  | EvScalarSummary _ _ _ | EvImageSummary _ _ => True
  | _ => False
  end.

(** ** Running straight-line code

    [wp m s K]: the outcome of [m] from [s] satisfies [K]. *)

Definition wp {A} (m : M A) (s : state)
    (K : result A -> state -> list event -> Prop) : Prop :=
  K (res (m s)) (st (m s)) (tr (m s)).

(** ** The end of an epoch *)

Definition is_fs_event (ev : event) : bool :=
  match ev with
  | EvTorchSave _ _ | EvCopyFile _ _ | EvRmTree _ => true
  | _ => false
  end.

(** The file-system calls of a trace, in order. *)
Definition fs_events (t : list event) : list event :=
  List.filter is_fs_event t.

(** Everything [epoch_finish] can emit. *)
Definition finish_event (ev : event) : Prop :=
  match ev with
  | EvSchedulerStep _ | EvPrint _ | EvScalarSummary _ _ _ | EvTorchSave _ _
  | EvCopyFile _ _ => True
  | _ => False
  end.

(** The record line 229 builds in epoch [e] when validation returned [vl]
    in state [s]. *)
Definition epoch_checkpoint (a : Args) (e : Z) (vl : Q) (s : state)
  : checkpoint :=
  {| ck_epoch := e + 1; ck_arch := arch a;
     ck_state_dict := model_params s;
     ck_best_val_loss := py_min vl (best_val_loss s) |}.

(** The configuration under which a pass cannot raise: a non-zero print
    frequency, and image logging only together with the logger. *)
Definition passes_configured (a : Args) : Prop :=
  print_freq a <> 0 /\
  (tensorboard_images a = true -> tensorboard a = true).

(** The global [logger] is bound if the passes will use it. *)
Definition logger_bound (a : Args) (s : state) : Prop :=
  tensorboard a = true -> logger s <> None.

(** The invariant of a pass's loop: the meter's count is not negative and
    the logger is the one the pass started with. *)
Definition meter_invariant (l0 : option string) (acc : AverageMeter.t)
    (s : state) : Prop :=
  0 <= AverageMeter.count acc /\ logger s = l0.

Definition no_raise : state -> Prop := fun _ => False.
Definition any_event : event -> Prop := fun _ => True.

(** ** One epoch *)

(** The epochs for which [train] was called, in order. *)
Definition trained_epochs (t : list event) : list Z :=
  flat_map (fun ev => match ev with EvEnterTrain e => [e] | _ => [] end) t.

Definition not_enter_train (ev : event) : Prop :=
  match ev with EvEnterTrain _ => False | _ => True end.

(** ** Up to the epoch loop *)

(** The file system once line 86 has run. *)
Definition after_rmtree (a : Args) (files : gmap string file)
  : gmap string file :=
  filter (fun kv => String.prefix (tb_log_dir a) kv.1 = false) files.

(** The file [main] would resume from, if any. *)
Definition resume_file (a : Args) (files : gmap string file) : option file :=
  if py_bool_str (resume a) then after_rmtree a files !! resume a else None.

(** Everything the script can emit before the first pass. *)
Definition init_event (ev : event) : Prop :=
  match ev with
  | EvPrint _ | EvRmTree _ | EvLogger _ | EvGetTrainDataset _
  | EvTrainTestSplit _ _ | EvBuildModel _ | EvTorchLoad _
  | EvLoadStateDict _ | EvBuildOptimizer _ _ => True
  | _ => False
  end.

(** The script up to the scheduler: lines 77-194. *)
Definition script_init (a : Args) (w : world) : M split :=
  module_setup a ;; main_init a w.

(** The identifiers lines 115-121 and 178-185 accept. *)
Definition arch_supported (a : Args) : bool :=
  String.prefix "linknet34" (arch a) || String.prefix "unet11" (arch a).

Definition optimizer_supported (a : Args) : bool :=
  String.prefix "adam" (optimizer a) || String.prefix "rmsprop" (optimizer a).

(** ** A small world to run the script in *)

Definition demo_dataset : dataset :=
  {| bit8_imgs := ["img_a"; "img_b"; "img_c"];
     bit8_masks := ["mask_a"; "mask_b"; "mask_c"];
     cty_no := [2; 2; 3] |}.

Definition rotate_left {A} (k : nat) (l : list A) : list A :=
  skipn k l ++ firstn k l.

(** A splitter that draws on the ambient generator only when it is given
    no seed. *)
Definition demo_train_test_split (g : Z) (imgs masks : list string)
    (test_size : Q) (stratify : list Z) (random_state : option Z)
  : result split :=
  match imgs with
  | [] => Err (ValueError "empty data set")
  | _ :: _ =>
      let r := match random_state with Some s => s | None => g end in
      let k := Z.to_nat (r mod Z.of_nat (length imgs)) in
      Ok {| train_imgs := skipn 1 (rotate_left k imgs);
            val_imgs := firstn 1 (rotate_left k imgs);
            train_masks := skipn 1 (rotate_left k masks);
            val_masks := firstn 1 (rotate_left k masks) |}
  end.

(** Two training batches an epoch, and one validation batch whose loss in
    epoch [e] is [val_loss e]. *)
Definition demo_world (g : Z) (val_loss : Z -> Q) : world :=
  {| ambient_rng := g;
     get_train_dataset := fun _ => demo_dataset;
     train_test_split := demo_train_test_split;
     initial_params := 0;
     train_batches := fun _ _ _ =>
       [ {| input_size0 := 2; loss_data0 := 1 |};
         {| input_size0 := 1; loss_data0 := 3 |} ];
     val_batches := fun _ _ e =>
       [ {| input_size0 := 1; loss_data0 := val_loss e |} ] |}.

Definition demo_split : split :=
  {| train_imgs := ["img_b"; "img_c"]; val_imgs := ["img_a"];
     train_masks := ["mask_b"; "mask_c"]; val_masks := ["mask_a"] |}.

(** A first run of three epochs, and the run that resumes from the
    checkpoint it leaves. *)
Definition first_args : Args :=
  {| arch := "linknet34"; workers := 4; epochs := 3; start_epoch := 0;
     batch_size := 256; lr := 1 # 10; optimizer := "adam"; print_freq := 10;
     resume := EmptyString; lognumber := "test_model"; preset := "mul_urban";
     tensorboard := true; augs := false; imsize := 320; seed := 42;
     evaluate := false; tensorboard_images := true |}.

Definition resumed_args : Args :=
  {| arch := "linknet34"; workers := 4; epochs := 5; start_epoch := 0;
     batch_size := 256; lr := 1 # 10; optimizer := "adam"; print_freq := 10;
     resume := "weights/test_model_checkpoint.pth.tar";
     lognumber := "test_model"; preset := "mul_urban";
     tensorboard := true; augs := false; imsize := 320; seed := 42;
     evaluate := false; tensorboard_images := true |}.

Definition falling_loss (e : Z) : Q := inject_Z (10 - e).

Definition files_after_epoch_2 : gmap string file :=
  fs (st (run first_args (demo_world 0 falling_loss) ∅)).

Definition checkpoint_after_epoch_2 : checkpoint :=
  match files_after_epoch_2 !! resume resumed_args with
  | Some (CheckpointFile c) => c
  | _ => {| ck_epoch := 0; ck_arch := EmptyString; ck_state_dict := 0;
            ck_best_val_loss := 0 |}
  end.

(** ** A run whose validation loss never drops below 100 *)

(** The invariant of a loop without improvement: the best loss is still
    100 and the best file is as it was. *)
Definition still_at_100 (a : Args) (f0 : option file) (s : state) : Prop :=
  (best_val_loss s == 100)%Q /\ fs s !! best_path a = f0.

Definition not_copy (ev : event) : Prop :=
  match ev with EvCopyFile _ _ => False | _ => True end.

(** ** Configuration errors *)

(** No effect outside the process but printing: the files are as they
    were and no collaborator was called. *)
Definition side_effect_free (files : gmap string file) (o : outcome unit)
  : Prop :=
  fs (st o) = files /\
  Forall (fun ev => match ev with EvPrint _ => True | _ => False end) (tr o).

Definition bad_arch_args : Args :=
  {| arch := "not_a_real_model"; workers := 4; epochs := 20;
     start_epoch := 0; batch_size := 256; lr := 1 # 10; optimizer := "adam";
     print_freq := 10; resume := EmptyString; lognumber := "test_model";
     preset := "mul_urban"; tensorboard := false; augs := false;
     imsize := 320; seed := 42; evaluate := false;
     tensorboard_images := false |}.

Definition bad_optimizer_args : Args :=
  {| arch := "unet11"; workers := 4; epochs := 20;
     start_epoch := 0; batch_size := 256; lr := 1 # 10; optimizer := "sgd";
     print_freq := 10; resume := EmptyString; lognumber := "test_model";
     preset := "mul_urban"; tensorboard := false; augs := false;
     imsize := 320; seed := 42; evaluate := false;
     tensorboard_images := false |}.

(** Logs of an earlier run of the same name. *)
Definition old_logs : gmap string file :=
  {[ "tb_logs/test_model/events.out.tfevents" := OtherFile ]}.

(** * Further vocabulary *)

(** ** Logs and counts of a pass *)

Definition is_scalar_summary (ev : event) : bool :=
  match ev with EvScalarSummary _ _ _ => true | _ => false end.

Definition is_image_summary (ev : event) : bool :=
  match ev with EvImageSummary _ _ => true | _ => false end.

Definition is_forward (ev : event) : bool :=
  match ev with EvForward => true | _ => false end.

Definition is_backward (ev : event) : bool :=
  match ev with EvBackward => true | _ => false end.

Definition is_zero_grad (ev : event) : bool :=
  match ev with EvZeroGrad => true | _ => false end.

(** The scalar logs and the image logs of a trace, in order. *)
Definition scalar_logs (t : list event) : list event :=
  List.filter is_scalar_summary t.

Definition image_logs (t : list event) : list event :=
  List.filter is_image_summary t.

(** One scalar log a batch: the batch's own loss, at consecutive steps
    from [c]. *)
Fixpoint per_batch_logs (tag : string) (c : Z) (bs : list batch)
  : list event :=
  match bs with
  | [] => []
  | b :: bs' =>
      EvScalarSummary tag (loss_data0 b) c :: per_batch_logs tag (c + 1) bs'
  end.

(** Three image logs at step [c] for every batch whose index is a
    multiple of the print frequency, indices counted from [i]. *)
Fixpoint per_batch_images (pf c i : Z) (bs : list batch) : list event :=
  match bs with
  | [] => []
  | _ :: bs' =>
      (if i mod pf =? 0
       then [EvImageSummary "images" c; EvImageSummary "masks" c;
             EvImageSummary "preds" c]
       else []) ++ per_batch_images pf c (i + 1) bs'
  end.

(** ** Calls the script may or may not make *)

Definition is_torch_load (ev : event) : bool :=
  match ev with EvTorchLoad _ | EvLoadStateDict _ => true | _ => false end.

(** Calls of the tensorboard logger, its construction included. *)
Definition logger_call (ev : event) : Prop :=
  match ev with
  | EvLogger _ | EvScalarSummary _ _ _ | EvImageSummary _ _ => True
  | _ => False
  end.



(** The same arguments with image logging switched off. *)
Definition without_images (a : Args) : Args :=
  {| arch := arch a; workers := workers a; epochs := epochs a;
     start_epoch := start_epoch a; batch_size := batch_size a; lr := lr a;
     optimizer := optimizer a; print_freq := print_freq a;
     resume := resume a; lognumber := lognumber a; preset := preset a;
     tensorboard := tensorboard a; augs := augs a; imsize := imsize a;
     seed := seed a; evaluate := evaluate a; tensorboard_images := false |}.

(** The epoch the loop starts from: the resumed checkpoint's, or
    [--start-epoch]. *)
Definition first_epoch (a : Args) (files : gmap string file) : Z :=
  match resume_file a files with
  | Some (CheckpointFile ck) => ck_epoch ck
  | _ => start_epoch a
  end.

(** ** What the checkpoint files record *)

(** The latest file holds a checkpoint with the given epoch that records
    the state's best loss and parameters, for the architecture of the
    run. *)
Definition latest_records (a : Args) (epoch : Z) (s : state) : Prop :=
  exists ck,
    fs s !! latest_path a = Some (CheckpointFile ck) /\
    ck_epoch ck = epoch /\
    ck_arch ck = arch a /\
    ck_best_val_loss ck = best_val_loss s /\
    ck_state_dict ck = model_params s.

Definition no_logger_call (ev : event) : Prop := ~ logger_call ev.

Definition no_image_log (ev : event) : Prop :=
  match ev with EvImageSummary _ _ => False | _ => True end.

(** ** Over the epochs of a loop *)

(** The validation mean loss of epoch [e]. *)
Definition epoch_val_loss (w : world) (sp : split) (e : Z) : Q :=
  pass_mean (val_batches w (val_imgs sp) (val_masks sp) e).

(** The number of batches the loader [f] yields over the epochs [l]. *)
Definition batches_seen (f : Z -> list batch) (l : list Z) : Z :=
  fold_right (fun e n => Z.of_nat (length (f e)) + n) 0 l.

(** ** The best loss when a loss may be NaN
       (source lines 226-238 and 381-384)

    Everywhere else in this file a loss is a rational: a float that is a
    number.  [criterion] can also return NaN (or an infinity), and on
    NaN Python's [<] and [min] stop being an order.  This part follows the
    best loss, in the global [best_val_loss] and in the two checkpoint
    files, through the ends of the epochs of a run whose validation
    losses are such floats. *)

(** A Python float, as far as [<] and [min] look at it. *)
Inductive pyfloat : Type :=
| Finite (q : Q)
| PosInf
| NegInf
| NaN.

(** [x < y] on floats: false as soon as one side is NaN. *)
Definition float_lt (x y : pyfloat) : bool :=
  match x, y with
  | NaN, _ | _, NaN => false
  | Finite a, Finite b => Qltb a b
  | _, NegInf => false
  | NegInf, _ => true
  | PosInf, _ => false
  | Finite _, PosInf => true
  end.

(** [min(x, y)]: [x], unless [y < x]. *)
Definition float_min (x y : pyfloat) : pyfloat :=
  if float_lt y x then y else x.

(** [x <= y] and [x == y] on floats, to state results with. *)
Definition float_le (x y : pyfloat) : bool :=
  match x, y with
  | NaN, _ | _, NaN => false
  | Finite a, Finite b => Qle_bool a b
  | NegInf, _ => true
  | _, PosInf => true
  | _, _ => false
  end.

Definition float_eq (x y : pyfloat) : bool :=
  float_le x y && float_le y x.

(** What the end of an epoch keeps of the best loss: the global
    [best_val_loss], and the ['epoch'] and ['best_val_loss'] fields of the
    records in the latest file and in the best file (if they exist). *)
Record ledger : Type := {
  lg_best : pyfloat;
  lg_latest : option (Z * pyfloat);
  lg_best_file : option (Z * pyfloat)
}.

(** Lines 227-238 and 381-384, for epoch [fst ep] whose validation pass
    returned [snd ep]:
    [is_best = val_loss < best_val_loss],
    [best_val_loss = min(val_loss, best_val_loss)],
    then the record with [epoch + 1] and the new best is saved to the
    latest file and, if [is_best], copied to the best file. *)
Definition record_epoch (lg : ledger) (ep : Z * pyfloat) : ledger :=
  let is_best := float_lt (snd ep) (lg_best lg) in
  let best := float_min (snd ep) (lg_best lg) in
  {| lg_best := best;
     lg_latest := Some (fst ep + 1, best);
     lg_best_file :=
       if is_best then Some (fst ep + 1, best) else lg_best_file lg |}.

(** The ends of the epochs of a run, in order. *)
Definition record_epochs (lg : ledger) (eps : list (Z * pyfloat)) : ledger :=
  fold_left record_epoch eps lg.

(** The ledger of a state of the program, whose losses are numbers. *)
Definition file_entry (f : option file) : option (Z * pyfloat) :=
  match f with
  | Some (CheckpointFile c) => Some (ck_epoch c, Finite (ck_best_val_loss c))
  | _ => None
  end.

Definition ledger_of (a : Args) (s : state) : ledger :=
  {| lg_best := Finite (best_val_loss s);
     lg_latest := file_entry (fs s !! latest_path a);
     lg_best_file := file_entry (fs s !! best_path a) |}.

(** No loss of the epochs [eps] is NaN. *)
Definition no_nan (eps : list (Z * pyfloat)) : Prop :=
  Forall (fun ep => snd ep <> NaN) eps.

(** The best file, if there is one, records the best loss so far. *)
Definition best_file_current (lg : ledger) : Prop :=
  match lg_best_file lg with
  | Some (_, b) => float_eq b (lg_best lg) = true
  | None => True
  end.

(** A first run: no file yet, and the best loss the script starts with
    (line 73). *)
Definition fresh_ledger : ledger :=
  {| lg_best := Finite 100; lg_latest := None; lg_best_file := None |}.

(** Three epochs, the second with a NaN validation loss. *)
Definition nan_in_second_epoch : list (Z * pyfloat) :=
  [(0, Finite (7 # 10)); (1, NaN); (2, Finite (9 # 10))].

(** ** str2bool  (source lines 34-35) *)

(** [str.lower()] on one character: the upper-case ASCII letters move to
    lower case, every other byte stays. *)
Definition lower_ascii (c : Ascii.ascii) : Ascii.ascii :=
  let n := Ascii.N_of_ascii c in
  if ((65 <=? n) && (n <=? 90))%N then Ascii.ascii_of_N (n + 32) else c.

Definition upper_ascii (c : Ascii.ascii) : Ascii.ascii :=
  let n := Ascii.N_of_ascii c in
  if ((97 <=? n) && (n <=? 122))%N then Ascii.ascii_of_N (n - 32) else c.

Fixpoint lower (s : string) : string :=
  match s with
  | EmptyString => EmptyString
  | String c s' => String (lower_ascii c) (lower s')
  end.

Fixpoint upper (s : string) : string :=
  match s with
  | EmptyString => EmptyString
  | String c s' => String (upper_ascii c) (upper s')
  end.

(** [v.lower() in ("yes", "true", "t", "1")] *)
Definition str2bool (v : string) : bool :=
  existsb (String.eqb (lower v)) ["yes"; "true"; "t"; "1"].

(** * Properties *)

(** ** Numbers *)

Lemma Qltb_true x y : Qltb x y = true <-> (x < y)%Q.
Proof.
  unfold Qltb. destruct (Qlt_le_dec x y) as [Hlt | Hle]; split; intros H;
    try reflexivity; try assumption; try discriminate.
  exfalso. apply (Qle_not_lt _ _ Hle H).
Qed.

Lemma Qltb_false x y : Qltb x y = false <-> (y <= x)%Q.
Proof.
  unfold Qltb. destruct (Qlt_le_dec x y) as [Hlt | Hle]; split; intros H;
    try reflexivity; try assumption; try discriminate.
  exfalso. apply (Qle_not_lt _ _ H Hlt).
Qed.

Lemma py_min_le_r a b : (py_min a b <= b)%Q.
Proof.
  unfold py_min. destruct (Qltb b a) eqn:E.
  - apply Qle_refl.
  - apply Qltb_false in E. exact E.
Qed.

(** ** Facts about AverageMeter *)

(** Running the updates from any meter with a non-negative count. *)
Lemma updates_spec us : forall m,
  0 <= AverageMeter.count m ->
  Forall (fun u : Q * Z => 0 < snd u) us ->
  us <> [] ->
  exists m',
    AverageMeter.updates m us = Ok m' /\
    AverageMeter.count m' = AverageMeter.count m + AverageMeter.total_weight us /\
    (AverageMeter.sum m' == AverageMeter.sum m + AverageMeter.weighted_sum us)%Q /\
    (AverageMeter.avg m' ==
       AverageMeter.sum m' / inject_Z (AverageMeter.count m'))%Q.
Proof.
  induction us as [| [v w] us IH]; intros m Hc Hpos Hne; [congruence |].
  inversion Hpos as [| ? ? Hw Hrest]; subst. simpl in Hw.
  cbn [AverageMeter.updates]. unfold AverageMeter.update.
  destruct (AverageMeter.count m + w =? 0) eqn:E; [apply Z.eqb_eq in E; lia |].
  destruct us as [| u us'].
  - eexists. split; [reflexivity |]. cbn.
    repeat split; try lia; try reflexivity. ring.
  - edestruct IH as (m' & Hrun & Hcnt & Hsum & Havg);
      [| exact Hrest | discriminate |].
    2: { exists m'. split; [exact Hrun |].
         cbn [AverageMeter.count AverageMeter.sum] in Hcnt, Hsum.
         repeat split.
         - rewrite Hcnt. cbn [AverageMeter.total_weight fold_right snd]. lia.
         - rewrite Hsum.
           cbn [AverageMeter.weighted_sum fold_right fst snd]. ring.
         - exact Havg. }
    cbn. lia.
Qed.

(** ** Rules of the program logic *)

Section HoareRules.

Context {A B : Type}.
Variable X : state -> Prop.
Variable E : event -> Prop.

Lemma hoare_ret (P : state -> Prop) (Q : A -> state -> Prop) (x : A) :
  (forall s, P s -> Q x s) -> hoare P (ret x) Q X E.
Proof. intros H s Hs. split; [constructor | apply H, Hs]. Qed.

Lemma hoare_raise (P : state -> Prop) (Q : A -> state -> Prop) (e : exn) :
  (forall s, P s -> X s) -> hoare P (raise e) Q X E.
Proof. intros H s Hs. split; [constructor | apply H, Hs]. Qed.

Lemma hoare_gets (P : state -> Prop) (Q : A -> state -> Prop)
    (f : state -> A) :
  (forall s, P s -> Q (f s) s) -> hoare P (gets f) Q X E.
Proof. intros H s Hs. split; [constructor | apply H, Hs]. Qed.

Lemma hoare_lift (P : state -> Prop) (Q : A -> state -> Prop)
    (r : result A) :
  (forall s, P s -> match r with Ok x => Q x s | Err _ => X s end) ->
  hoare P (lift r) Q X E.
Proof.
  intros H s Hs. specialize (H s Hs).
  destruct r; (split; [constructor | exact H]).
Qed.

Lemma hoare_bind (P : state -> Prop) (R : A -> state -> Prop)
    (Q : B -> state -> Prop) (m : M A) (f : A -> M B) :
  hoare P m R X E ->
  (forall x, hoare (R x) (f x) Q X E) ->
  hoare P (bind m f) Q X E.
Proof.
  intros Hm Hf s Hs. destruct (Hm s Hs) as [Htr Hres].
  unfold bind. destruct (m s) as [[x | e] s1 t1]; cbn in *.
  - destruct (Hf x _ Hres) as [Htr' Hres'].
    destruct (f x s1) as [r s2 t2]; cbn in *.
    split; [apply Forall_app; split; assumption | exact Hres'].
  - split; assumption.
Qed.

Lemma hoare_conseq (P P' : state -> Prop) (Q Q' : A -> state -> Prop)
    (m : M A) :
  hoare P' m Q' X E ->
  (forall s, P s -> P' s) ->
  (forall x s, Q' x s -> Q x s) ->
  hoare P m Q X E.
Proof.
  intros Hm HP HQ s Hs. destruct (Hm s (HP s Hs)) as [Htr Hres].
  split; [exact Htr |]. destruct (res (m s)); [apply HQ |]; exact Hres.
Qed.

End HoareRules.

Lemma hoare_emit (P : state -> Prop) (Q : unit -> state -> Prop)
    (X : state -> Prop) (E : event -> Prop) (ev : event) :
  E ev -> (forall s, P s -> Q tt s) -> hoare P (emit ev) Q X E.
Proof.
  intros He H s Hs. split; [repeat constructor; exact He | apply H, Hs].
Qed.

Lemma hoare_modify (P : state -> Prop) (Q : unit -> state -> Prop)
    (X : state -> Prop) (E : event -> Prop) (f : state -> state) :
  (forall s, P s -> Q tt (f s)) -> hoare P (modify f) Q X E.
Proof. intros H s Hs. split; [constructor | apply H, Hs]. Qed.

(** Loops: an invariant that may mention the loop's local. *)
Lemma hoare_for_enumerate {A L} (I : L -> state -> Prop)
    (X : state -> Prop) (E : event -> Prop) (body : Z -> A -> L -> M L) :
  (forall i x acc, hoare (I acc) (body i x acc) I X E) ->
  forall l i acc, hoare (I acc) (for_enumerate body i l acc) I X E.
Proof.
  intros Hbody. induction l as [| x l IH]; intros i acc; cbn.
  - apply hoare_ret. auto.
  - eapply hoare_bind; [apply Hbody |]. intros acc'. apply IH.
Qed.

Lemma hoare_for_each {A} (I : state -> Prop)
    (X : state -> Prop) (E : event -> Prop) (body : A -> M unit) (l : list A) :
  (forall x, In x l -> hoare I (body x) (fun _ => I) X E) ->
  hoare I (for_each body l) (fun _ => I) X E.
Proof.
  induction l as [| x l IH]; intros Hbody; cbn.
  - apply hoare_ret. auto.
  - eapply hoare_bind; [apply Hbody; left; reflexivity |].
    intros u. apply IH. intros y Hy. apply Hbody. right. exact Hy.
Qed.

Lemma preserves_bind {A B} I E (m : M A) (f : A -> M B) :
  preserves I E m -> (forall x, preserves I E (f x)) ->
  preserves I E (bind m f).
Proof. intros Hm Hf. eapply hoare_bind; [exact Hm | exact Hf]. Qed.

Lemma preserves_ret {A} I E (x : A) : preserves I E (ret x).
Proof. apply hoare_ret. auto. Qed.

Lemma preserves_raise {A} I E (e : exn) : preserves I E (@raise A e).
Proof. apply hoare_raise. auto. Qed.

Lemma preserves_gets {A} I E (f : state -> A) : preserves I E (gets f).
Proof. apply hoare_gets. auto. Qed.

Lemma preserves_lift {A} I E (r : result A) : preserves I E (lift r).
Proof. apply hoare_lift. intros s Hs. destruct r; exact Hs. Qed.

Lemma preserves_emit (I : state -> Prop) (E : event -> Prop) ev :
  E ev -> preserves I E (emit ev).
Proof. intros He. apply hoare_emit; auto. Qed.

Lemma preserves_modify (I : state -> Prop) (E : event -> Prop) f :
  (forall s, I s -> I (f s)) -> preserves I E (modify f).
Proof. intros H. apply hoare_modify. exact H. Qed.

Lemma preserves_when (I : state -> Prop) (E : event -> Prop) b m :
  preserves I E m -> preserves I E (when b m).
Proof. intros H. destruct b; [exact H | apply preserves_ret]. Qed.

Lemma preserves_py_mod I E i n : preserves I E (py_mod i n).
Proof.
  unfold py_mod. destruct (n =? 0); [apply preserves_raise | apply preserves_ret].
Qed.

Lemma preserves_for_enumerate {A L} I E (body : Z -> A -> L -> M L) :
  (forall i x acc, preserves I E (body i x acc)) ->
  forall l i acc, preserves I E (for_enumerate body i l acc).
Proof.
  intros H l i acc.
  apply (hoare_for_enumerate (fun _ => I) I E body H).
Qed.

Lemma preserves_for_each {A} I E (body : A -> M unit) (l : list A) :
  (forall x, preserves I E (body x)) -> preserves I E (for_each body l).
Proof. intros H. apply hoare_for_each. intros x _. apply H. Qed.

(** What [preserves] says about one run. *)
Lemma preserves_run {A} I E (m : M A) s :
  preserves I E m -> I s -> I (st (m s)) /\ Forall E (tr (m s)).
Proof.
  intros H Hs. destruct (H s Hs) as [Htr Hres]. split; [| exact Htr].
  destruct (res (m s)); exact Hres.
Qed.

(** ** Inversion of successful runs *)

Lemma bind_ok {A B} (m : M A) (f : A -> M B) s y :
  res (bind m f s) = Ok y ->
  exists x, res (m s) = Ok x /\ res (f x (st (m s))) = Ok y.
Proof.
  unfold bind. destruct (m s) as [[x | e] s1 t1]; cbn; intros H.
  - exists x. split; [reflexivity |].
    destruct (f x s1); exact H.
  - discriminate.
Qed.

Lemma bind_run {A B} (m : M A) (f : A -> M B) s x :
  res (m s) = Ok x ->
  bind m f s =
    Outcome (res (f x (st (m s)))) (st (f x (st (m s))))
            (tr (m s) ++ tr (f x (st (m s)))).
Proof.
  unfold bind. destruct (m s) as [r s1 t1]; cbn. intros ->.
  destruct (f x s1); reflexivity.
Qed.

Lemma bind_run_err {A B} (m : M A) (f : A -> M B) s e :
  res (m s) = Err e ->
  bind m f s = Outcome (Err e) (st (m s)) (tr (m s)).
Proof.
  unfold bind. destruct (m s) as [r s1 t1]; cbn. intros ->. reflexivity.
Qed.

(** Symbolic execution, one primitive at a time. *)

Lemma run_emit_bind {B} ev (k : unit -> M B) s :
  bind (emit ev) k s =
    Outcome (res (k tt s)) (st (k tt s)) (ev :: tr (k tt s)).
Proof. unfold bind, emit. destruct (k tt s); reflexivity. Qed.

Lemma run_gets_bind {A B} (f : state -> A) (k : A -> M B) s :
  bind (gets f) k s = k (f s) s.
Proof. unfold bind, gets. destruct (k (f s) s); reflexivity. Qed.

Lemma run_bind_assoc {A B C} (m : M A) (f : A -> M B) (g : B -> M C) s :
  bind (bind m f) g s = bind m (fun x => bind (f x) g) s.
Proof.
  unfold bind. destruct (m s) as [[x | e] s1 t1]; [| reflexivity].
  destruct (f x s1) as [[y | e] s2 t2]; [| reflexivity].
  destruct (g y s2) as [r s3 t3]. rewrite app_assoc. reflexivity.
Qed.

Lemma lift_ok {A} (r : result A) s x : res (lift r s) = Ok x -> r = Ok x.
Proof. destruct r; cbn; congruence. Qed.

(** ** The logger calls under an invariant *)

Lemma preserves_scalar_summary (I : state -> Prop) (E : event -> Prop)
    tag v step :
  E (EvScalarSummary tag v step) -> preserves I E (scalar_summary tag v step).
Proof.
  intros He. unfold scalar_summary. apply preserves_bind.
  - apply preserves_gets.
  - intros [d |]; [apply preserves_emit, He | apply preserves_raise].
Qed.

Lemma preserves_image_summary (I : state -> Prop) (E : event -> Prop)
    tag step :
  E (EvImageSummary tag step) -> preserves I E (image_summary tag step).
Proof.
  intros He. unfold image_summary. apply preserves_bind.
  - apply preserves_gets.
  - intros [d |]; [apply preserves_emit, He | apply preserves_raise].
Qed.

(** Reading a counter and logging at it: the event may depend on the
    state the invariant describes. *)
Lemma preserves_counter_then {B} (I : state -> Prop) (E : event -> Prop)
    (f : state -> Z) (k : Z -> M B) :
  (forall s, I s -> preserves (fun s' => s' = s) E (k (f s))) ->
  preserves I E (c <- gets f ;; k c).
Proof.
  intros H s Hs. unfold bind, gets.
  destruct (H s Hs s eq_refl) as [Htr Hres].
  destruct (k (f s) s) as [r s1 t1]; cbn in *. split.
  - exact Htr.
  - destruct r; rewrite Hres; exact Hs.
Qed.

(** Steps through a computation built from the primitives; leaves the
    side conditions on events and state updates. *)
Ltac preserve_step :=
  lazymatch goal with
  | |- preserves _ _ (bind (gets _) (fun c => scalar_summary _ _ c)) =>
      apply preserves_counter_then; intros ? ?;
      apply preserves_scalar_summary
  | |- preserves _ _ (bind (gets _) (fun c => image_summary _ c)) =>
      apply preserves_counter_then; intros ? ?;
      apply preserves_image_summary
  | |- preserves _ _ (scalar_summary _ _ _) => apply preserves_scalar_summary
  | |- preserves _ _ (image_summary _ _) => apply preserves_image_summary
  | |- preserves _ _ (bind _ _) => apply preserves_bind; [| intros ?]
  | |- preserves _ _ (ret _) => apply preserves_ret
  | |- preserves _ _ (raise _) => apply preserves_raise
  | |- preserves _ _ (gets _) => apply preserves_gets
  | |- preserves _ _ (lift _) => apply preserves_lift
  | |- preserves _ _ (py_mod _ _) => apply preserves_py_mod
  | |- preserves _ _ (when _ _) => apply preserves_when
  | |- preserves _ _ (for_enumerate _ _ _ _) =>
      apply preserves_for_enumerate; intros ? ? ?
  | |- preserves _ _ (for_each _ _) => apply preserves_for_each; intros ?
  | |- preserves _ _ (emit _) => apply preserves_emit
  | |- preserves _ _ (modify _) => apply preserves_modify; intros ? ?
  end.

Ltac preserve := repeat preserve_step.

(** ** Frame lemmas for the two passes *)

Section Passes.

Variable a : Args.
Variable I : state -> Prop.
Variable E : event -> Prop.

Lemma train_preserves loader epoch :
  (forall s, I s ->
     I (set_train_minib_counter (train_minib_counter s + 1) s)) ->
  (forall s, I s -> I (set_model_training true s)) ->
  E (EvEnterTrain epoch) -> E EvModelTrain -> E EvForward ->
  E EvCriterion -> E EvZeroGrad -> E EvBackward ->
  (forall what, E (EvPrint what)) ->
  (forall s v, I s ->
     E (EvScalarSummary "train_loss" v (train_minib_counter s))) ->
  preserves I E (train a loader epoch).
Proof.
  intros Hcnt Hmode He1 He2 He3 He4 He5 He6 Hpr Hsc.
  unfold train, train_batch.
  preserve; subst; auto.
Qed.

Lemma validate_preserves loader :
  (forall s, I s ->
     I (set_valid_minib_counter (valid_minib_counter s + 1) s)) ->
  (forall s, I s -> I (set_model_training false s)) ->
  E EvEnterValidate -> E EvModelEval -> E EvForward -> E EvCriterion ->
  (forall what, E (EvPrint what)) ->
  (forall s tag, I s -> E (EvImageSummary tag (train_minib_counter s))) ->
  (forall s v, I s ->
     E (EvScalarSummary "valid_loss" v (valid_minib_counter s))) ->
  preserves I E (validate a loader).
Proof.
  intros Hcnt Hmode He1 He2 He3 He4 Hpr Him Hsc.
  unfold validate, validate_batch.
  unfold show_images.
  preserve; subst; auto.
Qed.

End Passes.

(** ** The training pass makes no parameter update *)

Lemma count_events_none (E : event -> Prop) (p : event -> bool) t :
  (forall ev, E ev -> p ev = false) -> Forall E t -> count_events p t = 0%nat.
Proof.
  intros Hp. induction 1 as [| ev t Hev _ IH]; cbn; [reflexivity |].
  rewrite (Hp ev Hev), IH. reflexivity.
Qed.

Lemma train_events a loader epoch s :
  Forall train_event (tr (train a loader epoch s)).
Proof.
  apply (preserves_run (fun _ => True) train_event); [| exact Logic.I].
  apply train_preserves; cbn; auto.
Qed.

(** For every loader and from every state, a training pass contains no
    optimizer step. *)
Lemma train_no_optimizer_step a loader epoch s :
  parameter_updates (tr (train a loader epoch s)) = 0%nat.
Proof.
  apply (count_events_none train_event); [| apply train_events].
  intros [] H; try reflexivity; destruct H.
Qed.

(** C1, at a loader of one batch: the pass computes the loss, clears the
    gradients and back-propagates, and then goes on to the next batch; the
    trace holds no [optimizer.step()], so the number of parameter updates is
    0 and not the number of batches, 1. *)
Theorem train_one_batch_no_update (s : state) :
  tr (train default_args one_batch 0 s) =
    [ EvEnterTrain 0; EvModelTrain; EvForward; EvCriterion; EvZeroGrad;
      EvBackward; EvPrint "Epoch"; EvPrint " * Avg Train Loss" ] /\
  (exists v, res (train default_args one_batch 0 s) = Ok v /\
             (v == 1 # 2)%Q) /\
  parameter_updates (tr (train default_args one_batch 0 s)) = 0%nat /\
  length one_batch = 1%nat.
Proof.
  split; [reflexivity |]. split; [| split; reflexivity].
  eexists. split; reflexivity.
Qed.

(** ** The validation pass *)

Lemma validate_from_eval a loader s0 :
  hoare (fun s => s = s0) (validate a loader)
        (fun _ => in_eval_mode s0) (in_eval_mode s0) inference_event.
Proof.
  unfold validate.
  eapply hoare_bind with (R := fun _ s => s = s0);
    [apply hoare_emit; [exact Logic.I | auto] | intros _].
  eapply hoare_bind with (R := fun _ s => s = s0);
    [apply hoare_emit; [exact Logic.I | auto] | intros _].
  eapply hoare_bind with (R := fun _ => in_eval_mode s0).
  { apply hoare_modify. intros s ->. repeat split. }
  intros _. change (preserves (in_eval_mode s0) inference_event
    (losses <- for_enumerate (validate_batch a) 0 loader AverageMeter.reset ;;
     emit (EvPrint " * Avg Val Loss") ;; ret (AverageMeter.avg losses))).
  unfold validate_batch, show_images.
  preserve; subst; cbn; auto.
Qed.

(** C5: from every state and for every loader, [validate] leaves the
    parameters (and the learning rate) as they were and the model in
    inference mode; it starts with [model.eval()], before any forward
    computation, and emits no optimizer step, no gradient computation, no
    parameter load and no [model.train()]. *)
Theorem validate_is_inference a loader s :
  model_params (st (validate a loader s)) = model_params s /\
  model_training (st (validate a loader s)) = false /\
  parameter_updates (tr (validate a loader s)) = 0%nat /\
  Forall inference_event (tr (validate a loader s)) /\
  exists t, tr (validate a loader s) = EvEnterValidate :: EvModelEval :: t /\
            ~ In EvModelEval t /\ ~ In EvModelTrain t.
Proof.
  destruct (validate_from_eval a loader s s eq_refl) as [Htr Hres].
  assert (Hst : in_eval_mode s (st (validate a loader s))).
  { destruct (res (validate a loader s)); exact Hres. }
  destruct Hst as (Hmode & Hpar & _).
  repeat split; try assumption.
  - apply (count_events_none inference_event); [| exact Htr].
    intros [] H; try reflexivity; destruct H.
  - unfold validate at 1.
    set (rest := (_ <- modify (set_model_training false) ;; _)).
    exists (tr (rest s)). split.
    + rewrite run_emit_bind. cbn [tr]. rewrite run_emit_bind. reflexivity.
    + assert (Hrest : Forall (fun ev => ev <> EvModelEval /\ ev <> EvModelTrain)
                        (tr (rest s))).
      { apply (preserves_run (fun _ => True)); [| exact Logic.I].
        subst rest. unfold validate_batch, show_images.
        preserve; subst; cbn; auto; split; discriminate. }
      rewrite List.Forall_forall in Hrest.
      split; intros Hin; apply Hrest in Hin; destruct Hin; congruence.
Qed.

(** C10: within one call of [validate], every image log carries the value
    the training-batch counter had on entry, which the pass does not
    change; the validation-batch counter appears only as the step of the
    scalar ["valid_loss"] logs. *)
Theorem validate_image_steps a loader s :
  train_minib_counter (st (validate a loader s)) = train_minib_counter s /\
  Forall (validate_log_steps (train_minib_counter s) (valid_minib_counter s))
         (tr (validate a loader s)).
Proof.
  pose (I := fun s' => train_minib_counter s' = train_minib_counter s /\
                       valid_minib_counter s <= valid_minib_counter s').
  destruct (preserves_run I
              (validate_log_steps (train_minib_counter s)
                                  (valid_minib_counter s))
              (validate a loader) s) as [[Hc _] Htr].
  - apply validate_preserves; unfold I; cbn; try tauto.
    all: intros s' ; intros; split; try tauto; lia.
  - unfold I. split; [reflexivity | lia].
  - split; assumption.
Qed.

(** ** The running mean *)

(** C7: after [reset()] and the updates [(v1, w1), ..., (vn, wn)] with
    positive weights, no update raises and the mean is
    [sum(vi * wi) / sum(wi)]; with no update at all the mean reads 0. *)
Theorem average_meter_mean (us : list (Q * Z)) :
  Forall (fun u : Q * Z => 0 < snd u) us ->
  exists m,
    AverageMeter.updates AverageMeter.reset us = Ok m /\
    (us = [] -> AverageMeter.avg m = 0%Q) /\
    (us <> [] ->
       (AverageMeter.avg m ==
          AverageMeter.weighted_sum us
            / inject_Z (AverageMeter.total_weight us))%Q).
Proof.
  intros Hpos. destruct us as [| u us].
  - exists AverageMeter.reset. repeat split; congruence.
  - destruct (updates_spec (u :: us) AverageMeter.reset)
      as (m & Hrun & Hcnt & Hsum & Havg);
      [cbn; lia | exact Hpos | discriminate |].
    exists m. split; [exact Hrun |]. split; [discriminate |].
    intros _. rewrite Havg, Hsum, Hcnt. cbn [AverageMeter.reset
      AverageMeter.sum AverageMeter.count].
    rewrite Qplus_0_l, Z.add_0_l. reflexivity.
Qed.

Lemma average_meter_mean_witness :
  exists m,
    AverageMeter.updates AverageMeter.reset [((1 # 2)%Q, 4); ((2 # 1)%Q, 2)]
      = Ok m /\
    (AverageMeter.avg m == 1)%Q.
Proof.
  destruct (average_meter_mean [((1 # 2)%Q, 4); ((2 # 1)%Q, 2)])
    as (m & Hrun & _ & Havg).
  - repeat constructor.
  - exists m. split; [exact Hrun |].
    rewrite (Havg ltac:(discriminate)). reflexivity.
Defined.

(** ** The scheduler's floor *)

Lemma reduced_lr_floor cur :
  (ReduceLROnPlateau.min_lr scheduler_config
     <= ReduceLROnPlateau.reduced_lr scheduler_config cur)%Q.
Proof.
  unfold ReduceLROnPlateau.reduced_lr.
  destruct (Qltb _ _) eqn:H.
  - apply Qle_refl.
  - apply Qltb_false in H. exact H.
Qed.

Lemma reduced_lr_at_floor cur :
  (cur == ReduceLROnPlateau.min_lr scheduler_config)%Q ->
  (ReduceLROnPlateau.reduced_lr scheduler_config cur
     == ReduceLROnPlateau.min_lr scheduler_config)%Q.
Proof.
  intros Hcur. unfold ReduceLROnPlateau.reduced_lr.
  destruct (Qltb _ _) eqn:H; [reflexivity |].
  apply Qltb_false in H. cbn in *. lra.
Qed.

(** One step either leaves the learning rate alone or sets it to the
    decayed value. *)
Lemma step_lr_cases s cur v :
  snd (fst (ReduceLROnPlateau.step scheduler_config s cur v)) = cur \/
  snd (fst (ReduceLROnPlateau.step scheduler_config s cur v)) =
    ReduceLROnPlateau.reduced_lr scheduler_config cur.
Proof.
  unfold ReduceLROnPlateau.step.
  destruct (ReduceLROnPlateau.patience scheduler_config <? _);
    [right | left]; reflexivity.
Qed.

Lemma lr_after_cons s cur v vs :
  lr_after scheduler_config s cur (v :: vs) =
    lr_after scheduler_config
      (snd (ReduceLROnPlateau.step scheduler_config s cur v))
      (snd (fst (ReduceLROnPlateau.step scheduler_config s cur v))) vs.
Proof.
  cbn [lr_after].
  destruct (ReduceLROnPlateau.step scheduler_config s cur v) as [[r n] s'].
  reflexivity.
Qed.

(** C8: whatever values are fed to [step], from whatever scheduler state
    and learning rate: a rate at or above the floor [1e-7] stays at or
    above it; a rate at the floor stays at the floor; and a rate that ends
    below the floor was never set by the scheduler (it is the rate the run
    started with). *)
Theorem scheduler_floor (vs : list Q) :
  forall (s : ReduceLROnPlateau.t) (cur : Q),
  let floor := ReduceLROnPlateau.min_lr scheduler_config in
  let final := lr_after scheduler_config s cur vs in
  floor = (1 # 10000000)%Q /\
  ((floor <= cur)%Q -> (floor <= final)%Q) /\
  ((cur == floor)%Q -> (final == floor)%Q) /\
  ((final < floor)%Q -> final = cur).
Proof.
  induction vs as [| v vs IH]; intros s cur floor final.
  - subst final. cbn. repeat split; auto.
  - subst final. rewrite lr_after_cons.
    set (o := ReduceLROnPlateau.step scheduler_config s cur v).
    destruct (IH (snd o) (snd (fst o))) as (_ & IH1 & IH2 & IH3).
    fold floor in IH1, IH2, IH3.
    assert (Hfl := reduced_lr_floor cur). fold floor in Hfl.
    split; [reflexivity |].
    destruct (step_lr_cases s cur v) as [Hsame | Hred]; fold o in Hsame || fold o in Hred.
    + rewrite Hsame in *. repeat split; assumption.
    + rewrite Hred in *. split; [| split].
      * intros _. apply IH1, Hfl.
      * intros Hcur. apply IH2. apply reduced_lr_at_floor, Hcur.
      * intros Hlt. exfalso. apply (Qlt_not_le _ _ Hlt). apply IH1, Hfl.
Qed.

Lemma scheduler_floor_witness :
  let final :=
    lr_after scheduler_config ReduceLROnPlateau.init (1 # 10)
      [1; 1; 1; 1; 1; 1; 1; 1; 1; 1; 1; 1; 1; 1; 1; 1; 1; 1; 1; 1; 1; 1; 1;
       1; 1; 1; 1; 1; 1; 1; 1; 1; 1; 1; 1; 1; 1; 1; 1; 1; 1; 1; 1; 1; 1; 1]%Q in
  (1 # 10000000 <= final)%Q.
Proof.
  intros final.
  destruct (scheduler_floor
    [1; 1; 1; 1; 1; 1; 1; 1; 1; 1; 1; 1; 1; 1; 1; 1; 1; 1; 1; 1; 1; 1; 1;
     1; 1; 1; 1; 1; 1; 1; 1; 1; 1; 1; 1; 1; 1; 1; 1; 1; 1; 1; 1; 1; 1; 1]%Q
    ReduceLROnPlateau.init (1 # 10)%Q) as (_ & H & _).
  apply H. cbn. lra.
Defined.

(** ** What a pass returns and what it leaves alone *)

Ltac bind_inv H :=
  repeat (let x := fresh "x" in
          let Hm := fresh "Hm" in
          apply bind_ok in H as (x & Hm & H)).

Lemma train_batch_result a epoch i b acc s acc' :
  res (train_batch a epoch i b acc s) = Ok acc' ->
  AverageMeter.update acc (loss_data0 b) (Z.pos (input_size0 b)) = Ok acc'.
Proof.
  unfold train_batch. intros H. bind_inv H.
  cbn in H. injection H as <-.
  match goal with Hl : res (lift _ _) = Ok _ |- _ => apply lift_ok in Hl; exact Hl end.
Qed.

Lemma validate_batch_result a i b acc s acc' :
  res (validate_batch a i b acc s) = Ok acc' ->
  AverageMeter.update acc (loss_data0 b) (Z.pos (input_size0 b)) = Ok acc'.
Proof.
  unfold validate_batch. intros H. bind_inv H.
  cbn in H. injection H as <-.
  match goal with Hl : res (lift _ _) = Ok _ |- _ => apply lift_ok in Hl; exact Hl end.
Qed.

Lemma loop_result (body : Z -> batch -> AverageMeter.t -> M AverageMeter.t) :
  (forall i b acc s acc',
     res (body i b acc s) = Ok acc' ->
     AverageMeter.update acc (loss_data0 b) (Z.pos (input_size0 b))
       = Ok acc') ->
  forall l i acc s m,
    res (for_enumerate body i l acc s) = Ok m ->
    AverageMeter.updates acc (batch_updates l) = Ok m.
Proof.
  intros Hbody. induction l as [| b l IH]; intros i acc s m H.
  - cbn in H. exact H.
  - cbn [for_enumerate] in H. apply bind_ok in H as (acc' & H1 & H2).
    cbn [batch_updates map AverageMeter.updates].
    rewrite (Hbody _ _ _ _ _ H1). apply (IH _ _ _ _ H2).
Qed.

Lemma validate_result a l s v :
  res (validate a l s) = Ok v -> v = pass_mean l.
Proof.
  unfold validate. intros H. bind_inv H.
  cbn in H. injection H as <-.
  match goal with
  | Hl : res (for_enumerate _ _ _ _ _) = Ok _ |- _ =>
      apply (loop_result _ (validate_batch_result a)) in Hl
  end.
  unfold pass_mean. rewrite Hm2. reflexivity.
Qed.

Lemma pass_frame_refl s : pass_frame s s.
Proof. repeat split. Qed.

Lemma train_frame a l epoch s :
  pass_frame s (st (train a l epoch s)) /\
  Forall train_event (tr (train a l epoch s)).
Proof.
  apply (preserves_run (pass_frame s) train_event);
    [| apply pass_frame_refl].
  apply train_preserves; cbn; auto.
Qed.

Lemma validate_frame a l s :
  pass_frame s (st (validate a l s)) /\
  Forall validate_event (tr (validate a l s)).
Proof.
  apply (preserves_run (pass_frame s) validate_event);
    [| apply pass_frame_refl].
  apply validate_preserves; cbn; auto.
Qed.

(** ** Running straight-line code *)

Lemma wp_bind {A B} (m : M A) (f : A -> M B) s K :
  wp m s (fun r s1 t1 =>
            match r with
            | Ok x => wp (f x) s1 (fun r2 s2 t2 => K r2 s2 (t1 ++ t2))
            | Err e => K (Err e) s1 t1
            end) ->
  wp (bind m f) s K.
Proof.
  unfold wp, bind. destruct (m s) as [[x | e] s1 t1]; cbn; [| auto].
  destruct (f x s1) as [r2 s2 t2]. auto.
Qed.

Lemma wp_ret {A} (x : A) s K : K (Ok x) s [] -> wp (ret x) s K.
Proof. auto. Qed.

Lemma wp_raise {A} e s (K : result A -> _) : K (Err e) s [] -> wp (raise e) s K.
Proof. auto. Qed.

Lemma wp_emit ev s K : K (Ok tt) s [ev] -> wp (emit ev) s K.
Proof. auto. Qed.

Lemma wp_gets {A} (f : state -> A) s K : K (Ok (f s)) s [] -> wp (gets f) s K.
Proof. auto. Qed.

Lemma wp_modify f s K : K (Ok tt) (f s) [] -> wp (modify f) s K.
Proof. auto. Qed.

Ltac wp_step :=
  lazymatch goal with
  | |- wp (bind _ _) _ _ => apply wp_bind
  | |- wp (ret _) _ _ => apply wp_ret
  | |- wp (raise _) _ _ => apply wp_raise
  | |- wp (emit _) _ _ => apply wp_emit
  | |- wp (gets _) _ _ => apply wp_gets
  | |- wp (modify _) _ _ => apply wp_modify
  | |- wp (lift ?r) _ _ => destruct r eqn:?; unfold lift
  | |- wp (py_mod _ ?n) _ _ => unfold py_mod; destruct (n =? 0) eqn:?
  | |- wp (when ?b _) _ _ => destruct b eqn:?; unfold when
  | |- wp (if ?b then _ else _) _ _ => destruct b eqn:?
  | |- wp (match ?x with Some _ => _ | None => _ end) _ _ => destruct x eqn:?
  end; cbv beta iota.

Ltac wp_run := repeat wp_step.

(** ** The end of an epoch *)

Lemma fs_events_app t1 t2 : fs_events (t1 ++ t2) = fs_events t1 ++ fs_events t2.
Proof. apply List.filter_app. Qed.

Lemma fs_events_none (E : event -> Prop) t :
  (forall ev, E ev -> is_fs_event ev = false) -> Forall E t ->
  fs_events t = [].
Proof.
  intros Hp. induction 1 as [| ev t Hev _ IH]; cbn; [reflexivity |].
  rewrite (Hp ev Hev). exact IH.
Qed.

Lemma epoch_finish_spec a e tl vl s :
  let o := epoch_finish a e tl vl s in
  let ck := epoch_checkpoint a e vl s in
  let saved := <[latest_path a := CheckpointFile ck]> (fs s) in
  logger (st o) = logger s /\
  model_params (st o) = model_params s /\
  optimizer_lr (st o) =
    snd (fst (ReduceLROnPlateau.step scheduler_config (scheduler s)
                (optimizer_lr s) vl)) /\
  Forall finish_event (tr o) /\
  match res o with
  | Ok _ =>
      best_val_loss (st o) = py_min vl (best_val_loss s) /\
      fs (st o) = (if Qltb vl (best_val_loss s)
                   then <[best_path a := CheckpointFile ck]> saved
                   else saved) /\
      fs_events (tr o) =
        EvTorchSave (latest_path a) ck ::
        (if Qltb vl (best_val_loss s)
         then [EvCopyFile (latest_path a) (best_path a)] else [])
  | Err _ =>
      best_val_loss (st o) = best_val_loss s /\
      fs (st o) = fs s /\
      fs_events (tr o) = [] /\
      tensorboard a = true /\ logger s = None
  end.
Proof.
  intros o ck saved.
  change (wp (epoch_finish a e tl vl) s (fun r s' t =>
    logger s' = logger s /\ model_params s' = model_params s /\
    optimizer_lr s' =
      snd (fst (ReduceLROnPlateau.step scheduler_config (scheduler s)
                  (optimizer_lr s) vl)) /\
    Forall finish_event t /\
    match r with
    | Ok _ =>
        best_val_loss s' = py_min vl (best_val_loss s) /\
        fs s' = (if Qltb vl (best_val_loss s)
                 then <[best_path a := CheckpointFile ck]> saved
                 else saved) /\
        fs_events t =
          EvTorchSave (latest_path a) ck ::
          (if Qltb vl (best_val_loss s)
           then [EvCopyFile (latest_path a) (best_path a)] else [])
    | Err _ =>
        best_val_loss s' = best_val_loss s /\ fs s' = fs s /\
        fs_events t = [] /\ tensorboard a = true /\ logger s = None
    end)).
  unfold epoch_finish, scheduler_step, save_checkpoint, torch_save,
    scalar_summary.
  wp_run; cbn [logger set_scheduler set_optimizer_lr set_best_val_loss
               set_fs best_val_loss model_params fs optimizer_lr] in *;
    try congruence.
  all: unfold copyfile; wp_run;
    cbn [logger set_scheduler set_optimizer_lr set_best_val_loss
         set_fs best_val_loss model_params fs optimizer_lr] in *;
    rewrite ?lookup_insert_eq in *; try congruence.
  all: try match goal with
       | H : Qltb _ _ = _ |- _ => rewrite H
       end.
  all: simplify_eq.
  all: repeat split; try reflexivity; try assumption;
    try (cbn [app]; repeat constructor).
Qed.

(** ** When the passes return *)

Lemma update_count m v n m' :
  AverageMeter.update m v n = Ok m' ->
  AverageMeter.count m' = AverageMeter.count m + n.
Proof.
  unfold AverageMeter.update.
  destruct (AverageMeter.count m + n =? 0); [discriminate |].
  intros H. injection H as <-. reflexivity.
Qed.

Lemma update_no_raise m v n e :
  0 <= AverageMeter.count m -> 0 < n -> AverageMeter.update m v n <> Err e.
Proof.
  intros Hc Hn. unfold AverageMeter.update.
  destruct (AverageMeter.count m + n =? 0) eqn:E; [| discriminate].
  apply Z.eqb_eq in E. lia.
Qed.

Lemma Forall_any_event t : Forall any_event t.
Proof. apply Forall_true. intros ev. exact Logic.I. Qed.

Lemma hoare_wp {A} (P : state -> Prop) (m : M A) Q X E :
  (forall s, P s ->
     wp m s (fun r s' t => Forall E t /\
               match r with Ok x => Q x s' | Err _ => X s' end)) ->
  hoare P m Q X E.
Proof. intros H s Hs. exact (H s Hs). Qed.

Section Totality.

Variable a : Args.
Hypothesis Hcfg : passes_configured a.
Variable l0 : option string.
Hypothesis Hlog : tensorboard a = true -> l0 <> None.

Lemma train_batch_total epoch i b acc :
  hoare (meter_invariant l0 acc) (train_batch a epoch i b acc)
        (meter_invariant l0) no_raise any_event.
Proof.
  destruct Hcfg as [Hpf Him].
  apply hoare_wp. intros s [Hc Hl].
  unfold train_batch, scalar_summary. wp_run;
    repeat split; try apply Forall_any_event;
    cbn [logger set_train_minib_counter]; try assumption.
  all: try match goal with
       | H : AverageMeter.update _ _ _ = Ok _ |- _ =>
           apply update_count in H; lia
       | H : AverageMeter.update _ _ _ = Err _ |- _ =>
           exfalso; revert H; apply update_no_raise; [assumption | lia]
       | H : (print_freq a =? 0) = true |- _ =>
           apply Z.eqb_eq in H; contradiction
       end.
  all: try congruence.
  all: exfalso; apply Hlog; [reflexivity || assumption | congruence].
Qed.

Lemma validate_batch_total i b acc :
  hoare (meter_invariant l0 acc) (validate_batch a i b acc)
        (meter_invariant l0) no_raise any_event.
Proof.
  destruct Hcfg as [Hpf Him].
  apply hoare_wp. intros s [Hc Hl].
  unfold validate_batch, show_images, image_summary, scalar_summary.
  wp_run;
    repeat split; try apply Forall_any_event;
    cbn [logger set_valid_minib_counter]; try assumption.
  all: try match goal with
       | H : AverageMeter.update _ _ _ = Ok _ |- _ =>
           apply update_count in H; lia
       | H : AverageMeter.update _ _ _ = Err _ |- _ =>
           exfalso; revert H; apply update_no_raise; [assumption | lia]
       | H : (print_freq a =? 0) = true |- _ =>
           apply Z.eqb_eq in H; contradiction
       end.
  all: try congruence.
  all: exfalso; apply Hlog; [auto | congruence].
Qed.

Lemma train_total loader epoch s :
  logger s = l0 -> exists v, res (train a loader epoch s) = Ok v.
Proof.
  intros Hl.
  assert (H : hoare (fun s => logger s = l0) (train a loader epoch)
                (fun _ _ => True) no_raise any_event).
  { unfold train.
    eapply hoare_bind with (R := fun _ s => logger s = l0);
      [apply hoare_emit; [exact Logic.I | auto] | intros _].
    eapply hoare_bind with (R := fun _ s => logger s = l0);
      [apply hoare_emit; [exact Logic.I | auto] | intros _].
    eapply hoare_bind with (R := fun _ s => logger s = l0);
      [apply hoare_modify; auto | intros _].
    eapply hoare_bind with (R := meter_invariant l0).
    - eapply hoare_conseq.
      + apply (hoare_for_enumerate (meter_invariant l0) no_raise any_event
                 (train_batch a epoch) (train_batch_total epoch)).
      + intros s' Hs'. split; [cbn; lia | exact Hs'].
      + auto.
    - intros acc. eapply hoare_bind with (R := fun _ _ => True);
        [apply hoare_emit; [exact Logic.I | auto] | intros _].
      apply hoare_ret. auto. }
  destruct (H s Hl) as [_ Hres].
  destruct (res (train a loader epoch s)) as [v | e];
    [exists v; reflexivity | destruct Hres].
Qed.

Lemma validate_total loader s :
  logger s = l0 -> exists v, res (validate a loader s) = Ok v.
Proof.
  intros Hl.
  assert (H : hoare (fun s => logger s = l0) (validate a loader)
                (fun _ _ => True) no_raise any_event).
  { unfold validate.
    eapply hoare_bind with (R := fun _ s => logger s = l0);
      [apply hoare_emit; [exact Logic.I | auto] | intros _].
    eapply hoare_bind with (R := fun _ s => logger s = l0);
      [apply hoare_emit; [exact Logic.I | auto] | intros _].
    eapply hoare_bind with (R := fun _ s => logger s = l0);
      [apply hoare_modify; auto | intros _].
    eapply hoare_bind with (R := meter_invariant l0).
    - eapply hoare_conseq.
      + apply (hoare_for_enumerate (meter_invariant l0) no_raise any_event
                 (validate_batch a) validate_batch_total).
      + intros s' Hs'. split; [cbn; lia | exact Hs'].
      + auto.
    - intros acc. eapply hoare_bind with (R := fun _ _ => True);
        [apply hoare_emit; [exact Logic.I | auto] | intros _].
      apply hoare_ret. auto. }
  destruct (H s Hl) as [_ Hres].
  destruct (res (validate a loader s)) as [v | e];
    [exists v; reflexivity | destruct Hres].
Qed.

End Totality.

(** ** One epoch *)

Lemma trained_epochs_app t1 t2 :
  trained_epochs (t1 ++ t2) = trained_epochs t1 ++ trained_epochs t2.
Proof. apply flat_map_app. Qed.

Lemma trained_epochs_none (E : event -> Prop) t :
  (forall ev, E ev -> not_enter_train ev) -> Forall E t ->
  trained_epochs t = [].
Proof.
  intros Hp. induction 1 as [| ev t Hev _ IH]; cbn; [reflexivity |].
  specialize (Hp ev Hev). destruct ev; cbn in *; try exact IH.
  destruct Hp.
Qed.

Lemma train_trained_epochs a l e s :
  trained_epochs (tr (train a l e s)) = [e].
Proof.
  unfold train. rewrite run_emit_bind. cbn [tr trained_epochs flat_map app].
  f_equal.
  apply (trained_epochs_none not_enter_train); [auto |].
  apply (preserves_run (fun _ => True)); [| exact Logic.I].
  unfold train_batch. preserve; subst; cbn; auto.
Qed.

Lemma train_event_not_fs ev : train_event ev -> is_fs_event ev = false.
Proof. destruct ev; cbn; intros H; try reflexivity; destruct H. Qed.

Lemma validate_event_not_fs ev : validate_event ev -> is_fs_event ev = false.
Proof. destruct ev; cbn; intros H; try reflexivity; destruct H. Qed.

Lemma validate_event_not_enter ev : validate_event ev -> not_enter_train ev.
Proof. destruct ev; cbn; intros H; try exact Logic.I; destruct H. Qed.

Lemma finish_event_not_enter ev : finish_event ev -> not_enter_train ev.
Proof. destruct ev; cbn; intros H; try exact Logic.I; destruct H. Qed.

Lemma epoch_checkpoint_frame a e vl s s' :
  pass_frame s s' -> epoch_checkpoint a e vl s' = epoch_checkpoint a e vl s.
Proof.
  intros (_ & Hb & _ & _ & Hp & _). unfold epoch_checkpoint.
  rewrite Hb, Hp. reflexivity.
Qed.

Lemma pass_frame_trans s0 s1 s2 :
  pass_frame s0 s1 -> pass_frame s1 s2 -> pass_frame s0 s2.
Proof.
  unfold pass_frame. intros (A1 & A2 & A3 & A4 & A5 & A6 & A7)
    (B1 & B2 & B3 & B4 & B5 & B6 & B7).
  repeat split; congruence.
Qed.

(** An epoch that returns has written the checkpoint of line 229 to the
    latest file, and copied it to the best file exactly when the
    validation loss is below the best so far; an epoch that raises has
    written nothing. *)
Lemma epoch_body_spec a w sp e s :
  let o := epoch_body a w sp e s in
  let vl := pass_mean (val_batches w (val_imgs sp) (val_masks sp) e) in
  let ck := epoch_checkpoint a e vl s in
  let saved := <[latest_path a := CheckpointFile ck]> (fs s) in
  logger (st o) = logger s /\
  model_params (st o) = model_params s /\
  trained_epochs (tr o) = [e] /\
  match res o with
  | Ok _ =>
      best_val_loss (st o) = py_min vl (best_val_loss s) /\
      fs (st o) = (if Qltb vl (best_val_loss s)
                   then <[best_path a := CheckpointFile ck]> saved
                   else saved) /\
      fs_events (tr o) =
        EvTorchSave (latest_path a) ck ::
        (if Qltb vl (best_val_loss s)
         then [EvCopyFile (latest_path a) (best_path a)] else [])
  | Err _ =>
      best_val_loss (st o) = best_val_loss s /\
      fs (st o) = fs s /\
      fs_events (tr o) = []
  end.
Proof.
  intros o vl ck saved. subst o. unfold epoch_body.
  set (tb := train_batches w (train_imgs sp) (train_masks sp) e).
  destruct (train_frame a tb e s) as [F1 E1].
  pose proof (train_trained_epochs a tb e s) as T1.
  pose proof (fs_events_none _ _ train_event_not_fs E1) as N1.
  destruct (res (train a tb e s)) as [tl | err] eqn:H1.
  2: { rewrite (bind_run_err _ _ _ _ H1). cbn [res st tr].
       destruct F1 as (_ & Hb & Hl & Hf & Hp & _). auto 10. }
  rewrite (bind_run _ _ _ _ H1). cbn [res st tr].
  set (s1 := st (train a tb e s)) in *.
  set (vb := val_batches w (val_imgs sp) (val_masks sp) e) in *.
  destruct (validate_frame a vb s1) as [F2 E2].
  pose proof (fs_events_none _ _ validate_event_not_fs E2) as N2.
  pose proof (trained_epochs_none _ _ validate_event_not_enter E2) as T2.
  pose proof (pass_frame_trans _ _ _ F1 F2) as F12.
  destruct (res (validate a vb s1)) as [v | err] eqn:H2.
  2: { rewrite (bind_run_err _ _ _ _ H2). cbn [res st tr].
       rewrite trained_epochs_app, fs_events_app, T1, T2, N1, N2.
       destruct F12 as (_ & Hb & Hl & Hf & Hp & _). auto 10. }
  rewrite (bind_run _ _ _ _ H2). cbn [res st tr].
  apply validate_result in H2. fold vl in H2. subst v.
  set (s2 := st (validate a vb s1)) in *.
  destruct (epoch_finish_spec a e tl vl s2) as (L3 & P3 & _ & E3 & R3).
  pose proof (trained_epochs_none _ _ finish_event_not_enter E3) as T3.
  rewrite !trained_epochs_app, !fs_events_app, T1, T2, T3, N1, N2.
  rewrite (epoch_checkpoint_frame a e vl s s2 F12) in R3. fold ck in R3.
  destruct F12 as (_ & Hb & Hl & Hf & Hp & _).
  rewrite Hb, Hf in R3. fold saved in R3.
  split; [congruence |]. split; [congruence |]. split; [reflexivity |].
  cbn [app].
  destruct (res (epoch_finish a e tl vl s2)).
  - exact R3.
  - destruct R3 as (R1 & R2 & R4 & _). auto.
Qed.

(** Under a configuration the passes accept and with the logger bound,
    an epoch returns. *)
Lemma epoch_body_total a w sp e s :
  passes_configured a -> logger_bound a s ->
  res (epoch_body a w sp e s) = Ok tt.
Proof.
  intros Hcfg Hlog. unfold epoch_body.
  set (tb := train_batches w (train_imgs sp) (train_masks sp) e).
  destruct (train_total a Hcfg (logger s) Hlog tb e s eq_refl) as [tl H1].
  destruct (train_frame a tb e s) as [F1 _].
  rewrite (bind_run _ _ _ _ H1). cbn [res].
  set (s1 := st (train a tb e s)) in *.
  set (vb := val_batches w (val_imgs sp) (val_masks sp) e).
  assert (Hl1 : logger s1 = logger s) by apply F1.
  destruct (validate_total a Hcfg (logger s) Hlog vb s1 Hl1) as [vl H2].
  destruct (validate_frame a vb s1) as [F2 _].
  rewrite (bind_run _ _ _ _ H2). cbn [res].
  set (s2 := st (validate a vb s1)) in *.
  assert (Hl2 : logger s2 = logger s).
  { destruct F2 as (_ & _ & Hl & _). congruence. }
  destruct (epoch_finish_spec a e tl vl s2) as (_ & _ & _ & _ & R3).
  destruct (res (epoch_finish a e tl vl s2)) as [[] | err]; [reflexivity |].
  destruct R3 as (_ & _ & _ & Htb & Hnone).
  exfalso. apply (Hlog Htb). congruence.
Qed.

(** ** The two checkpoint files *)

Lemma append_inv_head (p s1 s2 : string) : p +:+ s1 = p +:+ s2 -> s1 = s2.
Proof.
  induction p as [| c p IH]; cbn; intros H; [exact H |].
  injection H as H. apply IH, H.
Qed.

Lemma latest_not_best a : latest_path a <> best_path a.
Proof.
  unfold latest_path, best_path. intros H.
  apply append_inv_head in H. apply append_inv_head in H. discriminate.
Qed.

(** Over any list of epochs, the best validation loss does not go up. *)
Lemma epoch_loop_best a w sp l s :
  (best_val_loss (st (for_each (epoch_body a w sp) l s))
     <= best_val_loss s)%Q.
Proof.
  apply (preserves_run
           (fun s' => (best_val_loss s' <= best_val_loss s)%Q) any_event
           (for_each (epoch_body a w sp) l) s); [| apply Qle_refl].
  apply preserves_for_each. intros e s' Hs'.
  split; [apply Forall_any_event |].
  destruct (epoch_body_spec a w sp e s') as (_ & _ & _ & R).
  destruct (res (epoch_body a w sp e s')).
  - destruct R as (Hb & _). rewrite Hb.
    eapply Qle_trans; [apply py_min_le_r | exact Hs'].
  - destruct R as (Hb & _). rewrite Hb. exact Hs'.
Qed.

(** An epoch that reaches its end writes line 229's record to the latest
    file, and the best file then holds that same record if the validation
    mean loss is strictly below the best so far and is left as it was
    otherwise; the only [torch.save] and [shutil.copyfile] calls of the
    epoch are that save and, in the first case, the copy.  The best so far
    becomes [min(val_loss, best)].  An epoch that raises writes nothing.
    Over any sequence of epochs whose losses are numbers the best so far
    never goes up.  With a non-zero print frequency and the logger bound
    whenever it is used, the epoch does reach its end. *)
Lemma epoch_body_checkpoint a w sp e s :
  let o := epoch_body a w sp e s in
  let vl := pass_mean (val_batches w (val_imgs sp) (val_masks sp) e) in
  let ck := epoch_checkpoint a e vl s in
  match res o with
  | Ok _ =>
      fs (st o) !! latest_path a = Some (CheckpointFile ck) /\
      fs (st o) !! best_path a =
        (if Qltb vl (best_val_loss s) then Some (CheckpointFile ck)
         else fs s !! best_path a) /\
      fs_events (tr o) =
        EvTorchSave (latest_path a) ck ::
        (if Qltb vl (best_val_loss s)
         then [EvCopyFile (latest_path a) (best_path a)] else []) /\
      best_val_loss (st o) = py_min vl (best_val_loss s)
  | Err _ =>
      fs (st o) = fs s /\ fs_events (tr o) = [] /\
      best_val_loss (st o) = best_val_loss s
  end /\
  (forall l,
     (best_val_loss (st (for_each (epoch_body a w sp) l s))
        <= best_val_loss s)%Q) /\
  (passes_configured a -> logger_bound a s -> res o = Ok tt).
Proof.
  intros o vl ck. split; [| split].
  - destruct (epoch_body_spec a w sp e s) as (_ & _ & _ & R).
    fold o vl ck in R. destruct (res o).
    + destruct R as (Hb & Hf & Hev). rewrite Hf.
      pose proof (latest_not_best a) as Hne.
      destruct (Qltb vl (best_val_loss s)).
      * rewrite lookup_insert_ne by congruence.
        rewrite !lookup_insert_eq. auto.
      * rewrite lookup_insert_eq, lookup_insert_ne by exact Hne. auto.
    + destruct R as (Hb & Hf & Hev). auto.
  - intros l. apply epoch_loop_best.
  - apply epoch_body_total.
Qed.

(** ** Up to the epoch loop *)

Lemma lookup_after_rmtree a files p :
  String.prefix (tb_log_dir a) p = false ->
  after_rmtree a files !! p = files !! p.
Proof.
  intros Hp. unfold after_rmtree. destruct (files !! p) as [f |] eqn:E.
  - apply map_lookup_filter_Some. split; [exact E | exact Hp].
  - apply map_lookup_filter_None. left. exact E.
Qed.

Lemma lookup_after_rmtree_None a files p :
  files !! p = None -> after_rmtree a files !! p = None.
Proof.
  intros E. unfold after_rmtree. apply map_lookup_filter_None. left. exact E.
Qed.

Ltac simpl_state :=
  cbn [args_start_epoch best_val_loss train_minib_counter
       valid_minib_counter logger fs model_training model_params
       optimizer_lr scheduler
       set_args_start_epoch set_best_val_loss set_train_minib_counter
       set_valid_minib_counter set_logger set_fs set_model_training
       set_model_params set_optimizer_lr set_scheduler initial_state] in *.

Ltac wp_file :=
  lazymatch goal with
  | |- wp (match ?x with CheckpointFile _ => _ | OtherFile => _ end) _ _ =>
      destruct x eqn:?
  end; cbv beta iota.

Ltac wp_all := repeat (first [wp_step | wp_file]; simpl_state).

Lemma script_init_spec a w files :
  let o := script_init a w (initial_state a w files) in
  fs (st o) = after_rmtree a files /\
  logger_bound a (st o) /\
  train_minib_counter (st o) = 0 /\
  valid_minib_counter (st o) = 0 /\
  Forall init_event (tr o) /\
  (resume_file a files = None -> best_val_loss (st o) = 100%Q) /\
  match res o with
  | Ok sp =>
      split_call a w = Ok sp /\
      match resume_file a files with
      | Some (CheckpointFile ck) =>
          args_start_epoch (st o) = ck_epoch ck /\
          best_val_loss (st o) = ck_best_val_loss ck /\
          model_params (st o) = ck_state_dict ck
      | Some OtherFile => False
      | None =>
          args_start_epoch (st o) = start_epoch a /\
          best_val_loss (st o) = 100%Q /\
          model_params (st o) = initial_params w
      end
  | Err _ => True
  end.
Proof.
  intros o. subst o.
  change (wp (script_init a w) (initial_state a w files) (fun r s t =>
    fs s = after_rmtree a files /\ logger_bound a s /\
    train_minib_counter s = 0 /\ valid_minib_counter s = 0 /\
    Forall init_event t /\
    (resume_file a files = None -> best_val_loss s = 100%Q) /\
    match r with
    | Ok sp =>
        split_call a w = Ok sp /\
        match resume_file a files with
        | Some (CheckpointFile ck) =>
            args_start_epoch s = ck_epoch ck /\
            best_val_loss s = ck_best_val_loss ck /\
            model_params s = ck_state_dict ck
        | Some OtherFile => False
        | None =>
            args_start_epoch s = start_epoch a /\
            best_val_loss s = 100%Q /\
            model_params s = initial_params w
        end
    | Err _ => True
    end)).
  unfold script_init, module_setup, rmtree_quiet, main_init, load_and_split,
    select_model, select_optimizer, resume_checkpoint, torch_load,
    resume_file, logger_bound.
  fold (after_rmtree a files).
  wp_all.
  all: fold (after_rmtree a files) in *.
  all: repeat match goal with
       | H : ?x = _ |- context [?x] => rewrite H
       end.
  all: repeat split; simpl_state; try congruence;
    try (cbn [app]; repeat constructor).
Qed.

(** With a partition, accepted identifiers and a readable resume file (or
    none), the script reaches the epoch loop. *)
Lemma script_init_total a w files sp :
  split_call a w = Ok sp ->
  arch_supported a = true ->
  optimizer_supported a = true ->
  resume_file a files <> Some OtherFile ->
  res (script_init a w (initial_state a w files)) = Ok sp.
Proof.
  intros Hsp Harch Hopt Hres.
  change (wp (script_init a w) (initial_state a w files)
            (fun r _ _ => r = Ok sp)).
  unfold arch_supported, optimizer_supported, resume_file in *.
  unfold script_init, module_setup, rmtree_quiet, main_init, load_and_split,
    select_model, select_optimizer, resume_checkpoint, torch_load.
  fold (after_rmtree a files).
  rewrite Hsp.
  wp_all.
  all: fold (after_rmtree a files) in *.
  all: repeat match goal with
       | H : ?x = _, H' : context [?x] |- _ => rewrite H in H'
       end.
  all: cbn [orb] in *; try congruence.
Qed.

(** The script stops at line 121 when the architecture is not accepted:
    the log directory is gone, the data set has been read and split, and
    nothing else has happened. *)
Lemma run_model_not_supported a w files sp :
  split_call a w = Ok sp ->
  arch_supported a = false ->
  res (run a w files) = Err (ValueError "Model not supported") /\
  fs (st (run a w files)) = after_rmtree a files /\
  tr (run a w files) =
    [EvPrint "args"; EvRmTree (tb_log_dir a)] ++
    (if tensorboard a then [EvLogger ("./tb_logs/" +:+ lognumber a)]
     else []) ++
    [EvGetTrainDataset (preset a);
     EvTrainTestSplit (1 # 5) (Some (seed a)); EvPrint "Train images"].
Proof.
  intros Hsp Harch.
  apply orb_false_elim in Harch as [H1 H2].
  change (wp (script a w) (initial_state a w files) (fun r s t =>
    r = Err (ValueError "Model not supported") /\
    fs s = after_rmtree a files /\
    t = [EvPrint "args"; EvRmTree (tb_log_dir a)] ++
        (if tensorboard a then [EvLogger ("./tb_logs/" +:+ lognumber a)]
         else []) ++
        [EvGetTrainDataset (preset a);
         EvTrainTestSplit (1 # 5) (Some (seed a)); EvPrint "Train images"])).
  unfold script, main, module_setup, rmtree_quiet, main_init, load_and_split,
    select_model.
  fold (after_rmtree a files).
  rewrite Hsp, H1, H2.
  wp_all; try discriminate; repeat split; reflexivity.
Qed.

(** The script stops at line 185 when the optimizer is not accepted: the
    model has been built and the resume file, if any, loaded; no pass has
    run and, the log directory apart, the files are as they were. *)
Lemma run_optimizer_not_supported a w files sp :
  split_call a w = Ok sp ->
  arch_supported a = true ->
  optimizer_supported a = false ->
  resume_file a files <> Some OtherFile ->
  res (run a w files) = Err (ValueError "Optimizer not supported") /\
  fs (st (run a w files)) = after_rmtree a files /\
  Forall init_event (tr (run a w files)).
Proof.
  intros Hsp Harch Hopt Hres.
  apply orb_false_elim in Hopt as [H1 H2].
  change (wp (script a w) (initial_state a w files) (fun r s t =>
    r = Err (ValueError "Optimizer not supported") /\
    fs s = after_rmtree a files /\ Forall init_event t)).
  unfold arch_supported, resume_file in *.
  unfold script, main, module_setup, rmtree_quiet, main_init, load_and_split,
    select_model, select_optimizer, resume_checkpoint, torch_load.
  fold (after_rmtree a files).
  rewrite Hsp, H1, H2.
  wp_all.
  all: fold (after_rmtree a files) in *.
  all: repeat match goal with
       | H : ?x = _, H' : context [?x] |- _ => rewrite H in H'
       end.
  all: cbn [orb] in *; try congruence.
  all: repeat split; try (cbn [app]; repeat constructor).
Qed.

(** ** The epoch loop *)

Lemma run_split a w files :
  run a w files =
    bind (script_init a w) (main_loop a w) (initial_state a w files).
Proof.
  unfold run, script, main, script_init. symmetry. apply run_bind_assoc.
Qed.

Lemma main_loop_train a w sp s :
  evaluate a = false ->
  main_loop a w sp s =
    for_each (epoch_body a w sp) (py_range (args_start_epoch s) (epochs a)) s.
Proof.
  intros Hev. unfold main_loop. rewrite run_gets_bind, Hev. reflexivity.
Qed.

Lemma epoch_loop_total a w sp l :
  passes_configured a ->
  forall s, logger_bound a s ->
    res (for_each (epoch_body a w sp) l s) = Ok tt /\
    trained_epochs (tr (for_each (epoch_body a w sp) l s)) = l.
Proof.
  intros Hcfg. induction l as [| e l IH]; intros s Hlog; cbn [for_each].
  - split; reflexivity.
  - pose proof (epoch_body_total a w sp e s Hcfg Hlog) as H1.
    destruct (epoch_body_spec a w sp e s) as (Hl & _ & Ht & _).
    rewrite (bind_run _ _ _ _ H1). cbn [res st tr].
    destruct (IH (st (epoch_body a w sp e s))) as [IH1 IH2].
    { unfold logger_bound in *. rewrite Hl. exact Hlog. }
    split; [exact IH1 |].
    rewrite trained_epochs_app, Ht, IH2. reflexivity.
Qed.

Lemma init_event_not_enter ev : init_event ev -> not_enter_train ev.
Proof. destruct ev; cbn; intros H; try exact Logic.I; destruct H. Qed.

Lemma py_range_3_5 : py_range 3 5 = [3; 4].
Proof. reflexivity. Qed.

(** C4: a run that resumes from a checkpoint file (one the removal of the
    log directory leaves in place), with accepted identifiers, a
    partition and a configuration the passes accept, enters the epoch loop
    with [args.start_epoch] and [best_val_loss] equal to the checkpoint's
    fields, calls [train] for exactly the epochs [range(checkpoint epoch,
    args.epochs)], finishes, and ends with a best loss no greater than the
    checkpointed one.  A checkpoint written at the end of epoch 2 carries
    epoch 3 (line 230), so with [args.epochs = 5] the epochs trained are 3
    and 4. *)
Theorem resume_continuity a w files ck sp :
  py_bool_str (resume a) = true ->
  files !! resume a = Some (CheckpointFile ck) ->
  String.prefix (tb_log_dir a) (resume a) = false ->
  split_call a w = Ok sp ->
  arch_supported a = true ->
  optimizer_supported a = true ->
  passes_configured a ->
  evaluate a = false ->
  let o0 := script_init a w (initial_state a w files) in
  let o := run a w files in
  args_start_epoch (st o0) = ck_epoch ck /\
  best_val_loss (st o0) = ck_best_val_loss ck /\
  res o = Ok tt /\
  trained_epochs (tr o) = py_range (ck_epoch ck) (epochs a) /\
  (best_val_loss (st o) <= ck_best_val_loss ck)%Q /\
  (ck_epoch ck = 3 -> epochs a = 5 -> trained_epochs (tr o) = [3; 4]).
Proof.
  intros Hres Hfile Hkeep Hsp Harch Hopt Hcfg Hev o0 o.
  assert (Hrf : resume_file a files = Some (CheckpointFile ck)).
  { unfold resume_file. rewrite Hres, lookup_after_rmtree by exact Hkeep.
    exact Hfile. }
  assert (Hok : res o0 = Ok sp).
  { apply script_init_total; try assumption. rewrite Hrf. discriminate. }
  destruct (script_init_spec a w files)
    as (_ & Hlog & _ & _ & Hev0 & _ & Hst).
  fold o0 in Hlog, Hev0, Hst. rewrite Hok, Hrf in Hst.
  destruct Hst as (_ & Hstart & Hbest & _).
  assert (Hrun : o = Outcome
            (res (main_loop a w sp (st o0))) (st (main_loop a w sp (st o0)))
            (tr o0 ++ tr (main_loop a w sp (st o0)))).
  { subst o. rewrite run_split. apply bind_run. exact Hok. }
  rewrite (main_loop_train a w sp (st o0) Hev), Hstart in Hrun.
  destruct (epoch_loop_total a w sp (py_range (ck_epoch ck) (epochs a))
              Hcfg (st o0) Hlog) as [Hr Ht].
  pose proof (epoch_loop_best a w sp (py_range (ck_epoch ck) (epochs a))
                (st o0)) as Hle.
  assert (Htrained : trained_epochs (tr o) = py_range (ck_epoch ck) (epochs a)).
  { rewrite Hrun. cbn [tr]. rewrite trained_epochs_app, Ht.
    rewrite (trained_epochs_none _ _ init_event_not_enter Hev0). reflexivity. }
  split; [exact Hstart |]. split; [exact Hbest |].
  split; [rewrite Hrun; exact Hr |].
  split; [exact Htrained |].
  split; [rewrite Hrun; cbn [st]; rewrite <- Hbest; exact Hle |].
  intros H3 H5. rewrite Htrained, H3, H5. apply py_range_3_5.
Qed.

Lemma resume_continuity_witness :
  trained_epochs (tr (run first_args (demo_world 0 falling_loss) ∅))
    = [0; 1; 2] /\
  ck_epoch checkpoint_after_epoch_2 = 3 /\
  trained_epochs
    (tr (run resumed_args (demo_world 0 falling_loss) files_after_epoch_2))
    = [3; 4].
Proof.
  split; [vm_compute; reflexivity |]. split; [vm_compute; reflexivity |].
  refine (proj2 (proj2 (proj2 (proj2 (proj2
    (resume_continuity resumed_args (demo_world 0 falling_loss)
       files_after_epoch_2 checkpoint_after_epoch_2 demo_split
       _ _ _ _ _ _ _ _))))) _ _).
  - reflexivity.
  - vm_compute. reflexivity.
  - reflexivity.
  - vm_compute. reflexivity.
  - reflexivity.
  - reflexivity.
  - split; [discriminate | intros _; reflexivity].
  - reflexivity.
  - vm_compute. reflexivity.
  - reflexivity.
Defined.

(** ** A run whose validation loss never drops below 100 *)

Lemma no_copy_from_fs_events t :
  Forall not_copy (fs_events t) -> Forall not_copy t.
Proof.
  induction t as [| ev t IH]; intros H; [constructor |].
  cbn in H. destruct (is_fs_event ev) eqn:E.
  - inversion H; subst. constructor; auto.
  - constructor; [| auto]. destruct ev; try exact Logic.I. discriminate E.
Qed.

Lemma best_path_kept a : String.prefix (tb_log_dir a) (best_path a) = false.
Proof. reflexivity. Qed.

Lemma latest_path_kept a a' :
  String.prefix (tb_log_dir a') (latest_path a) = false.
Proof. reflexivity. Qed.

Lemma py_range_In lo hi e : In e (py_range lo hi) -> lo <= e < hi.
Proof.
  unfold py_range. intros H. apply List.in_map_iff in H as (k & <- & Hk).
  apply List.in_seq in Hk. lia.
Qed.

Section NoImprovement.

Variable a : Args.
Variable w : world.
Variable sp : split.
Variable lo : Z.
Hypothesis Hval :
  forall e, lo <= e < epochs a ->
    (100 <= pass_mean (val_batches w (val_imgs sp) (val_masks sp) e))%Q.
Variable f0 : option file.

Lemma epoch_body_no_improvement e :
  lo <= e < epochs a ->
  preserves (still_at_100 a f0) not_copy (epoch_body a w sp e).
Proof.
  intros He s [Hb Hf].
  destruct (epoch_body_spec a w sp e s) as (_ & _ & _ & R).
  specialize (Hval e He).
  set (vl := pass_mean (val_batches w (val_imgs sp) (val_masks sp) e)) in *.
  assert (Hnot : Qltb vl (best_val_loss s) = false).
  { apply Qltb_false. rewrite Hb. exact Hval. }
  rewrite Hnot in R.
  destruct (res (epoch_body a w sp e s)).
  - destruct R as (Hb' & Hf' & Hev). split.
    + apply no_copy_from_fs_events. rewrite Hev.
      repeat constructor.
    + split.
      * rewrite Hb'. unfold py_min.
        destruct (Qltb (best_val_loss s) vl) eqn:E; [exact Hb |].
        apply Qltb_false in E. apply Qle_antisym; [| exact Hval].
        rewrite <- Hb. exact E.
      * rewrite Hf'. rewrite lookup_insert_ne; [exact Hf |].
        apply latest_not_best.
  - destruct R as (Hb' & Hf' & Hev). split.
    + apply no_copy_from_fs_events. rewrite Hev. constructor.
    + split; [rewrite Hb'; exact Hb | rewrite Hf'; exact Hf].
Qed.

Lemma main_loop_no_improvement s :
  still_at_100 a f0 s ->
  args_start_epoch s = lo ->
  still_at_100 a f0 (st (main_loop a w sp s)) /\
  Forall not_copy (tr (main_loop a w sp s)).
Proof.
  intros Hs Hlo. unfold main_loop. rewrite run_gets_bind, Hlo.
  destruct (evaluate a).
  - apply (preserves_run (still_at_100 a f0) not_copy); [| exact Hs].
    apply preserves_bind; [| intros v; apply preserves_ret].
    apply validate_preserves; unfold still_at_100; cbn; auto.
  - apply (preserves_run (still_at_100 a f0) not_copy); [| exact Hs].
    apply hoare_for_each. intros e He.
    apply epoch_body_no_improvement, py_range_In, He.
Qed.

End NoImprovement.

(** C9: the best-so-far loss starts at 100.  In a run that does not
    resume, and in which the validation mean loss of every epoch of
    [range(args.start_epoch, args.epochs)] is at least 100, no
    [shutil.copyfile] is ever called, the best file is at the end what it
    was at the start, and the best-so-far loss is still 100. *)
Theorem best_starts_at_100 a w files :
  (py_bool_str (resume a) = false \/ files !! resume a = None) ->
  (forall sp e,
     split_call a w = Ok sp ->
     start_epoch a <= e < epochs a ->
     (100 <= pass_mean (val_batches w (val_imgs sp) (val_masks sp) e))%Q) ->
  best_val_loss (initial_state a w files) = 100%Q /\
  Forall not_copy (tr (run a w files)) /\
  fs (st (run a w files)) !! best_path a = files !! best_path a /\
  (best_val_loss (st (run a w files)) == 100)%Q.
Proof.
  intros Hfresh Hval. split; [reflexivity |].
  assert (Hrf : resume_file a files = None).
  { unfold resume_file. destruct Hfresh as [-> | Hnone]; [reflexivity |].
    destruct (py_bool_str (resume a)); [| reflexivity].
    apply lookup_after_rmtree_None, Hnone. }
  destruct (script_init_spec a w files)
    as (Hfs & _ & _ & _ & Hev0 & Hbest & Hst).
  specialize (Hbest Hrf). rewrite Hrf in Hst.
  set (o0 := script_init a w (initial_state a w files)) in *.
  assert (Hcopy0 : Forall not_copy (tr o0)).
  { eapply Forall_impl; [exact Hev0 |].
    intros ev H. destruct ev; try exact Logic.I. destruct H. }
  assert (Hbest0 : fs (st o0) !! best_path a = files !! best_path a).
  { rewrite Hfs. apply lookup_after_rmtree, best_path_kept. }
  rewrite run_split. fold o0.
  destruct (res o0) as [sp | err] eqn:Hres.
  - rewrite (bind_run _ _ _ _ Hres). cbn [res st tr]. fold o0.
    destruct Hst as (Hsp & Hstart & _).
    destruct (main_loop_no_improvement a w sp (start_epoch a)
                (fun e => Hval sp e Hsp) (files !! best_path a) (st o0))
      as [[Hb Hf] Htr].
    { split; [rewrite Hbest; reflexivity | exact Hbest0]. }
    { exact Hstart. }
    split; [apply Forall_app; split; assumption |].
    split; assumption.
  - rewrite (bind_run_err _ _ _ _ Hres). cbn [res st tr]. fold o0.
    split; [exact Hcopy0 |]. split; [exact Hbest0 |].
    rewrite Hbest. reflexivity.
Qed.

Lemma best_starts_at_100_witness :
  Forall not_copy
    (tr (run first_args (demo_world 0 (fun _ => 150%Q)) ∅)) /\
  fs (st (run first_args (demo_world 0 (fun _ => 150%Q)) ∅))
    !! best_path first_args = None.
Proof.
  destruct (best_starts_at_100 first_args (demo_world 0 (fun _ => 150%Q)) ∅)
    as (_ & Hcopy & Hfile & _).
  - left. reflexivity.
  - intros sp e _ _. vm_compute. discriminate.
  - split; [exact Hcopy | exact Hfile].
Defined.

(** ** Configuration errors *)

(** C2 as stated fails: with the architecture ["not_a_real_model"] the
    run does raise, but only after it has removed the log directory of
    the earlier run and read and split the data set. *)
Lemma config_error_after_side_effects :
  arch_supported bad_arch_args = false /\
  res (run bad_arch_args (demo_world 0 (fun _ => 1%Q)) old_logs)
    = Err (ValueError "Model not supported") /\
  fs (st (run bad_arch_args (demo_world 0 (fun _ => 1%Q)) old_logs)) = ∅ /\
  old_logs <> ∅ /\
  tr (run bad_arch_args (demo_world 0 (fun _ => 1%Q)) old_logs) =
    [ EvPrint "args"; EvRmTree "tb_logs/test_model/";
      EvGetTrainDataset "mul_urban"; EvTrainTestSplit (1 # 5) (Some 42);
      EvPrint "Train images" ] /\
  ~ side_effect_free old_logs
      (run bad_arch_args (demo_world 0 (fun _ => 1%Q)) old_logs).
Proof.
  assert (Hne : old_logs <> ∅).
  { intros H.
    apply (f_equal (fun m => m !! "tb_logs/test_model/events.out.tfevents"))
      in H. vm_compute in H. discriminate H. }
  assert (Hfs : fs (st (run bad_arch_args (demo_world 0 (fun _ => 1%Q)) old_logs))
                = ∅).
  { apply map_eq. intros p. rewrite lookup_empty.
    destruct (run_model_not_supported bad_arch_args (demo_world 0 (fun _ => 1%Q))
                old_logs demo_split) as (_ & -> & _);
      [vm_compute; reflexivity | reflexivity |].
    unfold after_rmtree, old_logs.
    apply map_lookup_filter_None. 
    destruct (decide (p = "tb_logs/test_model/events.out.tfevents")) as [-> | Hp].
    - right. intros f _. cbn. discriminate.
    - left. apply lookup_singleton_ne. congruence. }
  split; [reflexivity |]. split; [vm_compute; reflexivity |].
  split; [exact Hfs |]. split; [exact Hne |].
  split; [vm_compute; reflexivity |].
  intros [H _]. rewrite Hfs in H. apply Hne. symmetry. exact H.
Qed.

(** C2, amended: when the data set can be partitioned and the architecture
    identifier starts with neither ["linknet34"] nor ["unet11"], the run
    raises [ValueError('Model not supported')] after the module-level
    set-up and the loading and splitting of the data set, and nothing
    else: the trace is exactly the one shown, and every file outside the
    run's log directory is as it was.  When the architecture is accepted,
    the resume file (if any) is a checkpoint, and the optimizer identifier
    starts with neither ["adam"] nor ["rmsprop"], the run raises
    [ValueError('Optimizer not supported')] before any pass and any
    checkpoint write, again leaving every file outside the log directory as
    it was. *)
Theorem config_error_after_setup a w files sp :
  split_call a w = Ok sp ->
  (arch_supported a = false ->
     res (run a w files) = Err (ValueError "Model not supported") /\
     tr (run a w files) =
       [EvPrint "args"; EvRmTree (tb_log_dir a)] ++
       (if tensorboard a then [EvLogger ("./tb_logs/" +:+ lognumber a)]
        else []) ++
       [EvGetTrainDataset (preset a);
        EvTrainTestSplit (1 # 5) (Some (seed a)); EvPrint "Train images"] /\
     forall p, String.prefix (tb_log_dir a) p = false ->
               fs (st (run a w files)) !! p = files !! p) /\
  (arch_supported a = true ->
   optimizer_supported a = false ->
   resume_file a files <> Some OtherFile ->
     res (run a w files) = Err (ValueError "Optimizer not supported") /\
     Forall init_event (tr (run a w files)) /\
     forall p, String.prefix (tb_log_dir a) p = false ->
               fs (st (run a w files)) !! p = files !! p).
Proof.
  intros Hsp. split.
  - intros Harch.
    destruct (run_model_not_supported a w files sp Hsp Harch)
      as (Hr & Hf & Ht).
    repeat split; try assumption.
    intros p Hp. rewrite Hf. apply lookup_after_rmtree, Hp.
  - intros Harch Hopt Hres.
    destruct (run_optimizer_not_supported a w files sp Hsp Harch Hopt Hres)
      as (Hr & Hf & Ht).
    repeat split; try assumption.
    intros p Hp. rewrite Hf. apply lookup_after_rmtree, Hp.
Qed.

Lemma config_error_after_setup_witness :
  res (run bad_arch_args (demo_world 0 (fun _ => 1%Q)) old_logs)
    = Err (ValueError "Model not supported") /\
  res (run bad_optimizer_args (demo_world 0 (fun _ => 1%Q)) old_logs)
    = Err (ValueError "Optimizer not supported").
Proof.
  split.
  - apply (proj1 (config_error_after_setup bad_arch_args
                    (demo_world 0 (fun _ => 1%Q)) old_logs demo_split
                    ltac:(vm_compute; reflexivity))).
    reflexivity.
  - apply (proj2 (config_error_after_setup bad_optimizer_args
                    (demo_world 0 (fun _ => 1%Q)) old_logs demo_split
                    ltac:(vm_compute; reflexivity))).
    + reflexivity.
    + reflexivity.
    + discriminate.
Defined.

(** ** The partition *)

(** What [main] decides about the partition: it returns what the splitter
    returns, changes nothing else, and calls the splitter with a fifth as
    the validation fraction and with the integer seed [args.seed], never
    without one.  What the splitter does with them is sklearn's matter. *)
Lemma load_and_split_result a w s :
  res (load_and_split a w s) = split_call a w /\
  st (load_and_split a w s) = s /\
  In (EvTrainTestSplit (1 # 5) (Some (seed a))) (tr (load_and_split a w s)).
Proof.
  change (wp (load_and_split a w) s (fun r s' t =>
    r = split_call a w /\ s' = s /\
    In (EvTrainTestSplit (1 # 5) (Some (seed a))) t)).
  unfold load_and_split. wp_all; repeat split; try congruence.
  all: cbn; auto.
Qed.

(** * Further properties *)

(** ** The running mean, continued *)

Lemma total_weight_cons u us :
  AverageMeter.total_weight (u :: us) = snd u + AverageMeter.total_weight us.
Proof. reflexivity. Qed.

Lemma total_weight_nonneg us :
  Forall (fun u : Q * Z => 0 < snd u) us -> 0 <= AverageMeter.total_weight us.
Proof.
  induction 1 as [| u us Hu _ IH]; [cbn; lia |].
  rewrite total_weight_cons. lia.
Qed.

Lemma total_weight_pos us :
  us <> [] -> Forall (fun u : Q * Z => 0 < snd u) us ->
  0 < AverageMeter.total_weight us.
Proof.
  intros Hne H. destruct H as [| u us Hu Hus]; [congruence |].
  rewrite total_weight_cons.
  pose proof (total_weight_nonneg us Hus). lia.
Qed.

Lemma updates_from_reset us :
  us <> [] -> Forall (fun u : Q * Z => 0 < snd u) us ->
  exists m,
    AverageMeter.updates AverageMeter.reset us = Ok m /\
    AverageMeter.count m = AverageMeter.total_weight us /\
    (AverageMeter.avg m ==
       AverageMeter.weighted_sum us
         / inject_Z (AverageMeter.total_weight us))%Q.
Proof.
  intros Hne Hpos.
  destruct (updates_spec us AverageMeter.reset)
    as (m & Hrun & Hcnt & Hsum & Havg);
    [cbn; lia | exact Hpos | exact Hne |].
  exists m. split; [exact Hrun |]. cbn in Hcnt, Hsum.
  split; [exact Hcnt |].
  rewrite Havg, Hsum, Hcnt, Qplus_0_l. reflexivity.
Qed.

Lemma batch_updates_positive bs :
  Forall (fun u : Q * Z => 0 < snd u) (batch_updates bs).
Proof.
  induction bs as [| b bs IH]; cbn; constructor; [cbn; lia | exact IH].
Qed.

(** The mean of a pass over a non-empty list of batches, in closed form. *)
Lemma pass_mean_closed bs :
  bs <> [] ->
  (pass_mean bs ==
     AverageMeter.weighted_sum (batch_updates bs)
       / inject_Z (AverageMeter.total_weight (batch_updates bs)))%Q.
Proof.
  intros Hne. unfold pass_mean.
  destruct (updates_from_reset (batch_updates bs)) as (m & -> & _ & Havg).
  - destruct bs; [congruence | discriminate].
  - apply batch_updates_positive.
  - exact Havg.
Qed.

(** X3: the mean loss of a pass is the sum of the batch losses weighted by
    the batch sizes over the number of items; over no batch at all it
    is 0. *)
Theorem pass_mean_weighted (bs : list batch) :
  match bs with
  | [] => pass_mean bs = 0%Q
  | _ :: _ =>
      0 < AverageMeter.total_weight (batch_updates bs) /\
      (pass_mean bs ==
         AverageMeter.weighted_sum (batch_updates bs)
           / inject_Z (AverageMeter.total_weight (batch_updates bs)))%Q
  end.
Proof.
  destruct bs as [| b bs]; [reflexivity |]. split.
  - apply total_weight_pos; [discriminate | apply batch_updates_positive].
  - apply pass_mean_closed. discriminate.
Qed.

(** ** What a pass does, batch by batch *)

Lemma update_val m v n m' :
  AverageMeter.update m v n = Ok m' -> AverageMeter.val m' = v.
Proof.
  unfold AverageMeter.update.
  destruct (AverageMeter.count m + n =? 0); [discriminate |].
  intros H. injection H as <-. reflexivity.
Qed.

Lemma count_events_app p t1 t2 :
  count_events p (t1 ++ t2) = (count_events p t1 + count_events p t2)%nat.
Proof.
  induction t1 as [| ev t1 IH]; cbn; [reflexivity |]. rewrite IH. lia.
Qed.

Lemma scalar_logs_app t1 t2 :
  scalar_logs (t1 ++ t2) = scalar_logs t1 ++ scalar_logs t2.
Proof. apply List.filter_app. Qed.

Lemma image_logs_app t1 t2 :
  image_logs (t1 ++ t2) = image_logs t1 ++ image_logs t2.
Proof. apply List.filter_app. Qed.

Lemma train_batch_accounting a epoch i b acc s :
  passes_configured a -> logger_bound a s -> 0 <= AverageMeter.count acc ->
  wp (train_batch a epoch i b acc) s (fun r s' t =>
    match r with
    | Ok acc' =>
        AverageMeter.update acc (loss_data0 b) (Z.pos (input_size0 b))
          = Ok acc' /\
        0 <= AverageMeter.count acc' /\
        train_minib_counter s' = train_minib_counter s + 1 /\
        valid_minib_counter s' = valid_minib_counter s /\
        logger s' = logger s /\
        model_training s' = model_training s /\
        scalar_logs t =
          (if tensorboard a
           then [EvScalarSummary "train_loss" (loss_data0 b)
                   (train_minib_counter s)]
           else []) /\
        count_events is_forward t = 1%nat /\
        count_events is_zero_grad t = 1%nat /\
        count_events is_backward t = 1%nat
    | Err _ => False
    end).
Proof.
  intros [Hpf Him] Hlog Hc. unfold logger_bound in Hlog.
  unfold train_batch, scalar_summary. wp_run; simpl_state.
  all: try match goal with
       | H : AverageMeter.update _ _ _ = Err _ |- _ =>
           exfalso; revert H; apply update_no_raise; [assumption | lia]
       | H : (print_freq _ =? 0) = true |- _ =>
           apply Z.eqb_eq in H; contradiction
       end.
  all: try (exfalso; apply Hlog; [reflexivity || assumption | congruence]).
  all: match goal with
       | H : AverageMeter.update _ _ _ = Ok _ |- _ =>
           pose proof (update_count _ _ _ _ H);
           try rewrite (update_val _ _ _ _ H)
       end.
  all: repeat split; try reflexivity; try lia; try congruence.
Qed.

Lemma validate_batch_accounting a i b acc s :
  passes_configured a -> logger_bound a s -> 0 <= AverageMeter.count acc ->
  wp (validate_batch a i b acc) s (fun r s' t =>
    match r with
    | Ok acc' =>
        AverageMeter.update acc (loss_data0 b) (Z.pos (input_size0 b))
          = Ok acc' /\
        0 <= AverageMeter.count acc' /\
        valid_minib_counter s' = valid_minib_counter s + 1 /\
        train_minib_counter s' = train_minib_counter s /\
        logger s' = logger s /\
        model_training s' = model_training s /\
        scalar_logs t =
          (if tensorboard a
           then [EvScalarSummary "valid_loss" (loss_data0 b)
                   (valid_minib_counter s)]
           else []) /\
        image_logs t =
          (if tensorboard_images a
           then per_batch_images (print_freq a) (train_minib_counter s) i [b]
           else []) /\
        count_events is_forward t = 1%nat
    | Err _ => False
    end).
Proof.
  intros [Hpf Him] Hlog Hc. unfold logger_bound in Hlog.
  unfold validate_batch, show_images, image_summary, scalar_summary.
  cbn [per_batch_images].
  wp_run; simpl_state.
  all: try match goal with
       | H : AverageMeter.update _ _ _ = Err _ |- _ =>
           exfalso; revert H; apply update_no_raise; [assumption | lia]
       | H : (print_freq _ =? 0) = true |- _ =>
           apply Z.eqb_eq in H; contradiction
       end.
  all: try (exfalso; apply Hlog; [auto | congruence]).
  all: match goal with
       | H : AverageMeter.update _ _ _ = Ok _ |- _ =>
           pose proof (update_count _ _ _ _ H);
           try rewrite (update_val _ _ _ _ H)
       end.
  all: repeat split; try reflexivity; try lia; try congruence.
Qed.

Lemma per_batch_images_cons pf c i b bs :
  per_batch_images pf c i (b :: bs) =
    per_batch_images pf c i [b] ++ per_batch_images pf c (i + 1) bs.
Proof. cbn. rewrite app_nil_r. reflexivity. Qed.

Section Accounting.

Variable a : Args.
Hypothesis Hcfg : passes_configured a.

Lemma train_loop_accounting epoch l : forall i acc s,
  logger_bound a s -> 0 <= AverageMeter.count acc ->
  exists m,
    res (for_enumerate (train_batch a epoch) i l acc s) = Ok m /\
    AverageMeter.updates acc (batch_updates l) = Ok m /\
    train_minib_counter (st (for_enumerate (train_batch a epoch) i l acc s))
      = train_minib_counter s + Z.of_nat (length l) /\
    valid_minib_counter (st (for_enumerate (train_batch a epoch) i l acc s))
      = valid_minib_counter s /\
    logger (st (for_enumerate (train_batch a epoch) i l acc s)) = logger s /\
    model_training (st (for_enumerate (train_batch a epoch) i l acc s))
      = model_training s /\
    scalar_logs (tr (for_enumerate (train_batch a epoch) i l acc s)) =
      (if tensorboard a
       then per_batch_logs "train_loss" (train_minib_counter s) l else []) /\
    count_events is_forward
      (tr (for_enumerate (train_batch a epoch) i l acc s)) = length l /\
    count_events is_zero_grad
      (tr (for_enumerate (train_batch a epoch) i l acc s)) = length l /\
    count_events is_backward
      (tr (for_enumerate (train_batch a epoch) i l acc s)) = length l.
Proof.
  induction l as [| b l IH]; intros i acc s Hlog Hc.
  - exists acc. cbn. destruct (tensorboard a); repeat split; lia.
  - pose proof (train_batch_accounting a epoch i b acc s Hcfg Hlog Hc) as H.
    unfold wp in H. cbn [for_enumerate].
    destruct (res (train_batch a epoch i b acc s)) as [acc' |] eqn:Hr;
      [| destruct H].
    destruct H as (Hu & Hc' & Ht & Hv & Hl & Hm & Hsc & Hf & Hz & Hb).
    rewrite (bind_run _ _ _ _ Hr). cbn [res st tr].
    set (s1 := st (train_batch a epoch i b acc s)) in *.
    destruct (IH (i + 1) acc' s1) as
      (m & Hr2 & Hu2 & Ht2 & Hv2 & Hl2 & Hm2 & Hsc2 & Hf2 & Hz2 & Hb2).
    { unfold logger_bound in *. rewrite Hl. exact Hlog. }
    { exact Hc'. }
    exists m. split; [exact Hr2 |].
    split. { cbn [batch_updates map AverageMeter.updates]. rewrite Hu.
             exact Hu2. }
    rewrite scalar_logs_app, !count_events_app, Hsc, Hsc2, Hf, Hf2, Hz, Hz2,
      Hb, Hb2, Ht2, Hv2, Hl2, Hm2, Ht.
    cbn [length per_batch_logs].
    destruct (tensorboard a); repeat split; try reflexivity; try lia;
      try congruence.
Qed.

Lemma validate_loop_accounting l : forall i acc s,
  logger_bound a s -> 0 <= AverageMeter.count acc ->
  exists m,
    res (for_enumerate (validate_batch a) i l acc s) = Ok m /\
    AverageMeter.updates acc (batch_updates l) = Ok m /\
    valid_minib_counter (st (for_enumerate (validate_batch a) i l acc s))
      = valid_minib_counter s + Z.of_nat (length l) /\
    train_minib_counter (st (for_enumerate (validate_batch a) i l acc s))
      = train_minib_counter s /\
    logger (st (for_enumerate (validate_batch a) i l acc s)) = logger s /\
    model_training (st (for_enumerate (validate_batch a) i l acc s))
      = model_training s /\
    scalar_logs (tr (for_enumerate (validate_batch a) i l acc s)) =
      (if tensorboard a
       then per_batch_logs "valid_loss" (valid_minib_counter s) l else []) /\
    image_logs (tr (for_enumerate (validate_batch a) i l acc s)) =
      (if tensorboard_images a
       then per_batch_images (print_freq a) (train_minib_counter s) i l
       else []) /\
    count_events is_forward
      (tr (for_enumerate (validate_batch a) i l acc s)) = length l.
Proof.
  induction l as [| b l IH]; intros i acc s Hlog Hc.
  - exists acc. cbn.
    destruct (tensorboard a), (tensorboard_images a); repeat split; lia.
  - pose proof (validate_batch_accounting a i b acc s Hcfg Hlog Hc) as H.
    unfold wp in H. cbn [for_enumerate].
    destruct (res (validate_batch a i b acc s)) as [acc' |] eqn:Hr;
      [| destruct H].
    destruct H as (Hu & Hc' & Hv & Ht & Hl & Hm & Hsc & Him & Hf).
    rewrite (bind_run _ _ _ _ Hr). cbn [res st tr].
    set (s1 := st (validate_batch a i b acc s)) in *.
    destruct (IH (i + 1) acc' s1) as
      (m & Hr2 & Hu2 & Hv2 & Ht2 & Hl2 & Hm2 & Hsc2 & Him2 & Hf2).
    { unfold logger_bound in *. rewrite Hl. exact Hlog. }
    { exact Hc'. }
    exists m. split; [exact Hr2 |].
    split. { cbn [batch_updates map AverageMeter.updates]. rewrite Hu.
             exact Hu2. }
    rewrite scalar_logs_app, image_logs_app, !count_events_app, Hsc, Hsc2,
      Him, Him2, Hf, Hf2, Ht2, Hv2, Hl2, Hm2, Ht, Hv.
    rewrite (per_batch_images_cons _ _ i b l).
    cbn [length per_batch_logs].
    destruct (tensorboard a), (tensorboard_images a);
      repeat split; try reflexivity; try lia; try congruence.
Qed.

End Accounting.

Lemma train_accounting_aux a loader epoch s :
  passes_configured a -> logger_bound a s ->
  res (train a loader epoch s) = Ok (pass_mean loader) /\
  train_minib_counter (st (train a loader epoch s))
    = train_minib_counter s + Z.of_nat (length loader) /\
  valid_minib_counter (st (train a loader epoch s)) = valid_minib_counter s.
Proof.
  intros Hcfg Hlog.
  change (wp (train a loader epoch) s (fun r s' t =>
    r = Ok (pass_mean loader) /\
    train_minib_counter s' = train_minib_counter s + Z.of_nat (length loader) /\
    valid_minib_counter s' = valid_minib_counter s)).
  unfold train. wp_run.
  destruct (train_loop_accounting a Hcfg epoch loader 0 AverageMeter.reset
              (set_model_training true s))
    as (m & Hr & Hu & Ht & Hv & _);
    [exact Hlog | cbn; lia |].
  unfold wp at 1. rewrite Hr. cbv beta iota. wp_run.
  rewrite Ht, Hv. unfold pass_mean. rewrite Hu. cbn.
  repeat split; lia.
Qed.

Lemma validate_accounting_aux a loader s :
  passes_configured a -> logger_bound a s ->
  res (validate a loader s) = Ok (pass_mean loader) /\
  valid_minib_counter (st (validate a loader s))
    = valid_minib_counter s + Z.of_nat (length loader) /\
  train_minib_counter (st (validate a loader s)) = train_minib_counter s.
Proof.
  intros Hcfg Hlog.
  change (wp (validate a loader) s (fun r s' t =>
    r = Ok (pass_mean loader) /\
    valid_minib_counter s' = valid_minib_counter s + Z.of_nat (length loader) /\
    train_minib_counter s' = train_minib_counter s)).
  unfold validate. wp_run.
  destruct (validate_loop_accounting a Hcfg loader 0 AverageMeter.reset
              (set_model_training false s))
    as (m & Hr & Hu & Hv & Ht & _);
    [exact Hlog | cbn; lia |].
  unfold wp at 1. rewrite Hr. cbv beta iota. wp_run.
  rewrite Ht, Hv. unfold pass_mean. rewrite Hu. cbn.
  repeat split; lia.
Qed.

(** X4: with a non-zero print frequency and the logger bound when it is
    used, a training pass returns the size-weighted mean loss of its
    batches; it advances the training-batch counter by one for every batch
    and leaves the validation-batch counter alone, leaves the model in
    training mode, and runs one forward computation, one [zero_grad()] and
    one [backward()] for every batch.  With tensorboard on it logs one
    ["train_loss"] scalar for every batch: the loss of that batch (not the
    running mean), at consecutive steps starting from the counter's value
    on entry; with tensorboard off it logs no scalar. *)
Theorem train_accounting a loader epoch s :
  passes_configured a -> logger_bound a s ->
  res (train a loader epoch s) = Ok (pass_mean loader) /\
  train_minib_counter (st (train a loader epoch s))
    = train_minib_counter s + Z.of_nat (length loader) /\
  valid_minib_counter (st (train a loader epoch s)) = valid_minib_counter s /\
  model_training (st (train a loader epoch s)) = true /\
  scalar_logs (tr (train a loader epoch s)) =
    (if tensorboard a
     then per_batch_logs "train_loss" (train_minib_counter s) loader
     else []) /\
  count_events is_forward (tr (train a loader epoch s)) = length loader /\
  count_events is_zero_grad (tr (train a loader epoch s)) = length loader /\
  count_events is_backward (tr (train a loader epoch s)) = length loader.
Proof.
  intros Hcfg Hlog.
  change (wp (train a loader epoch) s (fun r s' t =>
    r = Ok (pass_mean loader) /\
    train_minib_counter s' = train_minib_counter s + Z.of_nat (length loader) /\
    valid_minib_counter s' = valid_minib_counter s /\
    model_training s' = true /\
    scalar_logs t =
      (if tensorboard a
       then per_batch_logs "train_loss" (train_minib_counter s) loader
       else []) /\
    count_events is_forward t = length loader /\
    count_events is_zero_grad t = length loader /\
    count_events is_backward t = length loader)).
  unfold train. wp_run.
  destruct (train_loop_accounting a Hcfg epoch loader 0 AverageMeter.reset
              (set_model_training true s))
    as (m & Hr & Hu & Ht & Hv & _ & Hm & Hsc & Hf & Hz & Hb);
    [exact Hlog | cbn; lia |].
  unfold wp at 1. rewrite Hr. cbv beta iota. wp_run.
  rewrite !scalar_logs_app, !count_events_app, Hsc, Hf, Hz, Hb, Ht, Hv, Hm.
  unfold pass_mean. rewrite Hu. cbn.
  rewrite app_nil_r.
  repeat split; lia.
Qed.

Lemma train_accounting_witness :
  res (train first_args
         [ {| input_size0 := 2; loss_data0 := 1 |};
           {| input_size0 := 1; loss_data0 := 4 |} ] 0
         (set_logger (Some "./tb_logs/test_model")
            (initial_state first_args (demo_world 0 falling_loss) ∅)))
    = Ok (pass_mean [ {| input_size0 := 2; loss_data0 := 1 |};
                      {| input_size0 := 1; loss_data0 := 4 |} ]).
Proof.
  apply train_accounting.
  - split; [discriminate | intros _; reflexivity].
  - intros _. discriminate.
Defined.

(** X5: under the same conditions a validation pass returns the
    size-weighted mean loss of its batches; it advances the
    validation-batch counter by one for every batch and leaves the
    training-batch counter alone, leaves the model in inference mode, and
    runs one forward computation for every batch.  With tensorboard on it
    logs one ["valid_loss"] scalar for every batch, the loss of that batch,
    at consecutive steps from the validation counter's value on entry; with
    image logging on it logs the three images of every batch whose index
    is a multiple of the print frequency, and none otherwise. *)
Theorem validate_accounting a loader s :
  passes_configured a -> logger_bound a s ->
  res (validate a loader s) = Ok (pass_mean loader) /\
  valid_minib_counter (st (validate a loader s))
    = valid_minib_counter s + Z.of_nat (length loader) /\
  train_minib_counter (st (validate a loader s)) = train_minib_counter s /\
  model_training (st (validate a loader s)) = false /\
  scalar_logs (tr (validate a loader s)) =
    (if tensorboard a
     then per_batch_logs "valid_loss" (valid_minib_counter s) loader
     else []) /\
  image_logs (tr (validate a loader s)) =
    (if tensorboard_images a
     then per_batch_images (print_freq a) (train_minib_counter s) 0 loader
     else []) /\
  count_events is_forward (tr (validate a loader s)) = length loader.
Proof.
  intros Hcfg Hlog.
  change (wp (validate a loader) s (fun r s' t =>
    r = Ok (pass_mean loader) /\
    valid_minib_counter s' = valid_minib_counter s + Z.of_nat (length loader) /\
    train_minib_counter s' = train_minib_counter s /\
    model_training s' = false /\
    scalar_logs t =
      (if tensorboard a
       then per_batch_logs "valid_loss" (valid_minib_counter s) loader
       else []) /\
    image_logs t =
      (if tensorboard_images a
       then per_batch_images (print_freq a) (train_minib_counter s) 0 loader
       else []) /\
    count_events is_forward t = length loader)).
  unfold validate. wp_run.
  destruct (validate_loop_accounting a Hcfg loader 0 AverageMeter.reset
              (set_model_training false s))
    as (m & Hr & Hu & Hv & Ht & _ & Hm & Hsc & Him & Hf);
    [exact Hlog | cbn; lia |].
  unfold wp at 1. rewrite Hr. cbv beta iota. wp_run.
  rewrite !scalar_logs_app, !image_logs_app, !count_events_app, Hsc, Him, Hf,
    Ht, Hv, Hm.
  unfold pass_mean. rewrite Hu. cbn.
  rewrite !app_nil_r.
  repeat split; lia.
Qed.

Lemma validate_accounting_witness :
  valid_minib_counter
    (st (validate first_args
           [ {| input_size0 := 2; loss_data0 := 1 |};
             {| input_size0 := 1; loss_data0 := 4 |} ]
           (set_logger (Some "./tb_logs/test_model")
              (initial_state first_args (demo_world 0 falling_loss) ∅))))
    = 2.
Proof.
  apply (validate_accounting first_args
           [ {| input_size0 := 2; loss_data0 := 1 |};
             {| input_size0 := 1; loss_data0 := 4 |} ]
           (set_logger (Some "./tb_logs/test_model")
              (initial_state first_args (demo_world 0 falling_loss) ∅))).
  - split; [discriminate | intros _; reflexivity].
  - intros _. discriminate.
Defined.

(** ** Passes that raise *)

Lemma first_update_ok v n :
  exists m, AverageMeter.update AverageMeter.reset v (Z.pos n) = Ok m.
Proof.
  unfold AverageMeter.update. cbn [AverageMeter.count AverageMeter.reset].
  destruct (0 + Z.pos n =? 0) eqn:E; [apply Z.eqb_eq in E; lia |].
  eexists. reflexivity.
Qed.

(** X6: with a print frequency of 0 both passes still return 0 over an
    empty loader, and raise [ZeroDivisionError] in their first batch
    otherwise (the logger being bound when it is used); by then [train]
    has run one forward and one backward computation and counted the
    batch. *)
Theorem zero_print_freq a loader epoch s :
  print_freq a = 0 -> logger_bound a s ->
  match loader with
  | [] =>
      res (train a loader epoch s) = Ok 0%Q /\
      res (validate a loader s) = Ok 0%Q
  | _ :: _ =>
      res (train a loader epoch s) = Err ZeroDivisionError /\
      res (validate a loader s) = Err ZeroDivisionError /\
      train_minib_counter (st (train a loader epoch s))
        = train_minib_counter s + 1 /\
      count_events is_forward (tr (train a loader epoch s)) = 1%nat /\
      count_events is_backward (tr (train a loader epoch s)) = 1%nat
  end.
Proof.
  intros Hpf Hlog. unfold logger_bound in Hlog.
  destruct loader as [| b l]; [split; reflexivity |].
  destruct (first_update_ok (loss_data0 b) (input_size0 b)) as [m Hm].
  change (wp (train a (b :: l) epoch) s (fun r s' t =>
            r = Err ZeroDivisionError /\
            res (validate a (b :: l) s) = Err ZeroDivisionError /\
            train_minib_counter s' = train_minib_counter s + 1 /\
            count_events is_forward t = 1%nat /\
            count_events is_backward t = 1%nat)).
  unfold train. cbn [for_enumerate]. unfold train_batch, scalar_summary.
  rewrite Hm, Hpf.
  wp_run; simpl_state; try discriminate.
  all: try (exfalso; apply Hlog; [reflexivity || assumption | congruence]).
  all: split; [reflexivity |].
  all: split; [| repeat split].
  all: change (wp (validate a (b :: l)) s
                 (fun r _ _ => r = Err ZeroDivisionError)).
  all: unfold validate; cbn [for_enumerate];
    unfold validate_batch, show_images, image_summary, scalar_summary.
  all: rewrite Hm, Hpf.
  all: wp_run; simpl_state; try discriminate; try reflexivity.
  all: exfalso; apply Hlog; [reflexivity || assumption | congruence].
Qed.

Lemma zero_print_freq_witness :
  res (train
         {| arch := "linknet34"; workers := 4; epochs := 20;
            start_epoch := 0; batch_size := 256; lr := 1 # 10;
            optimizer := "adam"; print_freq := 0; resume := EmptyString;
            lognumber := "test_model"; preset := "mul_urban";
            tensorboard := false; augs := false; imsize := 320; seed := 42;
            evaluate := false; tensorboard_images := false |}
         one_batch 0
         (initial_state default_args (demo_world 0 falling_loss) ∅))
    = Err ZeroDivisionError.
Proof.
  apply (zero_print_freq
           {| arch := "linknet34"; workers := 4; epochs := 20;
              start_epoch := 0; batch_size := 256; lr := 1 # 10;
              optimizer := "adam"; print_freq := 0; resume := EmptyString;
              lognumber := "test_model"; preset := "mul_urban";
              tensorboard := false; augs := false; imsize := 320; seed := 42;
              evaluate := false; tensorboard_images := false |}
           one_batch 0
           (initial_state default_args (demo_world 0 falling_loss) ∅)).
  - reflexivity.
  - intros H. discriminate H.
Defined.

(** ** More on the script before the loop *)

Lemma script_init_more a w files :
  let o := script_init a w (initial_state a w files) in
  logger (st o) =
    (if tensorboard a then Some ("./tb_logs/" +:+ lognumber a) else None) /\
  fs_events (tr o) = [EvRmTree (tb_log_dir a)] /\
  (resume_file a files = None ->
     count_events is_torch_load (tr o) = 0%nat /\
     (py_bool_str (resume a) = true ->
      forall sp, res o = Ok sp -> In (EvPrint "=> no checkpoint found") (tr o))) /\
  (forall sp, res o = Ok sp ->
     optimizer_lr (st o) = lr a /\
     scheduler (st o) = ReduceLROnPlateau.init /\
     model_training (st o) = true).
Proof.
  intros o. subst o.
  change (wp (script_init a w) (initial_state a w files) (fun r s t =>
    logger s =
      (if tensorboard a then Some ("./tb_logs/" +:+ lognumber a) else None) /\
    fs_events t = [EvRmTree (tb_log_dir a)] /\
    (resume_file a files = None ->
       count_events is_torch_load t = 0%nat /\
       (py_bool_str (resume a) = true ->
        forall sp, r = Ok sp -> In (EvPrint "=> no checkpoint found") t)) /\
    (forall sp, r = Ok sp ->
       optimizer_lr s = lr a /\
       scheduler s = ReduceLROnPlateau.init /\
       model_training s = true))).
  unfold script_init, module_setup, rmtree_quiet, main_init, load_and_split,
    select_model, select_optimizer, resume_checkpoint, torch_load,
    resume_file.
  fold (after_rmtree a files).
  wp_all.
  all: fold (after_rmtree a files) in *.
  all: repeat match goal with
       | H : ?x = _ |- context [?x] => rewrite H
       end.
  all: repeat split; simpl_state; try congruence; try reflexivity.
  all: intros; try congruence; try discriminate.
  all: try (repeat split; reflexivity).
  all: cbn; tauto.
Qed.

(** ** Image logging without the logger *)

Lemma validate_unbound_logger a b l s :
  tensorboard_images a = true -> print_freq a <> 0 -> logger s = None ->
  res (validate a (b :: l) s) = Err (NameError "logger") /\
  fs (st (validate a (b :: l) s)) = fs s /\
  tr (validate a (b :: l) s) = [EvEnterValidate; EvModelEval; EvForward].
Proof.
  intros Him Hpf Hlog.
  change (wp (validate a (b :: l)) s (fun r s' t =>
            r = Err (NameError "logger") /\ fs s' = fs s /\
            t = [EvEnterValidate; EvModelEval; EvForward])).
  unfold validate. cbn [for_enumerate].
  unfold validate_batch, show_images, image_summary.
  rewrite Him.
  wp_run; simpl_state.
  all: try match goal with
       | H : (print_freq _ =? 0) = true |- _ =>
           apply Z.eqb_eq in H; contradiction
       | H : (0 mod _ =? 0) = false |- _ =>
           rewrite Zmod_0_l in H; discriminate H
       end.
  all: try congruence.
  all: repeat split.
Qed.

Lemma py_range_cons lo hi :
  lo < hi -> py_range lo hi = lo :: py_range (lo + 1) hi.
Proof.
  intros H. unfold py_range.
  replace (Z.to_nat (hi - lo)) with (S (Z.to_nat (hi - (lo + 1)))) by lia.
  cbn [seq map]. f_equal; [lia |].
  rewrite <- seq_shift, map_map. apply map_ext. intros k. lia.
Qed.

Lemma train_ignores_images a l e s :
  train (without_images a) l e s = train a l e s.
Proof. reflexivity. Qed.

(** [train] needs no more than a non-zero print frequency and the logger
    bound when tensorboard is on. *)
Lemma train_returns a l e s :
  print_freq a <> 0 -> logger_bound a s ->
  exists v, res (train a l e s) = Ok v.
Proof.
  intros Hpf Hlog. rewrite <- train_ignores_images.
  apply (train_total (without_images a)) with (l0 := logger s).
  - split; [exact Hpf | intros H; discriminate H].
  - exact Hlog.
  - reflexivity.
Qed.

Lemma main_loop_unbound_logger a w sp s :
  tensorboard a = false -> tensorboard_images a = true ->
  print_freq a <> 0 -> logger s = None ->
  (evaluate a = true \/ args_start_epoch s < epochs a) ->
  (forall e, val_batches w (val_imgs sp) (val_masks sp) e <> []) ->
  res (main_loop a w sp s) = Err (NameError "logger") /\
  fs_events (tr (main_loop a w sp s)) = [].
Proof.
  intros Htb Him Hpf Hlog Hmode Hval.
  unfold main_loop. rewrite run_gets_bind.
  destruct (evaluate a) eqn:Hev.
  - specialize (Hval (args_start_epoch s)).
    destruct (val_batches w (val_imgs sp) (val_masks sp) (args_start_epoch s))
      as [| b l]; [congruence |].
    destruct (validate_unbound_logger a b l s Him Hpf Hlog) as (Hr & _ & Ht).
    rewrite (bind_run_err _ _ _ _ Hr). cbn [res tr]. rewrite Ht.
    split; reflexivity.
  - destruct Hmode as [Hm | Hlt]; [discriminate |].
    rewrite (py_range_cons _ _ Hlt). cbn [for_each].
    set (e := args_start_epoch s).
    assert (Hbody : res (epoch_body a w sp e s) = Err (NameError "logger") /\
                    fs_events (tr (epoch_body a w sp e s)) = []).
    { unfold epoch_body.
      set (tb := train_batches w (train_imgs sp) (train_masks sp) e).
      destruct (train_returns a tb e s Hpf) as [tl Htl].
      { intros H. congruence. }
      destruct (train_frame a tb e s) as [(_ & _ & Hl & _) Hev1].
      rewrite (bind_run _ _ _ _ Htl). cbn [res tr].
      specialize (Hval e).
      destruct (val_batches w (val_imgs sp) (val_masks sp) e) as [| b l];
        [congruence |].
      destruct (validate_unbound_logger a b l (st (train a tb e s)) Him Hpf)
        as (Hr & _ & Ht); [congruence |].
      rewrite (bind_run_err _ _ _ _ Hr). cbn [res tr]. rewrite Ht.
      split; [reflexivity |].
      rewrite fs_events_app, (fs_events_none _ _ train_event_not_fs Hev1).
      reflexivity. }
    destruct Hbody as [Hb1 Hb2].
    rewrite (bind_run_err _ _ _ _ Hb1). cbn [res tr].
    split; [reflexivity | exact Hb2].
Qed.

(** X7: a fresh run with image logging switched on and tensorboard
    switched off raises [NameError] for the name [logger] in the first
    validation batch (in evaluation-only mode, or with at least one epoch
    to run, and a non-zero print frequency): line 91 binds [logger] only
    when tensorboard is on.  No checkpoint has been written by then: the
    run's only file-system call is the removal of the log directory. *)
Theorem images_without_tensorboard a w files sp :
  resume_file a files = None ->
  split_call a w = Ok sp ->
  arch_supported a = true ->
  optimizer_supported a = true ->
  tensorboard a = false ->
  tensorboard_images a = true ->
  print_freq a <> 0 ->
  (evaluate a = true \/ start_epoch a < epochs a) ->
  (forall e, val_batches w (val_imgs sp) (val_masks sp) e <> []) ->
  res (run a w files) = Err (NameError "logger") /\
  fs_events (tr (run a w files)) = [EvRmTree (tb_log_dir a)].
Proof.
  intros Hrf Hsp Harch Hopt Htb Him Hpf Hmode Hval.
  assert (Hok : res (script_init a w (initial_state a w files)) = Ok sp).
  { apply script_init_total; try assumption. rewrite Hrf. discriminate. }
  destruct (script_init_spec a w files) as (_ & _ & _ & _ & _ & _ & Hst).
  destruct (script_init_more a w files) as (Hlog & Hfs & _).
  rewrite Hok, Hrf in Hst. destruct Hst as (_ & Hstart & _).
  rewrite Htb in Hlog.
  rewrite run_split, (bind_run _ _ _ _ Hok). cbn [res tr].
  destruct (main_loop_unbound_logger a w sp
              (st (script_init a w (initial_state a w files)))
              Htb Him Hpf Hlog) as [Hr Hev].
  { rewrite Hstart. exact Hmode. }
  { exact Hval. }
  split; [exact Hr |].
  rewrite fs_events_app, Hfs, Hev. reflexivity.
Qed.

Lemma images_without_tensorboard_witness :
  res (run
         {| arch := "unet11"; workers := 4; epochs := 20; start_epoch := 0;
            batch_size := 256; lr := 1 # 10; optimizer := "rmsprop";
            print_freq := 10; resume := EmptyString;
            lognumber := "test_model"; preset := "mul_urban";
            tensorboard := false; augs := false; imsize := 320; seed := 42;
            evaluate := false; tensorboard_images := true |}
         (demo_world 0 falling_loss) ∅)
    = Err (NameError "logger").
Proof.
  apply (images_without_tensorboard
           {| arch := "unet11"; workers := 4; epochs := 20; start_epoch := 0;
              batch_size := 256; lr := 1 # 10; optimizer := "rmsprop";
              print_freq := 10; resume := EmptyString;
              lognumber := "test_model"; preset := "mul_urban";
              tensorboard := false; augs := false; imsize := 320; seed := 42;
              evaluate := false; tensorboard_images := true |}
           (demo_world 0 falling_loss) ∅ demo_split).
  - reflexivity.
  - vm_compute. reflexivity.
  - reflexivity.
  - reflexivity.
  - reflexivity.
  - reflexivity.
  - discriminate.
  - right. reflexivity.
  - intros e. discriminate.
Defined.

(** ** Evaluation only *)







(** ** The range of epochs *)

Lemma py_range_empty lo hi : hi <= lo -> py_range lo hi = [].
Proof.
  intros H. unfold py_range.
  replace (Z.to_nat (hi - lo)) with 0%nat by lia. reflexivity.
Qed.

Lemma py_range_snoc lo hi :
  lo < hi -> py_range lo hi = py_range lo (hi - 1) ++ [hi - 1].
Proof.
  intros H. unfold py_range.
  replace (Z.to_nat (hi - lo)) with (S (Z.to_nat (hi - 1 - lo))) by lia.
  rewrite seq_S, map_app. cbn [map]. do 2 f_equal. lia.
Qed.

Lemma py_range_last lo hi : lo < hi -> List.last (py_range lo hi) 0 + 1 = hi.
Proof.
  intros H. rewrite (py_range_snoc _ _ H), List.last_last. lia.
Qed.

Lemma first_epoch_init a w files sp :
  res (script_init a w (initial_state a w files)) = Ok sp ->
  args_start_epoch (st (script_init a w (initial_state a w files)))
    = first_epoch a files.
Proof.
  intros Hr.
  destruct (script_init_spec a w files) as (_ & _ & _ & _ & _ & _ & Hst).
  rewrite Hr in Hst. destruct Hst as [_ Hst]. unfold first_epoch.
  destruct (resume_file a files) as [[ck |] |].
  - apply Hst.
  - destruct Hst.
  - apply Hst.
Qed.

(** X9: when the first epoch of the loop (the resumed checkpoint's epoch,
    or [--start-epoch]) is not below [--epochs], a training run that gets
    through its set-up returns without a single pass and without writing
    any file: resuming from the checkpoint of a finished run does
    nothing. *)
Theorem nothing_left_to_train a w files sp :
  epochs a <= first_epoch a files ->
  evaluate a = false ->
  split_call a w = Ok sp ->
  arch_supported a = true ->
  optimizer_supported a = true ->
  resume_file a files <> Some OtherFile ->
  res (run a w files) = Ok tt /\
  Forall init_event (tr (run a w files)) /\
  fs_events (tr (run a w files)) = [EvRmTree (tb_log_dir a)] /\
  fs (st (run a w files)) = after_rmtree a files.
Proof.
  intros Hle Hev Hsp Harch Hopt Hres.
  pose proof (script_init_total a w files sp Hsp Harch Hopt Hres) as Hok.
  destruct (script_init_spec a w files) as (Hfs & _ & _ & _ & Hev0 & _).
  destruct (script_init_more a w files) as (_ & Hfe & _).
  pose proof (first_epoch_init a w files sp Hok) as Hstart.
  rewrite run_split, (bind_run _ _ _ _ Hok). cbn [res st tr].
  rewrite (main_loop_train a w sp _ Hev), Hstart,
    (py_range_empty _ _ Hle).
  cbn [for_each ret res st tr]. rewrite app_nil_r.
  repeat split; assumption.
Qed.

Lemma nothing_left_to_train_witness :
  res (run
         {| arch := "linknet34"; workers := 4; epochs := 3; start_epoch := 0;
            batch_size := 256; lr := 1 # 10; optimizer := "adam";
            print_freq := 10;
            resume := "weights/test_model_checkpoint.pth.tar";
            lognumber := "test_model"; preset := "mul_urban";
            tensorboard := true; augs := false; imsize := 320; seed := 42;
            evaluate := false; tensorboard_images := true |}
         (demo_world 0 falling_loss) files_after_epoch_2) = Ok tt.
Proof.
  apply (nothing_left_to_train
           {| arch := "linknet34"; workers := 4; epochs := 3;
              start_epoch := 0; batch_size := 256; lr := 1 # 10;
              optimizer := "adam"; print_freq := 10;
              resume := "weights/test_model_checkpoint.pth.tar";
              lognumber := "test_model"; preset := "mul_urban";
              tensorboard := true; augs := false; imsize := 320; seed := 42;
              evaluate := false; tensorboard_images := true |}
           (demo_world 0 falling_loss) files_after_epoch_2 demo_split).
  - vm_compute. discriminate.
  - reflexivity.
  - vm_compute. reflexivity.
  - reflexivity.
  - reflexivity.
  - vm_compute. discriminate.
Defined.

(** ** What the checkpoint files record *)

Lemma epoch_body_latest a w sp e s :
  res (epoch_body a w sp e s) = Ok tt ->
  latest_records a (e + 1) (st (epoch_body a w sp e s)).
Proof.
  intros Hr.
  destruct (epoch_body_spec a w sp e s) as (_ & Hp & _ & R).
  rewrite Hr in R. destruct R as (Hb & Hf & _).
  set (vl := pass_mean (val_batches w (val_imgs sp) (val_masks sp) e)) in *.
  exists (epoch_checkpoint a e vl s). split.
  - rewrite Hf. destruct (Qltb vl (best_val_loss s)).
    + rewrite lookup_insert_ne by (apply not_eq_sym, latest_not_best).
      apply lookup_insert_eq.
    + apply lookup_insert_eq.
  - cbn. rewrite Hb, Hp. repeat split.
Qed.

Lemma epoch_loop_latest a w sp l : forall s,
  l <> [] ->
  res (for_each (epoch_body a w sp) l s) = Ok tt ->
  latest_records a (List.last l 0 + 1)
    (st (for_each (epoch_body a w sp) l s)).
Proof.
  induction l as [| e l IH]; intros s Hne Hr; [congruence |].
  cbn [for_each] in *.
  apply bind_ok in Hr as ([] & H1 & H2).
  rewrite (bind_run _ _ _ _ H1). cbn [st].
  destruct l as [| e' l'].
  - cbn [for_each ret st List.last]. apply epoch_body_latest, H1.
  - change (List.last (e :: e' :: l') 0) with (List.last (e' :: l') 0).
    apply IH; [discriminate | exact H2].
Qed.

(** X10: a training run that returns, and had at least one epoch to run,
    leaves in the latest file a checkpoint whose epoch is [--epochs] and
    which records the architecture, the final best loss and the final
    parameters. *)
Theorem finished_run_checkpoint a w files :
  evaluate a = false ->
  first_epoch a files < epochs a ->
  res (run a w files) = Ok tt ->
  latest_records a (epochs a) (st (run a w files)).
Proof.
  intros Hev Hlt Hr.
  rewrite run_split in *.
  apply bind_ok in Hr as (sp & H0 & H1).
  rewrite (bind_run _ _ _ _ H0). cbn [st].
  pose proof (first_epoch_init a w files sp H0) as Hstart.
  rewrite (main_loop_train a w sp _ Hev), Hstart in *.
  rewrite <- (py_range_last _ _ Hlt) at 1.
  apply epoch_loop_latest; [| exact H1].
  rewrite (py_range_cons _ _ Hlt). discriminate.
Qed.

Lemma finished_run_checkpoint_witness :
  latest_records first_args 3
    (st (run first_args (demo_world 0 falling_loss) ∅)).
Proof.
  apply (finished_run_checkpoint first_args (demo_world 0 falling_loss) ∅).
  - reflexivity.
  - vm_compute. reflexivity.
  - vm_compute. reflexivity.
Defined.

Lemma latest_path_nonempty a : py_bool_str (latest_path a) = true.
Proof. reflexivity. Qed.

Lemma resume_restores a a' w' n s sp :
  latest_records a n s ->
  resume a' = latest_path a ->
  res (script_init a' w' (initial_state a' w' (fs s))) = Ok sp ->
  args_start_epoch (st (script_init a' w' (initial_state a' w' (fs s)))) = n /\
  best_val_loss (st (script_init a' w' (initial_state a' w' (fs s))))
    = best_val_loss s /\
  model_params (st (script_init a' w' (initial_state a' w' (fs s))))
    = model_params s.
Proof.
  intros (ck & Hf & He & _ & Hb & Hp) Hres Hr.
  destruct (script_init_spec a' w' (fs s)) as (_ & _ & _ & _ & _ & _ & Hst).
  rewrite Hr in Hst. destruct Hst as [_ Hst].
  assert (Hrf : resume_file a' (fs s) = Some (CheckpointFile ck)).
  { unfold resume_file.
    rewrite Hres, latest_path_nonempty, lookup_after_rmtree
      by apply latest_path_kept.
    exact Hf. }
  rewrite Hrf in Hst. destruct Hst as (H1 & H2 & H3).
  repeat split; congruence.
Qed.

(** X12: save and resume round trip.  When an epoch has returned, a run
    whose [--resume] names the latest file of that run and which gets
    through its set-up starts its loop at the following epoch, with the
    best loss and the model parameters the first run had at the end of
    that epoch. *)
Theorem checkpoint_round_trip a w sp e s a' w' sp' :
  res (epoch_body a w sp e s) = Ok tt ->
  resume a' = latest_path a ->
  res (script_init a' w'
         (initial_state a' w' (fs (st (epoch_body a w sp e s))))) = Ok sp' ->
  args_start_epoch
    (st (script_init a' w'
           (initial_state a' w' (fs (st (epoch_body a w sp e s))))))
    = e + 1 /\
  best_val_loss
    (st (script_init a' w'
           (initial_state a' w' (fs (st (epoch_body a w sp e s))))))
    = best_val_loss (st (epoch_body a w sp e s)) /\
  model_params
    (st (script_init a' w'
           (initial_state a' w' (fs (st (epoch_body a w sp e s))))))
    = model_params (st (epoch_body a w sp e s)).
Proof.
  intros Hr Hres Hinit.
  apply (resume_restores a a' w' (e + 1) _ sp');
    [apply epoch_body_latest, Hr | exact Hres | exact Hinit].
Qed.

Lemma checkpoint_round_trip_witness :
  args_start_epoch
    (st (script_init resumed_args (demo_world 5 falling_loss)
           (initial_state resumed_args (demo_world 5 falling_loss)
              (fs (st (epoch_body first_args (demo_world 0 falling_loss)
                         demo_split 7
                         (set_logger (Some "./tb_logs/test_model")
                            (initial_state first_args
                               (demo_world 0 falling_loss) ∅))))))))
    = 7 + 1.
Proof.
  apply (checkpoint_round_trip first_args (demo_world 0 falling_loss)
           demo_split 7
           (set_logger (Some "./tb_logs/test_model")
              (initial_state first_args (demo_world 0 falling_loss) ∅))
           resumed_args (demo_world 5 falling_loss) demo_split).
  - vm_compute. reflexivity.
  - reflexivity.
  - vm_compute. reflexivity.
Defined.

(** ** An empty validation loader *)

(** X13: when the validation loader yields no batch, the validation loss
    of the epoch is 0; if the best loss so far is positive, an epoch that
    returns then copies its checkpoint to the best file and records 0 as
    the best loss. *)
Theorem empty_validation_is_best a w sp e s :
  val_batches w (val_imgs sp) (val_masks sp) e = [] ->
  (0 < best_val_loss s)%Q ->
  res (epoch_body a w sp e s) = Ok tt ->
  best_val_loss (st (epoch_body a w sp e s)) = 0%Q /\
  fs (st (epoch_body a w sp e s)) !! best_path a =
    Some (CheckpointFile
            {| ck_epoch := e + 1; ck_arch := arch a;
               ck_state_dict := model_params s;
               ck_best_val_loss := 0 |}) /\
  fs_events (tr (epoch_body a w sp e s)) =
    [ EvTorchSave (latest_path a)
        {| ck_epoch := e + 1; ck_arch := arch a;
           ck_state_dict := model_params s; ck_best_val_loss := 0 |};
      EvCopyFile (latest_path a) (best_path a) ].
Proof.
  intros Hval Hpos Hr.
  destruct (epoch_body_spec a w sp e s) as (_ & _ & _ & R).
  rewrite Hr, Hval in R. change (pass_mean []) with 0%Q in R.
  assert (Hlt : Qltb 0 (best_val_loss s) = true) by (apply Qltb_true, Hpos).
  assert (Hmin : py_min 0 (best_val_loss s) = 0%Q).
  { unfold py_min. destruct (Qltb (best_val_loss s) 0) eqn:E; [| reflexivity].
    apply Qltb_true in E. exfalso. apply (Qlt_irrefl 0).
    eapply Qlt_trans; eassumption. }
  rewrite Hlt in R. unfold epoch_checkpoint in R. rewrite Hmin in R.
  destruct R as (Hb & Hf & Hev).
  split; [exact Hb |]. split; [| exact Hev].
  rewrite Hf. apply lookup_insert_eq.
Qed.

Lemma empty_validation_is_best_witness :
  best_val_loss
    (st (epoch_body default_args
           {| ambient_rng := 0;
              get_train_dataset := fun _ => demo_dataset;
              train_test_split := demo_train_test_split;
              initial_params := 0;
              train_batches := fun _ _ _ => one_batch;
              val_batches := fun _ _ _ => [] |}
           demo_split 0
           (initial_state default_args (demo_world 0 falling_loss) ∅)))
    = 0%Q.
Proof.
  apply (empty_validation_is_best default_args
           {| ambient_rng := 0;
              get_train_dataset := fun _ => demo_dataset;
              train_test_split := demo_train_test_split;
              initial_params := 0;
              train_batches := fun _ _ _ => one_batch;
              val_batches := fun _ _ _ => [] |}
           demo_split 0
           (initial_state default_args (demo_world 0 falling_loss) ∅)).
  - reflexivity.
  - reflexivity.
  - vm_compute. reflexivity.
Defined.

(** ** Runs that do not log *)

Ltac preserve_case :=
  lazymatch goal with
  | |- preserves _ _ (if ?b then _ else _) => destruct b
  | |- preserves _ _ (match ?x with Some _ => _ | None => _ end) =>
      destruct x
  | |- preserves _ _ (match ?x with CheckpointFile _ => _ | OtherFile => _ end)
      => destruct x
  | |- preserves _ _ (let _ := _ in _) => cbv zeta
  end.

(** With the logger unbound, an image block emits nothing. *)
Lemma show_images_unbound a E tag i :
  preserves (fun s => logger s = None) E (show_images a tag i).
Proof.
  apply hoare_wp. intros s Hs.
  unfold show_images, image_summary. wp_run; simpl_state.
  all: try congruence.
  all: split; [repeat constructor | assumption].
Qed.

Lemma script_without_tensorboard a w :
  tensorboard a = false ->
  preserves (fun s => logger s = None) no_logger_call (script a w).
Proof.
  intros Htb.
  unfold script, main, module_setup, main_init, main_loop, load_and_split,
    select_model, select_optimizer, resume_checkpoint, torch_load,
    rmtree_quiet, epoch_body, epoch_finish, scheduler_step, save_checkpoint,
    torch_save, copyfile, train, train_batch, validate, validate_batch.
  rewrite Htb. cbn [when].
  repeat first [preserve_step | preserve_case | apply show_images_unbound].
  all: try (unfold no_logger_call; cbn; tauto).
  all: simpl_state; assumption.
Qed.

Lemma script_without_images a w :
  tensorboard_images a = false ->
  preserves (fun _ => True) no_image_log (script a w).
Proof.
  intros Him.
  unfold script, main, module_setup, main_init, main_loop, load_and_split,
    select_model, select_optimizer, resume_checkpoint, torch_load,
    rmtree_quiet, epoch_body, epoch_finish, scheduler_step, save_checkpoint,
    torch_save, copyfile, train, train_batch, validate, validate_batch,
    show_images.
  rewrite Him. cbn [when].
  repeat first [preserve_step | preserve_case].
  all: try exact Logic.I.
Qed.

(** X14: with tensorboard off the run never calls the logger: it does not
    construct it and emits no scalar and no image log, and the name
    [logger] is still unbound at the end.  With image logging off the run
    emits no image log, whether tensorboard is on or not. *)
Theorem no_logging_when_off a w files :
  (tensorboard a = false ->
     Forall no_logger_call (tr (run a w files)) /\
     logger (st (run a w files)) = None) /\
  (tensorboard_images a = false ->
     Forall no_image_log (tr (run a w files))).
Proof.
  split.
  - intros Htb.
    destruct (preserves_run _ _ _ (initial_state a w files)
                (script_without_tensorboard a w Htb) eq_refl) as [Hl Ht].
    split; assumption.
  - intros Him.
    apply (preserves_run _ _ _ (initial_state a w files)
             (script_without_images a w Him) Logic.I).
Qed.

Lemma no_logging_when_off_witness :
  Forall no_logger_call
    (tr (run default_args (demo_world 0 falling_loss) old_logs)) /\
  Forall no_image_log
    (tr (run default_args (demo_world 0 falling_loss) old_logs)).
Proof.
  split.
  - apply (proj1 (no_logging_when_off default_args
                    (demo_world 0 falling_loss) old_logs)).
    reflexivity.
  - apply (proj2 (no_logging_when_off default_args
                    (demo_world 0 falling_loss) old_logs)).
    reflexivity.
Defined.

(** ** A resume path that names no file *)

Lemma lookup_after_rmtree_below a files p :
  String.prefix (tb_log_dir a) p = true -> after_rmtree a files !! p = None.
Proof.
  intros Hp. unfold after_rmtree. apply map_lookup_filter_None. right.
  intros f _. cbn. rewrite Hp. discriminate.
Qed.

(** X15: a [--resume] path that names no file, or a file below the run's
    own log directory (which line 86 has removed by then), is not an
    error.  With accepted identifiers and a partition the script gets
    through its set-up exactly as a fresh run would: the loop starts at
    [--start-epoch], the best loss is 100 and the parameters are the
    initial ones; [torch.load] is not called, and the run prints that no
    checkpoint was found. *)
Theorem missing_resume_file a w files sp :
  py_bool_str (resume a) = true ->
  (files !! resume a = None \/
   String.prefix (tb_log_dir a) (resume a) = true) ->
  split_call a w = Ok sp ->
  arch_supported a = true ->
  optimizer_supported a = true ->
  res (script_init a w (initial_state a w files)) = Ok sp /\
  args_start_epoch (st (script_init a w (initial_state a w files)))
    = start_epoch a /\
  best_val_loss (st (script_init a w (initial_state a w files))) = 100%Q /\
  model_params (st (script_init a w (initial_state a w files)))
    = initial_params w /\
  count_events is_torch_load (tr (script_init a w (initial_state a w files)))
    = 0%nat /\
  In (EvPrint "=> no checkpoint found")
     (tr (script_init a w (initial_state a w files))).
Proof.
  intros Hres Hmiss Hsp Harch Hopt.
  assert (Hrf : resume_file a files = None).
  { unfold resume_file. rewrite Hres.
    destruct Hmiss as [Hnone | Hbelow];
      [apply lookup_after_rmtree_None, Hnone
      | apply lookup_after_rmtree_below, Hbelow]. }
  assert (Hok : res (script_init a w (initial_state a w files)) = Ok sp).
  { apply script_init_total; try assumption. rewrite Hrf. discriminate. }
  destruct (script_init_spec a w files) as (_ & _ & _ & _ & _ & _ & Hst).
  destruct (script_init_more a w files) as (_ & _ & Hload & _).
  rewrite Hok, Hrf in Hst. destruct Hst as (_ & H1 & H2 & H3).
  destruct (Hload Hrf) as [Hcount Hprint].
  repeat split; try assumption.
  apply (Hprint Hres sp Hok).
Qed.

Lemma missing_resume_file_witness :
  res (script_init resumed_args (demo_world 0 falling_loss)
         (initial_state resumed_args (demo_world 0 falling_loss) old_logs))
    = Ok demo_split.
Proof.
  refine (proj1 (missing_resume_file resumed_args (demo_world 0 falling_loss)
                   old_logs demo_split _ _ _ _ _)).
  - reflexivity.
  - left. vm_compute. reflexivity.
  - vm_compute. reflexivity.
  - reflexivity.
  - reflexivity.
Defined.

(** ** Over the epochs of a loop *)

Lemma epoch_finish_counters a e tl vl c v :
  preserves (fun s => train_minib_counter s = c /\ valid_minib_counter s = v)
            any_event (epoch_finish a e tl vl).
Proof.
  unfold epoch_finish, scheduler_step, save_checkpoint, torch_save, copyfile.
  repeat first [preserve_step | preserve_case].
  all: try exact Logic.I.
  all: simpl_state; assumption.
Qed.

Lemma epoch_body_counters a w sp e s :
  passes_configured a -> logger_bound a s ->
  res (epoch_body a w sp e s) = Ok tt /\
  logger (st (epoch_body a w sp e s)) = logger s /\
  train_minib_counter (st (epoch_body a w sp e s)) =
    train_minib_counter s
    + Z.of_nat (length (train_batches w (train_imgs sp) (train_masks sp) e)) /\
  valid_minib_counter (st (epoch_body a w sp e s)) =
    valid_minib_counter s
    + Z.of_nat (length (val_batches w (val_imgs sp) (val_masks sp) e)).
Proof.
  intros Hcfg Hlog.
  pose proof (epoch_body_total a w sp e s Hcfg Hlog) as Hok.
  destruct (epoch_body_spec a w sp e s) as (Hl & _).
  split; [exact Hok |]. split; [exact Hl |].
  unfold epoch_body in *.
  set (tb := train_batches w (train_imgs sp) (train_masks sp) e) in *.
  set (vb := val_batches w (val_imgs sp) (val_masks sp) e) in *.
  destruct (train_accounting_aux a tb e s Hcfg Hlog) as (Hr1 & Ht1 & Hv1).
  destruct (train_frame a tb e s) as [(_ & _ & Hl1 & _) _].
  rewrite (bind_run _ _ _ _ Hr1) in *. cbn [res st] in *.
  set (s1 := st (train a tb e s)) in *.
  assert (Hlog1 : logger_bound a s1).
  { unfold logger_bound in *. rewrite Hl1. exact Hlog. }
  destruct (validate_accounting_aux a vb s1 Hcfg Hlog1) as (Hr2 & Hv2 & Ht2).
  rewrite (bind_run _ _ _ _ Hr2) in *. cbn [res st] in *.
  set (s2 := st (validate a vb s1)) in *.
  destruct (preserves_run _ _ _ s2
              (epoch_finish_counters a e (pass_mean tb) (pass_mean vb)
                 (train_minib_counter s2) (valid_minib_counter s2))
              (conj eq_refl eq_refl)) as [[Hc1 Hc2] _].
  rewrite Hc1, Hc2, Ht2, Hv2, Ht1, Hv1. split; reflexivity.
Qed.

Lemma batches_seen_cons f e l :
  batches_seen f (e :: l) = Z.of_nat (length (f e)) + batches_seen f l.
Proof. reflexivity. Qed.

(** X17: the batch counters are never reset.  With a configuration the
    passes accept and the logger bound when it is used, the loop over a
    list of epochs returns, and it has advanced the training-batch counter
    by the number of batches the training loader yielded over those
    epochs, and the validation-batch counter by the number the validation
    loader yielded. *)
Theorem counters_add_up a w sp l s :
  passes_configured a -> logger_bound a s ->
  res (for_each (epoch_body a w sp) l s) = Ok tt /\
  train_minib_counter (st (for_each (epoch_body a w sp) l s)) =
    train_minib_counter s
    + batches_seen (train_batches w (train_imgs sp) (train_masks sp)) l /\
  valid_minib_counter (st (for_each (epoch_body a w sp) l s)) =
    valid_minib_counter s
    + batches_seen (val_batches w (val_imgs sp) (val_masks sp)) l.
Proof.
  intros Hcfg. revert s. induction l as [| e l IH]; intros s Hlog.
  - cbn. repeat split; lia.
  - destruct (epoch_body_counters a w sp e s Hcfg Hlog)
      as (H1 & Hl & Ht & Hv).
    cbn [for_each]. rewrite (bind_run _ _ _ _ H1). cbn [res st].
    destruct (IH (st (epoch_body a w sp e s))) as (Hr & Ht' & Hv').
    { unfold logger_bound in *. rewrite Hl. exact Hlog. }
    split; [exact Hr |]. rewrite Ht', Hv', Ht, Hv.
    rewrite !batches_seen_cons. split; lia.
Qed.

Lemma counters_add_up_witness :
  train_minib_counter
    (st (for_each (epoch_body default_args (demo_world 0 falling_loss)
                     demo_split) [0; 1; 2]
           (initial_state default_args (demo_world 0 falling_loss) ∅)))
    = train_minib_counter
        (initial_state default_args (demo_world 0 falling_loss) ∅)
      + batches_seen
          (train_batches (demo_world 0 falling_loss)
             (train_imgs demo_split) (train_masks demo_split)) [0; 1; 2].
Proof.
  refine (proj1 (proj2
    (counters_add_up default_args (demo_world 0 falling_loss) demo_split
       [0; 1; 2]
       (initial_state default_args (demo_world 0 falling_loss) ∅) _ _))).
  - split; [discriminate | intros H; discriminate H].
  - intros H. discriminate H.
Defined.

(** ** str2bool *)

Lemma lower_upper_ascii c : lower_ascii (upper_ascii c) = lower_ascii c.
Proof. destruct c as [[] [] [] [] [] [] [] []]; reflexivity. Qed.

Lemma lower_lower_ascii c : lower_ascii (lower_ascii c) = lower_ascii c.
Proof. destruct c as [[] [] [] [] [] [] [] []]; reflexivity. Qed.

Lemma lower_upper v : lower (upper v) = lower v.
Proof.
  induction v as [| c v IH]; cbn; [reflexivity |].
  rewrite lower_upper_ascii, IH. reflexivity.
Qed.

Lemma lower_lower v : lower (lower v) = lower v.
Proof.
  induction v as [| c v IH]; cbn; [reflexivity |].
  rewrite lower_lower_ascii, IH. reflexivity.
Qed.

Lemma lower_length v : String.length (lower v) = String.length v.
Proof. induction v as [| c v IH]; cbn; congruence. Qed.

Lemma lower_eqb_length v w :
  String.eqb (lower v) w = true -> String.length v = String.length w.
Proof.
  intros H. apply String.eqb_eq in H. rewrite <- H, lower_length.
  reflexivity.
Qed.

(** X18: [str2bool] does not look at the case of ASCII letters: a value,
    its upper-case form and its lower-case form are read alike.  A value
    it reads as true has between one and four characters, so the empty
    string and a padded ["true "] are read as false. *)
Theorem str2bool_case (v : string) :
  str2bool (upper v) = str2bool v /\
  str2bool (lower v) = str2bool v /\
  (str2bool v = true ->
   (1 <= String.length v)%nat /\ (String.length v <= 4)%nat).
Proof.
  unfold str2bool. rewrite lower_upper, lower_lower.
  split; [reflexivity |]. split; [reflexivity |].
  cbn [existsb]. intros H.
  repeat (apply orb_prop in H; destruct H as [H | H]);
    try discriminate H;
    apply lower_eqb_length in H; rewrite H; cbn; lia.
Qed.

Lemma str2bool_case_witness :
  str2bool "True" = true /\
  str2bool (upper "True") = str2bool "True" /\
  (String.length "True" <= 4)%nat.
Proof.
  destruct (str2bool_case "True") as (H1 & _ & H3).
  split; [reflexivity |]. split; [exact H1 |].
  apply H3. reflexivity.
Defined.

(** ** The best loss when a loss may be NaN *)

Lemma float_min_Finite a b :
  float_min (Finite a) (Finite b) = Finite (py_min a b).
Proof. unfold float_min, py_min. cbn. destruct (Qltb b a); reflexivity. Qed.

Lemma float_le_refl x : x <> NaN -> float_le x x = true.
Proof.
  destruct x; cbn; try congruence. intros _. apply Qle_bool_iff, Qle_refl.
Qed.

Lemma float_le_trans x y z :
  float_le x y = true -> float_le y z = true -> float_le x z = true.
Proof.
  destruct x, y, z; cbn; try congruence.
  rewrite !Qle_bool_iff. apply Qle_trans.
Qed.

Lemma float_lt_le x y : float_lt x y = true -> float_le x y = true.
Proof.
  destruct x, y; cbn; try congruence.
  rewrite Qltb_true, Qle_bool_iff. apply Qlt_le_weak.
Qed.

Lemma float_not_lt_le x y :
  x <> NaN -> y <> NaN -> float_lt y x = false -> float_le x y = true.
Proof.
  destruct x, y; cbn; try congruence. intros _ _.
  rewrite Qltb_false, Qle_bool_iff. auto.
Qed.

Lemma float_min_cases x y : float_min x y = x \/ float_min x y = y.
Proof. unfold float_min. destruct (float_lt y x); auto. Qed.

Lemma float_min_not_nan x y :
  x <> NaN -> y <> NaN -> float_min x y <> NaN.
Proof. intros Hx Hy. destruct (float_min_cases x y) as [-> | ->]; auto. Qed.

Lemma float_min_le_first x y :
  x <> NaN -> y <> NaN -> float_le (float_min x y) x = true.
Proof.
  intros Hx Hy. unfold float_min. destruct (float_lt y x) eqn:E.
  - apply float_lt_le, E.
  - apply float_le_refl, Hx.
Qed.

Lemma float_min_le_second x y :
  x <> NaN -> y <> NaN -> float_le (float_min x y) y = true.
Proof.
  intros Hx Hy. unfold float_min. destruct (float_lt y x) eqn:E.
  - apply float_le_refl, Hy.
  - apply float_not_lt_le; assumption.
Qed.

Lemma float_eq_refl x : x <> NaN -> float_eq x x = true.
Proof. intros H. unfold float_eq. rewrite float_le_refl; auto. Qed.

Lemma float_eq_trans x y z :
  float_eq x y = true -> float_eq y z = true -> float_eq x z = true.
Proof.
  unfold float_eq. rewrite !andb_true_iff. intros [H1 H2] [H3 H4].
  split; eapply float_le_trans; eassumption.
Qed.

Lemma record_epochs_cons lg ep eps :
  record_epochs lg (ep :: eps) = record_epochs (record_epoch lg ep) eps.
Proof. reflexivity. Qed.

Lemma record_epochs_app lg eps1 eps2 :
  record_epochs lg (eps1 ++ eps2)
    = record_epochs (record_epochs lg eps1) eps2.
Proof. apply fold_left_app. Qed.

Lemma record_epoch_not_nan lg ep :
  lg_best lg <> NaN -> snd ep <> NaN -> lg_best (record_epoch lg ep) <> NaN.
Proof. intros Hb Hv. cbn. apply float_min_not_nan; assumption. Qed.

(** With no NaN about, the best loss after a list of epochs is a number
    and is not above the one before them. *)
Lemma record_epochs_best lg eps :
  lg_best lg <> NaN -> no_nan eps ->
  lg_best (record_epochs lg eps) <> NaN /\
  float_le (lg_best (record_epochs lg eps)) (lg_best lg) = true.
Proof.
  revert lg. induction eps as [| ep eps IH]; intros lg Hb Hall.
  - split; [exact Hb | apply float_le_refl, Hb].
  - inversion Hall as [| ? ? Hv Hrest]; subst.
    rewrite record_epochs_cons.
    destruct (IH (record_epoch lg ep)) as [Hn Hle];
      [apply record_epoch_not_nan; assumption | exact Hrest |].
    split; [exact Hn |].
    eapply float_le_trans; [exact Hle |].
    cbn. apply float_min_le_second; assumption.
Qed.

(** On losses that are numbers, the end of an epoch of the program is
    [record_epoch]. *)
Lemma epoch_body_ledger a w sp e s :
  res (epoch_body a w sp e s) = Ok tt ->
  ledger_of a (st (epoch_body a w sp e s))
    = record_epoch (ledger_of a s) (e, Finite (epoch_val_loss w sp e)).
Proof.
  intros Hr.
  destruct (epoch_body_spec a w sp e s) as (_ & _ & _ & R).
  rewrite Hr in R. destruct R as (Hb & Hf & _).
  fold (epoch_val_loss w sp e) in Hb, Hf.
  pose proof (latest_not_best a) as Hne.
  unfold ledger_of, record_epoch. cbn [fst snd lg_best lg_best_file].
  rewrite float_min_Finite, Hb, Hf. cbn [float_lt].
  destruct (Qltb (epoch_val_loss w sp e) (best_val_loss s)).
  - rewrite lookup_insert_ne by congruence.
    rewrite !lookup_insert_eq. reflexivity.
  - rewrite lookup_insert_eq, lookup_insert_ne by exact Hne. reflexivity.
Qed.

(** The same over the epochs of a loop that returns. *)
Lemma epoch_loop_ledger a w sp l s :
  res (for_each (epoch_body a w sp) l s) = Ok tt ->
  ledger_of a (st (for_each (epoch_body a w sp) l s))
    = record_epochs (ledger_of a s)
        (map (fun e => (e, Finite (epoch_val_loss w sp e))) l).
Proof.
  revert s. induction l as [| e l IH]; intros s Hr; [reflexivity |].
  cbn [for_each] in *. apply bind_ok in Hr as ([] & H1 & H2).
  rewrite (bind_run _ _ _ _ H1). cbn [st map].
  rewrite record_epochs_cons, <- (epoch_body_ledger a w sp e s H1).
  apply IH, H2.
Qed.

(** C3 as stated fails.  From a fresh start, validation losses 0.7, NaN
    and 0.9 leave the best loss at 0.7 after the first epoch and at 0.9
    after the third: [min(nan, 0.7)] is NaN and [min(0.9, nan)] is 0.9, so
    the best loss has gone up.  The best file still holds the record of
    the first epoch. *)
Lemma nan_loss_raises_best :
  lg_best (record_epochs fresh_ledger (firstn 1 nan_in_second_epoch))
    = Finite (7 # 10) /\
  lg_best (record_epochs fresh_ledger (firstn 2 nan_in_second_epoch)) = NaN /\
  lg_best (record_epochs fresh_ledger nan_in_second_epoch)
    = Finite (9 # 10) /\
  float_lt (lg_best (record_epochs fresh_ledger
                       (firstn 1 nan_in_second_epoch)))
           (lg_best (record_epochs fresh_ledger nan_in_second_epoch))
    = true /\
  lg_best_file (record_epochs fresh_ledger nan_in_second_epoch)
    = Some (1, Finite (7 # 10)).
Proof. repeat split. Qed.

(** C3 (amended): an epoch that reaches its end writes line 229's record
    to the latest file, and the best file then holds that same record if
    the validation mean loss is strictly below the best so far and is
    left as it was otherwise; the only [torch.save] and
    [shutil.copyfile] calls of the epoch are that save and, in the first
    case, the copy.  The best so far becomes [min(val_loss, best)].  An
    epoch that raises writes nothing, and with a non-zero print frequency
    and the logger bound whenever it is used the epoch does reach its
    end.  On floats the end of the epoch is [record_epoch], and as long as
    neither the best loss a run starts with nor any validation loss is
    NaN, the best loss at any point of the run is not above what it was
    at any earlier point. *)
Theorem checkpoint_each_epoch_no_nan a w sp e s :
  let o := epoch_body a w sp e s in
  let vl := epoch_val_loss w sp e in
  let ck := epoch_checkpoint a e vl s in
  match res o with
  | Ok _ =>
      fs (st o) !! latest_path a = Some (CheckpointFile ck) /\
      fs (st o) !! best_path a =
        (if Qltb vl (best_val_loss s) then Some (CheckpointFile ck)
         else fs s !! best_path a) /\
      fs_events (tr o) =
        EvTorchSave (latest_path a) ck ::
        (if Qltb vl (best_val_loss s)
         then [EvCopyFile (latest_path a) (best_path a)] else []) /\
      best_val_loss (st o) = py_min vl (best_val_loss s) /\
      ledger_of a (st o) = record_epoch (ledger_of a s) (e, Finite vl)
  | Err _ =>
      fs (st o) = fs s /\ fs_events (tr o) = [] /\
      best_val_loss (st o) = best_val_loss s
  end /\
  (passes_configured a -> logger_bound a s -> res o = Ok tt) /\
  (forall lg earlier later,
     lg_best lg <> NaN -> no_nan (earlier ++ later) ->
     float_le (lg_best (record_epochs lg (earlier ++ later)))
              (lg_best (record_epochs lg earlier)) = true).
Proof.
  intros o vl ck. split; [| split].
  - destruct (epoch_body_checkpoint a w sp e s) as (R & _).
    fold o vl ck in R. pose proof (epoch_body_ledger a w sp e s) as L.
    fold o vl in L. destruct (res o) as [[] | err].
    + destruct R as (R1 & R2 & R3 & R4). auto 6.
    + exact R.
  - apply epoch_body_total.
  - intros lg earlier later Hb Hall.
    apply Forall_app in Hall as [He Hl].
    rewrite record_epochs_app.
    destruct (record_epochs_best lg earlier Hb He) as [Hn _].
    apply (record_epochs_best _ later Hn Hl).
Qed.

Lemma checkpoint_each_epoch_no_nan_witness :
  res (epoch_body default_args (demo_world 0 (fun _ => 1 # 2)) demo_split 0
         (initial_state default_args (demo_world 0 (fun _ => 1 # 2)) ∅))
    = Ok tt /\
  float_le
    (lg_best (record_epochs fresh_ledger
                ([(0, Finite (7 # 10))] ++ [(1, Finite (9 # 10))])))
    (lg_best (record_epochs fresh_ledger [(0, Finite (7 # 10))])) = true.
Proof.
  destruct (checkpoint_each_epoch_no_nan default_args
              (demo_world 0 (fun _ => 1 # 2)) demo_split 0
              (initial_state default_args (demo_world 0 (fun _ => 1 # 2)) ∅))
    as (_ & Hret & Hmono).
  split.
  - apply Hret.
    + split; [discriminate | intros H; discriminate H].
    + intros H. discriminate H.
  - apply Hmono.
    + discriminate.
    + repeat constructor; discriminate.
Defined.

Lemma record_epoch_best_file lg ep :
  lg_best lg <> NaN -> snd ep <> NaN ->
  best_file_current lg -> best_file_current (record_epoch lg ep).
Proof.
  intros Hb Hv Hag. unfold best_file_current in *.
  cbn [record_epoch lg_best lg_best_file].
  destruct (float_lt (snd ep) (lg_best lg)) eqn:E.
  - apply float_eq_refl, float_min_not_nan; assumption.
  - destruct (lg_best_file lg) as [[n b] |]; [| exact Logic.I].
    eapply float_eq_trans; [exact Hag |].
    unfold float_eq. apply andb_true_iff. split.
    + unfold float_min. destruct (float_lt (lg_best lg) (snd ep)) eqn:E'.
      * apply float_le_refl, Hb.
      * apply float_not_lt_le; assumption.
    + apply float_min_le_second; assumption.
Qed.

(** X11: as long as neither the best loss a run starts with nor any
    validation loss is NaN, a best file that records the best loss so far
    keeps doing so over the ends of any number of epochs; so does a best
    file that did not exist at the start: it is still absent, or it
    records the best loss so far.  (After a NaN loss it no longer need:
    [nan_loss_raises_best].) *)
Theorem best_file_records_best lg eps :
  lg_best lg <> NaN -> no_nan eps ->
  (best_file_current lg -> best_file_current (record_epochs lg eps)) /\
  (lg_best_file lg = None ->
   match lg_best_file (record_epochs lg eps) with
   | Some (_, b) => float_eq b (lg_best (record_epochs lg eps)) = true
   | None => True
   end).
Proof.
  intros Hb Hall.
  assert (H : best_file_current lg -> best_file_current (record_epochs lg eps)).
  { revert lg Hb. induction Hall as [| ep eps Hv _ IH]; intros lg Hb Hag;
      [exact Hag |].
    rewrite record_epochs_cons. apply IH.
    - apply record_epoch_not_nan; assumption.
    - apply record_epoch_best_file; assumption. }
  split; [exact H |].
  intros Hnone. apply H. unfold best_file_current. rewrite Hnone.
  exact Logic.I.
Qed.

Lemma best_file_records_best_witness :
  best_file_current
    (record_epochs fresh_ledger
       [(0, Finite (7 # 10)); (1, Finite (9 # 10)); (2, Finite (1 # 2))]).
Proof.
  refine (proj1 (best_file_records_best fresh_ledger
    [(0, Finite (7 # 10)); (1, Finite (9 # 10)); (2, Finite (1 # 2))] _ _)
    _).
  - discriminate.
  - repeat constructor; discriminate.
  - exact Logic.I.
Defined.

(** X16: as long as neither the best loss a run starts with nor any
    validation loss is NaN, the best loss after the ends of a list of
    epochs is the minimum of the starting best and the validation losses
    of those epochs: it is not above any of them, and it is one of them.
    A NaN loss erases that history: whatever the best was, after a NaN
    loss and then a loss [x] the best is [x]. *)
Theorem best_is_minimum lg eps :
  (lg_best lg <> NaN -> no_nan eps ->
   Forall (fun x => float_le (lg_best (record_epochs lg eps)) x = true)
          (lg_best lg :: map snd eps) /\
   In (lg_best (record_epochs lg eps)) (lg_best lg :: map snd eps)) /\
  (forall n n' x,
     lg_best (record_epochs lg (eps ++ [(n, NaN); (n', x)])) = x).
Proof.
  split.
  - revert lg. induction eps as [| ep eps IH]; intros lg Hb Hall.
    + cbn. split; [| left; reflexivity].
      constructor; [apply float_le_refl, Hb | constructor].
    + inversion Hall as [| ? ? Hv Hrest]; subst.
      rewrite record_epochs_cons. cbn [map].
      destruct (IH (record_epoch lg ep)) as [Hle Hin];
        [apply record_epoch_not_nan; assumption | exact Hrest |].
      inversion Hle as [| ? ? Hhd Htl]; subst.
      cbn [record_epoch lg_best] in Hhd, Hin.
      split.
      * constructor; [| constructor; [| exact Htl]].
        -- eapply float_le_trans; [exact Hhd |].
           apply float_min_le_second; assumption.
        -- eapply float_le_trans; [exact Hhd |].
           apply float_min_le_first; assumption.
      * destruct Hin as [Hin | Hin]; [| right; right; exact Hin].
        rewrite <- Hin.
        destruct (float_min_cases (snd ep) (lg_best lg)) as [-> | ->];
          [right; left; reflexivity | left; reflexivity].
  - intros n n' x. rewrite record_epochs_app.
    cbn [record_epochs fold_left record_epoch lg_best fst snd].
    unfold float_min.
    destruct (lg_best (record_epochs lg eps)), x; reflexivity.
Qed.

Lemma best_is_minimum_witness :
  In (lg_best (record_epochs fresh_ledger
                 [(0, Finite (7 # 10)); (1, Finite (1 # 2))]))
     (lg_best fresh_ledger
        :: map snd [(0, Finite (7 # 10)); (1, Finite (1 # 2))]).
Proof.
  refine (proj2 (proj1 (best_is_minimum fresh_ledger
    [(0, Finite (7 # 10)); (1, Finite (1 # 2))]) _ _)).
  - discriminate.
  - repeat constructor; discriminate.
Defined.
